(** * presto: trajectory engine and ONIOM composite evaluator

    A shallow embedding of the molecular-dynamics driver of the repository
    ([presto/calculators.py], [presto/frame.py], [presto/trajectory.py],
    [presto/controller.py], [presto/potentials.py]) together with the
    properties its specification states about it, and further properties
    that the code itself shows.

    Conventions of the embedding:
    - a Python call either returns, raises, or never comes back; this is the
      type [outcome];
    - a Python float is the rational it denotes.  In the bookkeeping of
      frames and of the clock, where the code truncates a float, takes a
      remainder or tests floats for equality, every float operation rounds
      its exact result to the nearest float of 53 significant bits, ties to
      even ([round64]); the exponent is not bounded, so overflow and gradual
      underflow are outside the model.  The continuous quantities (momenta,
      temperature, forces) are computed exactly; the ONIOM combination is
      stated over an arbitrary carrier with its own addition and subtraction;
    - a bath temperature is a Python [int] or [float], or a numpy [int64]
      read from a file ([number]); times and energies are floats, and
      integers are not bounded to 64 bits;
    - a [cctk.OneIndexedArray] of length [n] is a list whose position [a-1]
      holds the entry of atom [a], for [1 <= a <= n];
    - a settings dictionary is a list of keys and Python values ([pyval]),
      read from the left. *)

From Stdlib Require Import ZArith QArith Qpower Lia Lqa Bool String Ascii.
From stdpp Require Import base option list strings.

Set Default Proof Using "Type".
Local Open Scope string_scope.
Local Open Scope list_scope.
Local Open Scope nat_scope.

(** ** Outcomes of a Python call *)

Inductive exn : Type :=
| AssertionError (msg : string)
| AttributeError (msg : string)
| IndexError (msg : string)
| TypeError (msg : string)
| ValueError (msg : string)
| OSError (msg : string)
| OverflowError (msg : string)
| ZeroDivisionError.

Inductive outcome (A : Type) : Type :=
| Returned (a : A)
| Raised (e : exn)
| Blocked.

Arguments Returned {A} a.
Arguments Raised {A} e.
Arguments Blocked {A}.

#[global] Instance outcome_ret : MRet outcome := fun A a => Returned a.
#[global] Instance outcome_bind : MBind outcome := fun A B k m =>
  match m with
  | Returned a => k a
  | Raised e => Raised e
  | Blocked => Blocked
  end.

(** [assert cond, msg] *)
Definition py_assert (cond : bool) (msg : string) : outcome unit :=
  if cond then Returned tt else Raised (AssertionError msg).

Definition returns {A : Type} (m : outcome A) : Prop := exists a, m = Returned a.
Definition raises {A : Type} (m : outcome A) : Prop := exists e, m = Raised e.

Fixpoint omapM {A B : Type} (f : A -> outcome B) (l : list A) : outcome (list B) :=
  match l with
  | [] => Returned []
  | x :: l' => y ← f x; ys ← omapM f l'; Returned (y :: ys)
  end.

(** ** Sequences the way Python indexes them *)

(** [l[-1]] *)
Definition py_last {A : Type} (l : list A) : outcome A :=
  match last l with
  | Some x => Returned x
  | None => Raised (IndexError "list index out of range")
  end.

(** A slice bound as [slice.indices] clamps it for a sequence of length [n]. *)
Definition clamp_index (n : nat) (i : Z) : nat :=
  if (i <? 0)%Z then Z.to_nat (Z.max 0 (Z.of_nat n + i))
  else Nat.min n (Z.to_nat i).

(** [l[start:stop]] with step [None]; a missing bound is [None]. *)
Definition py_slice {A : Type} (start stop : option Z) (l : list A) : list A :=
  let n := length l in
  let lo := match start with Some i => clamp_index n i | None => 0 end in
  let hi := match stop with Some i => clamp_index n i | None => n end in
  take (hi - lo) (drop lo l).

(** ** One-indexed arrays and numpy row operations *)

Module OneIndexed.

(** [arr[a]] for a one-based atom number [a]. *)
Definition get {A : Type} (arr : list A) (a : nat) : outcome A :=
  match a with
  | O => Raised (IndexError "this is a 1-indexed array")
  | S i =>
      match arr !! i with
      | Some x => Returned x
      | None => Raised (IndexError "index out of bounds")
      end
  end.

(** [arr[idx]] for an integer index array: the selected rows, in the order
    of [idx]; the result is a fresh array. *)
Definition take_atoms {A : Type} (arr : list A) (idx : list nat) : outcome (list A) :=
  omapM (get arr) idx.

(** One row store [arr[a] = v]. *)
Definition set {A : Type} (arr : list A) (a : nat) (v : A) : outcome (list A) :=
  match a with
  | O => Raised (IndexError "this is a 1-indexed array")
  | S i =>
      if decide (i < length arr) then Returned (<[i := v]> arr)
      else Raised (IndexError "index out of bounds")
  end.

(** Row stores for paired indices and values, left to right, so that a
    repeated index keeps its last value. *)
Fixpoint put_rows {A : Type} (arr : list A) (idx : list nat) (vals : list A)
  : outcome (list A) :=
  match idx, vals with
  | a :: idx', v :: vals' => arr' ← set arr a v; put_rows arr' idx' vals'
  | _, _ => Returned arr
  end.

(** [arr[idx] = vals]: [vals] must have one row per index, or a single row
    that is broadcast to all of them. *)
Definition put_atoms {A : Type} (arr : list A) (idx : list nat) (vals : list A)
  : outcome (list A) :=
  if decide (length vals = length idx) then put_rows arr idx vals
  else match vals with
       | [v] => put_rows arr idx (replicate (length idx) v)
       | _ => Raised (ValueError "shape mismatch: value array could not be broadcast to indexing result")
       end.

(** [xs (op) ys] on two arrays of rows, with numpy's broadcasting of the
    leading dimension: equal lengths, or one side a single row. *)
Definition broadcast2 {A : Type} (op : A -> A -> A) (xs ys : list A) : outcome (list A) :=
  if decide (length xs = length ys) then Returned (zip_with op xs ys)
  else match xs, ys with
       | [x], _ => Returned (map (op x) ys)
       | _, [y] => Returned (map (fun x => op x y) xs)
       | _, _ => Raised (ValueError "operands could not be broadcast together")
       end.

End OneIndexed.

(** ** Calculators ([presto/calculators.py]) *)

Module Calculators.
Section Calculators.

(** The carrier of energies and force components, and the type of the
    optional diagnostic [time] argument. *)
Context {num time_t : Type}.
Variables (zero : num) (nadd nsub : num -> num -> num).

Definition vec3 : Type := num * num * num.

Definition vadd (u v : vec3) : vec3 :=
  let '(u1, u2, u3) := u in let '(v1, v2, v3) := v in
  (nadd u1 v1, nadd u2 v2, nadd u3 v3).

Definition vsub (u v : vec3) : vec3 :=
  let '(u1, u2, u3) := u in let '(v1, v2, v3) := v in
  (nsub u1 v1, nsub u2 v2, nsub u3 v3).

(** What [evaluate] computes: [energy, forces]. *)
Definition result : Type := num * list vec3.

(** The [pipe] argument of [evaluate]: [None], a
    [multiprocessing.connection.Connection], or any other object. *)
Inductive pipe_arg : Type :=
| NoPipe
| Connection (c : nat)
| NotAConnection.

(** What has been sent on, and which connections have been closed. *)
Record pipes : Type := mkPipes {
  sent : list (nat * result);
  closed : list nat;
}.

(** A constraint's [evaluate(positions, time=time)] returns [(f, e)]. *)
Definition constraint : Type := list vec3 -> option time_t -> outcome (list vec3 * num).

(** [forces += f], in place: [f] has the shape of [forces] or is one row. *)
Definition iadd_rows (forces f : list vec3) : outcome (list vec3) :=
  if decide (length f = length forces) then Returned (zip_with vadd forces f)
  else match f with
       | [v] => Returned (map (fun x => vadd x v) forces)
       | _ => Raised (ValueError "operands could not be broadcast together")
       end.

(** [for c in self.constraints: f, e = c.evaluate(...); energy += e; forces += f] *)
Fixpoint apply_constraints (constraints : list constraint) (positions : list vec3)
    (time : option time_t) (energy : num) (forces : list vec3) : outcome result :=
  match constraints with
  | [] => Returned (energy, forces)
  | c :: cs =>
      '(f, e) ← c positions time;
      let energy := nadd energy e in
      forces ← iadd_rows forces f;
      apply_constraints cs positions time energy forces
  end.

(** The common tail of [NullCalculator], [XTBCalculator] and
    [GaussianCalculator]:
    [if pipe is not None: assert isinstance(...); pipe.send(...); pipe.close()
     else: return energy, forces].
    The Python value returned is [None] on the first branch. *)
Definition send_or_return (pipe : pipe_arg) (energy : num) (forces : list vec3)
    (s : pipes) : outcome (option result) * pipes :=
  match pipe with
  | NoPipe => (Returned (Some (energy, forces)), s)
  | NotAConnection => (Raised (AssertionError "not a valid Connection instance!"), s)
  | Connection c =>
      if decide (c ∈ closed s) then (Raised (OSError "handle is closed"), s)
      else (Returned None,
            {| sent := sent s ++ [(c, (energy, forces))]; closed := closed s ++ [c] |})
  end.

Definition then_send_or_return (pipe : pipe_arg) (computed : outcome result) (s : pipes)
  : outcome (option result) * pipes :=
  match computed with
  | Returned (energy, forces) => send_or_return pipe energy forces s
  | Raised e => (Raised e, s)
  | Blocked => (Blocked, s)
  end.

(** [NullCalculator.evaluate] *)
Definition NullCalculator_evaluate (constraints : list constraint)
    (atomic_numbers : list Z) (positions : list vec3) (high_atoms : option (list nat))
    (pipe : pipe_arg) (time : option time_t) (s : pipes)
  : outcome (option result) * pipes :=
  let energy := zero in
  let forces := map (fun _ => (zero, zero, zero)) positions in
  then_send_or_return pipe (apply_constraints constraints positions time energy forces) s.



(** *** The ONIOM composite *)

(** What the coordinator observes of one worker process: the message that
    arrived on the worker's dedicated pipe, if any, and [Process.exitcode]
    after [join(3600)] ([None] while the process is still alive). *)
Record worker : Type := mkWorker {
  w_sent : option result;
  w_exitcode : option Z;
}.

(** [parent.recv()]: the message of the worker.  When the worker never
    sends, the receive does not come back (the coordinator keeps the child
    end of the pipe open). *)
Definition recv (w : worker) : outcome result :=
  match w_sent w with
  | Some m => Returned m
  | None => Blocked
  end.

Definition exit_ok (w : worker) : bool :=
  match w_exitcode w with
  | Some c => (c =? 0)%Z
  | None => false
  end.

(** The three calculators, as run in a child process on the given atomic
    numbers and positions with a fresh pipe. *)
Variables high_calculator low_calculator full_calculator :
  list Z -> list vec3 -> option time_t -> worker.

(** [ONIOMCalculator.evaluate] *)
Definition ONIOMCalculator_evaluate
    (atomic_numbers : list Z) (positions : list vec3) (high_atoms : list nat)
    (pipe : pipe_arg) (time : option time_t) (s : pipes)
  : outcome (option result) * pipes :=
  (_ ← py_assert (0 <? length high_atoms) "no point in doing ONIOM without a high layer!";
   high_atomic_numbers ← OneIndexed.take_atoms atomic_numbers high_atoms;
   high_positions ← OneIndexed.take_atoms positions high_atoms;
   let process_hh := high_calculator high_atomic_numbers high_positions time in
   let process_hl := low_calculator high_atomic_numbers high_positions time in
   let process_ll := full_calculator atomic_numbers positions time in
   '(e_hh, f_hh) ← recv process_hh;
   '(e_hl, f_hl) ← recv process_hl;
   '(e_ll, f_ll) ← recv process_ll;
   _ ← py_assert (exit_ok process_hh) "process_hh exited not-ok";
   _ ← py_assert (exit_ok process_hl) "process_hl exited not-ok";
   _ ← py_assert (exit_ok process_ll) "process_ll exited not-ok";
   let energy := nsub (nadd e_hh e_ll) e_hl in
   let forces := f_ll in
   f_ll_high ← OneIndexed.take_atoms f_ll high_atoms;
   sum ← OneIndexed.broadcast2 vadd f_hh f_ll_high;
   rhs ← OneIndexed.broadcast2 vsub sum f_hl;
   forces ← OneIndexed.put_atoms forces high_atoms rhs;
   Returned (Some (energy, forces)),
   s).

End Calculators.
End Calculators.

(** ** Rationals standing for Python floats *)

Local Open Scope Q_scope.

Definition V3 : Type := Q * Q * Q.

Definition v3_zero : V3 := (0, 0, 0).
Definition v3_add (u v : V3) : V3 :=
  let '(u1, u2, u3) := u in let '(v1, v2, v3) := v in (u1 + v1, u2 + v2, u3 + v3).
Definition v3_sub (u v : V3) : V3 :=
  let '(u1, u2, u3) := u in let '(v1, v2, v3) := v in (u1 - v1, u2 - v2, u3 - v3).
Definition v3_scale (c : Q) (v : V3) : V3 :=
  let '(v1, v2, v3) := v in (c * v1, c * v2, c * v3).
Definition v3_dot (u v : V3) : Q :=
  let '(u1, u2, u3) := u in let '(v1, v2, v3) := v in u1 * v1 + u2 * v2 + u3 * v3.
(** [np.cross(u, v)] *)
Definition v3_cross (u v : V3) : V3 :=
  let '(u1, u2, u3) := u in let '(v1, v2, v3) := v in
  (u2 * v3 - u3 * v2, u3 * v1 - u1 * v3, u1 * v2 - u2 * v1).
(** [np.sum(rows, axis=0)] *)
Definition v3_sum (rows : list V3) : V3 := foldr v3_add v3_zero rows.
Definition q_sum (l : list Q) : Q := foldr Qplus 0 l.

Definition q_is_zero (q : Q) : bool := Qeq_bool q 0.
Definition q_ltb (a b : Q) : bool := negb (Qle_bool b a).
Definition q_leb (a b : Q) : bool := Qle_bool a b.

(** [int(q)]: truncation towards zero. *)
Definition py_int (q : Q) : Z := Z.quot (Qnum q) (Zpos (Qden q)).

(** [a / b] of a continuous quantity. *)
Definition py_div (a b : Q) : outcome Q :=
  if q_is_zero b then Raised ZeroDivisionError else Returned (a / b).

(** *** Rounding to a float *)

(** The integer nearest to [n / d] for a positive [d]; a tie goes to the
    even neighbour. *)
Definition round_half_even (n d : Z) : Z :=
  let q := (n / d)%Z in
  match (2 * (n mod d) ?= d)%Z with
  | Lt => q
  | Gt => (q + 1)%Z
  | Eq => if Z.even q then q else (q + 1)%Z
  end.

(** The float nearest to the positive rational [n / d]: a significand [m]
    of 53 bits, from [2^52] to [2^53], times a power of two, in lowest
    terms.  [N / D] is [n / d] scaled by a power of two so that it lies
    strictly between [2^52] and [2^54]; one more halving brings it below
    [2^53]. *)
Definition round64_pos (n d : positive) : Q :=
  let e0 := (Z.log2 (Zpos n) - Z.log2 (Zpos d) - 53)%Z in
  let N := (Zpos n * 2 ^ Z.max 0 (- e0))%Z in
  let D := (Zpos d * 2 ^ Z.max 0 e0)%Z in
  let '(D, e) := if (2 ^ 53 * D <=? N)%Z then ((2 * D)%Z, (e0 + 1)%Z) else (D, e0) in
  Qred (inject_Z (round_half_even N D) * 2 ^ e).

(** The float nearest to [q], ties to even. *)
Definition round64 (q : Q) : Q :=
  let q := Qred q in
  match Qnum q with
  | Z0 => 0
  | Zpos n => round64_pos n (Qden q)
  | Zneg n => - round64_pos n (Qden q)
  end.

(** [a + b], [a - b], [a * b], [a / b] on floats ([b] not zero in the
    last), and [float(z)] for an integer that meets a float in an
    operation. *)
Definition float_add (a b : Q) : Q := round64 (a + b).
Definition float_sub (a b : Q) : Q := round64 (a - b).
Definition float_mul (a b : Q) : Q := round64 (a * b).
Definition float_div (a b : Q) : Q := round64 (a / b).
Definition float_of_int (z : Z) : Q := round64 (inject_Z z).

(** C's [fmod(a, b)] for [b] not zero: [a] minus [b] times the quotient
    truncated towards zero.  The result is a float, no rounding occurs. *)
Definition fmod (a b : Q) : Q := a - b * inject_Z (py_int (a / b)).

(** [a % b] on floats: [fmod], then brought to the sign of the divisor by
    one addition. *)
Definition py_mod (a b : Q) : outcome Q :=
  if q_is_zero b then Raised ZeroDivisionError
  else
    let rem := fmod a b in
    if q_is_zero rem then Returned 0
    else if xorb (q_ltb b 0) (q_ltb rem 0) then Returned (float_add rem b)
    else Returned rem.

(** [np.linalg.norm(v) < tol] for a positive [tol], decided on the squares. *)
Definition norm_below (v : V3) (tol : Q) : bool := q_ltb (v3_dot v v) (tol * tol).

Definition tolerance : Q := 1 # 10000.

(** ** Frames ([presto/frame.py]) *)

(** A bath temperature as the code meets it: a Python [int] ([bool] left
    aside), a Python [float] (a numpy [float64] is an instance of [float]),
    or a numpy [int64], which is no instance of [int]. *)
Inductive number : Type :=
| Integer (z : Z)
| Floating (q : Q)
| NumpyInteger (z : Z).

Definition number_value (v : number) : Q :=
  match v with
  | Integer z | NumpyInteger z => inject_Z z
  | Floating q => q
  end.

(** [isinstance(v, float) or isinstance(v, int)] *)
Definition is_numeric (v : number) : bool :=
  match v with
  | NumpyInteger _ => false
  | _ => true
  end.

(** A [Frame] object.  [positions], [velocities], [accelerations],
    [bath_temperature] and [energy] are set by [__init__]; [time] and
    [elapsed] are attributes that other modules read but [__init__] never
    sets, so they are present only when something else has stored them. *)
Record Frame : Type := mkFrame {
  positions : list V3;
  velocities : list V3;
  accelerations : list V3;
  bath_temperature : number;
  energy : Q;
  time : option Q;
  elapsed : option Q;
}.

(** Reading an attribute that may be absent. *)
Definition getattr {A : Type} (attr : option A) (name : string) : outcome A :=
  match attr with
  | Some a => Returned a
  | None => Raised (AttributeError ("'Frame' object has no attribute '" +:+ name +:+ "'"))
  end.

Definition Frame_time (f : Frame) : outcome Q := getattr (time f) "time".
Definition Frame_elapsed (f : Frame) : outcome Q := getattr (elapsed f) "elapsed".

(** The keyword parameters of [Frame.__init__] after [trajectory, x, v, a]. *)
Definition Frame_init_keywords : list string := ["bath_temperature"; "energy"].

Definition kwarg (name : string) (kwargs : list (string * number)) (default : number)
  : number :=
  match list_find (fun kv => bool_decide (kv.1 = name)) kwargs with
  | Some (_, (_, v)) => v
  | None => default
  end.

(** [Frame(trajectory, x, v, a, **kwargs)].  Argument binding comes first: a
    keyword that is not a parameter raises [TypeError] before the body runs. *)
Definition Frame_init (x v a : list V3) (kwargs : list (string * number)) : outcome Frame :=
  match list_find (fun kv => negb (bool_decide (kv.1 ∈ Frame_init_keywords))) kwargs with
  | Some (_, (k, _)) =>
      Raised (TypeError ("__init__() got an unexpected keyword argument '" +:+ k +:+ "'"))
  | None =>
      let bath_temperature := kwarg "bath_temperature" kwargs (Integer 298) in
      let energy := kwarg "energy" kwargs (Floating 0) in
      _ ← py_assert (bool_decide (length x = length v))
            "length of positions not same as length of velocities!";
      _ ← py_assert (bool_decide (length x = length a))
            "length of positions not same as length of accelerations!";
      _ ← py_assert (is_numeric bath_temperature) "bath temperature needs to be numeric!";
      _ ← py_assert (q_leb 0 (number_value bath_temperature))
            "bath temperature must be positive or 0";
      Returned {| positions := x; velocities := v; accelerations := a;
                  bath_temperature := bath_temperature; energy := number_value energy;
                  time := None; elapsed := None |}
  end.

(** The integrator's [next(frame, forwards)]: [energy, new_x, new_v, new_a]. *)
Definition integrator : Type :=
  Frame -> bool -> outcome (Q * list V3 * list V3 * list V3).

(** [self.energy = energy] *)
Definition set_energy (e : Q) (f : Frame) : Frame :=
  {| positions := positions f; velocities := velocities f;
     accelerations := accelerations f; bath_temperature := bath_temperature f;
     energy := e; time := time f; elapsed := elapsed f |}.

(** [Frame.next(temp, forwards)]: the frame itself after the call (its
    energy is stored as soon as the integrator has returned), and the new
    frame or the failure of the call. *)
Definition Frame_next (integ : integrator) (self : Frame) (temp : option number)
    (forwards : bool) : Frame * outcome Frame :=
  let temp := match temp with Some t => t | None => bath_temperature self end in
  if is_numeric temp then
    match integ self forwards with
    | Returned (energy, new_x, new_v, new_a) =>
        let self := set_energy energy self in
        (self, Frame_init new_x new_v new_a [("bath_temperature", temp)])
    | Raised e => (self, Raised e)
    | Blocked => (self, Blocked)
    end
  else (self, Raised (AssertionError "temp must be numeric!")).

(** [masses.reshape(-1,1) * rows] *)
Definition scale_rows (masses : list Q) (rows : list V3) : outcome (list V3) :=
  if decide (length masses = length rows) then Returned (zip_with v3_scale masses rows)
  else match masses, rows with
       | [m], _ => Returned (map (v3_scale m) rows)
       | _, [r] => Returned (map (fun m => v3_scale m r) masses)
       | _, _ => Raised (ValueError "operands could not be broadcast together")
       end.

(** [Frame.remove_com_motion], for the masses of the frame's trajectory.  A
    division by zero yields non-finite entries in numpy; no norm of such an
    array is below the tolerance, so the next assertion fails. *)
Definition remove_com_motion (masses : list Q) (self : Frame) : outcome Frame :=
  (* move centroid to origin *)
  let n := inject_Z (Z.of_nat (length (positions self))) in
  let centroid := v3_scale (/ n) (v3_sum (positions self)) in
  let positions := map (fun x => v3_sub x centroid) (positions self) in
  (* subtract out center-of-mass translational motion; the correction is
     tiled to one row per velocity *)
  mv ← scale_rows masses (velocities self);
  let com_translation := v3_sum mv in
  let total_mass := q_sum masses in
  let correction_tran := v3_scale (/ total_mass) com_translation in
  let velocities := map (fun v => v3_sub v correction_tran) (velocities self) in
  let finite1 := bool_decide (velocities = []) || negb (q_is_zero total_mass) in
  mv ← scale_rows masses velocities;
  _ ← py_assert (finite1 && norm_below (v3_sum mv) tolerance)
        "didn't remove COM translation well enough!";
  (* subtract out center-of-mass rotational motion *)
  mx ← scale_rows masses positions;
  vxmx ← OneIndexed.broadcast2 v3_cross velocities mx;
  let com_rotation := v3_sum vxmx in
  let w := v3_scale (/ total_mass) com_rotation in
  xw ← OneIndexed.broadcast2 v3_cross positions (replicate (length velocities) w);
  correction_r ← OneIndexed.broadcast2 (fun c x => v3_scale (/ v3_dot x x) c) xw positions;
  let finite2 := forallb (fun x => negb (q_is_zero (v3_dot x x))) positions in
  velocities ← OneIndexed.broadcast2 v3_sub velocities correction_r;
  mv ← scale_rows masses velocities;
  _ ← py_assert (finite2 && norm_below (v3_sum mv) tolerance)
        "didn't remove COM translation well enough!";
  vxx ← OneIndexed.broadcast2 v3_cross velocities positions;
  mc ← scale_rows masses vxx;
  _ ← py_assert (norm_below (v3_sum mc) tolerance)
        "didn't remove COM rotation well enough!";
  Returned {| positions := positions; velocities := velocities;
              accelerations := accelerations self;
              bath_temperature := bath_temperature self; energy := energy self;
              time := time self; elapsed := elapsed self |}.

(** ** Trajectories and checkpoints ([presto/trajectory.py]) *)

(** The class of the trajectory object, as [isinstance] sees it in the
    controller.  [EquilibrationTrajectory] and [ReactionTrajectory] are
    tested for but declared in no module of the repository shown here, so
    the class is an input. *)
Inductive trajectory_kind : Type :=
| PlainTrajectory
| EquilibrationTrajectory
| ReactionTrajectory.

(** The element type of an array or of a dataset. *)
Inductive dtype : Type :=
| int64
| float64.

(** The HDF5 checkpoint file: four attributes and six datasets.  A dataset
    keeps the element type it was created with.  Times, energies and the
    three arrays are floats: the code gives a frame the time [0.0] or a sum
    of float timesteps, and the energy [0.0] or what the integrator
    computes.  The bath temperatures are integers or floats, as
    [temperatures_dtype] says (the default temperature is the integer 298),
    and the rows of an integer dataset are held as the rationals of its
    integers. *)
Record Checkpoint : Type := mkCheckpoint {
  attr_atomic_numbers : list Z;
  attr_masses : list Q;
  attr_finished : bool;
  attr_forwards : bool;
  all_times : list Q;
  all_energies : list Q;
  all_positions : list (list V3);
  all_velocities : list (list V3);
  all_accelerations : list (list V3);
  bath_temperatures : list Q;
  temperatures_dtype : dtype;
}.

Record Trajectory : Type := mkTrajectory {
  kind : trajectory_kind;
  timestep : Q;
  frames : list Frame;
  stop_time : Q;
  atomic_numbers : list Z;
  masses : list Q;
  active_atoms : list nat;
  finished : bool;
  forwards : bool;
  checkpoint_filename : option string;
  save_interval : Z;
  buffer : Z;
  bath_scheduler : Q -> outcome number;
  termination_function : Frame -> outcome bool;
  time_after_finished : Q;
}.

(** The trajectory object, the file at its checkpoint path ([None] when the
    path does not exist), and whether this process holds the lock. *)
Record world : Type := mkWorld {
  traj : Trajectory;
  file : option Checkpoint;
  lock_held : bool;
}.

(** Stateful calls: the world is threaded through, and survives a raise. *)
Record M (A : Type) : Type := mkM { runM : world -> outcome A * world }.
Arguments mkM {A} _.
Arguments runM {A} _ _.

#[global] Instance M_ret : MRet M := fun A a => mkM (fun w => (Returned a, w)).
#[global] Instance M_bind : MBind M := fun A B k m =>
  mkM (fun w =>
         match runM m w with
         | (Returned a, w') => runM (k a) w'
         | (Raised e, w') => (Raised e, w')
         | (Blocked, w') => (Blocked, w')
         end).

Definition lift {A : Type} (o : outcome A) : M A := mkM (fun w => (o, w)).
Definition raise {A : Type} (e : exn) : M A := lift (Raised e).
Definition get_traj : M Trajectory := mkM (fun w => (Returned (traj w), w)).
Definition get_file : M (option Checkpoint) := mkM (fun w => (Returned (file w), w)).
Definition modify_traj (f : Trajectory -> Trajectory) : M unit :=
  mkM (fun w => (Returned tt, {| traj := f (traj w); file := file w; lock_held := lock_held w |})).
Definition put_file (h5 : Checkpoint) : M unit :=
  mkM (fun w => (Returned tt, {| traj := traj w; file := Some h5; lock_held := lock_held w |})).
(** [self.lock.acquire()] and [self.lock.release()] *)
Definition lock_acquire : M unit :=
  mkM (fun w => (Returned tt, {| traj := traj w; file := file w; lock_held := true |})).
Definition lock_release : M unit :=
  mkM (fun w => (Returned tt, {| traj := traj w; file := file w; lock_held := false |})).

Definition with_frames (fs : list Frame) (t : Trajectory) : Trajectory :=
  {| kind := kind t; timestep := timestep t; frames := fs; stop_time := stop_time t;
     atomic_numbers := atomic_numbers t; masses := masses t; active_atoms := active_atoms t;
     finished := finished t; forwards := forwards t;
     checkpoint_filename := checkpoint_filename t; save_interval := save_interval t;
     buffer := buffer t; bath_scheduler := bath_scheduler t;
     termination_function := termination_function t;
     time_after_finished := time_after_finished t |}.

Definition with_finished (b : bool) (t : Trajectory) : Trajectory :=
  {| kind := kind t; timestep := timestep t; frames := frames t; stop_time := stop_time t;
     atomic_numbers := atomic_numbers t; masses := masses t; active_atoms := active_atoms t;
     finished := b; forwards := forwards t;
     checkpoint_filename := checkpoint_filename t; save_interval := save_interval t;
     buffer := buffer t; bath_scheduler := bath_scheduler t;
     termination_function := termination_function t;
     time_after_finished := time_after_finished t |}.

(** The attributes [load_from_checkpoint] copies from the file. *)
Definition with_attrs (h5 : Checkpoint) (t : Trajectory) : Trajectory :=
  {| kind := kind t; timestep := timestep t; frames := frames t; stop_time := stop_time t;
     atomic_numbers := attr_atomic_numbers h5; masses := attr_masses h5;
     active_atoms := active_atoms t;
     finished := attr_finished h5; forwards := attr_forwards h5;
     checkpoint_filename := checkpoint_filename t; save_interval := save_interval t;
     buffer := buffer t; bath_scheduler := bath_scheduler t;
     termination_function := termination_function t;
     time_after_finished := time_after_finished t |}.

(** [h5.attrs['finished'] = self.finished; h5.attrs['forwards'] = self.forwards] *)
Definition store_flags (t : Trajectory) (h5 : Checkpoint) : Checkpoint :=
  {| attr_atomic_numbers := attr_atomic_numbers h5; attr_masses := attr_masses h5;
     attr_finished := finished t; attr_forwards := forwards t;
     all_times := all_times h5; all_energies := all_energies h5;
     all_positions := all_positions h5; all_velocities := all_velocities h5;
     all_accelerations := all_accelerations h5;
     bath_temperatures := bath_temperatures h5;
     temperatures_dtype := temperatures_dtype h5 |}.

(** [has_checkpoint] *)
Definition has_checkpoint (w : world) : bool :=
  match checkpoint_filename (traj w) with
  | None => false
  | Some _ => match file w with Some _ => true | None => false end
  end.

(** [dataset.resize((n, ...))]: new rows hold the fill value. *)
Definition resize {A : Type} (n : nat) (fill : A) (arr : list A) : list A :=
  take n arr ++ replicate (n - length arr) fill.

(** [dataset[-k:] = vals] for [k > 0]. *)
Definition assign_tail {A : Type} (k : nat) (vals arr : list A) : outcome (list A) :=
  let region := Nat.min k (length arr) in
  if decide (length vals = region) then Returned (take (length arr - region) arr ++ vals)
  else match vals with
       | [v] => Returned (take (length arr - region) arr ++ replicate region v)
       | _ => Raised (TypeError "Can't broadcast to the selection")
       end.

(** [np.stack(rows)] into a dataset whose rows have [n_atoms] entries: the
    list must not be empty, and the model rejects a row of any other width. *)
Definition py_stack (n_atoms : nat) (rows : list (list V3)) : outcome (list (list V3)) :=
  match rows with
  | [] => Raised (ValueError "need at least one array to stack")
  | _ =>
      if forallb (fun r => bool_decide (length r = n_atoms)) rows then Returned rows
      else Raised (ValueError "all input arrays must have the same shape")
  end.

(** [self.timestep * self.save_interval], a float times an integer. *)
Definition save_period (self : Trajectory) : Q :=
  float_mul (timestep self) (float_of_int (save_interval self)).

(** [int((last_run_time - last_saved_time) / (self.timestep*self.save_interval))].
    [last_saved_time] is a numpy scalar read from the file, so the
    difference and the quotient are numpy scalars: a division by zero gives
    an infinity or a nan, which [int] refuses. *)
Definition count_new_frames (last_run_time last_saved_time timestep : Q) (save_interval : Z)
  : outcome Z :=
  let elapsed := float_sub last_run_time last_saved_time in
  let period := float_mul timestep (float_of_int save_interval) in
  if q_is_zero period then
    if q_is_zero elapsed then Raised (ValueError "cannot convert float NaN to integer")
    else Raised (OverflowError "cannot convert float infinity to integer")
  else Returned (py_int (float_div elapsed period)).

(** *** Arrays of numbers *)

Definition is_integral (v : number) : bool :=
  match v with
  | Floating _ => false
  | _ => true
  end.

(** The element type of [np.asarray(vals)] and of [np.stack(vals)]: integers
    alone make an integer array, one float makes a float array, and so does
    the empty list. *)
Definition array_dtype (vals : list number) : dtype :=
  match vals with
  | [] => float64
  | _ => if forallb is_integral vals then int64 else float64
  end.

(** One number as an entry of an array of the given element type. *)
Definition as_dtype (d : dtype) (v : number) : Q :=
  match d, v with
  | float64, Floating q => q
  | float64, (Integer z | NumpyInteger z) => float_of_int z
  | int64, (Integer z | NumpyInteger z) => inject_Z z
  | int64, Floating q => inject_Z (py_int q)
  end.

(** [np.asarray(vals)] *)
Definition np_asarray (vals : list number) : dtype * list Q :=
  let d := array_dtype vals in (d, map (as_dtype d) vals).

(** [np.stack(vals)] of numbers: the list must not be empty. *)
Definition np_stack (vals : list number) : outcome (dtype * list Q) :=
  match vals with
  | [] => Raised (ValueError "need at least one array to stack")
  | _ => Returned (np_asarray vals)
  end.

(** The conversion of one entry on a write into a dataset of another element
    type: a float is truncated towards zero, an integer becomes the nearest
    float. *)
Definition convert (source target : dtype) (q : Q) : Q :=
  match source, target with
  | float64, int64 => inject_Z (py_int q)
  | int64, float64 => round64 q
  | _, _ => q
  end.

(** The rows that [dataset[...] = array] writes. *)
Definition written_rows (target : dtype) (array : dtype * list Q) : list Q :=
  map (convert array.1 target) array.2.

(** [dataset[i]]: a numpy scalar of the element type of the dataset. *)
Definition read_scalar (d : dtype) (q : Q) : number :=
  match d with
  | int64 => NumpyInteger (py_int q)
  | float64 => Floating q
  end.

(** The selection loops of [save]: frames not later than [last_saved_time]
    are skipped (when there is one), and of the others those whose time is a
    multiple of [period] are kept. *)
Fixpoint frames_to_add (last_saved_time : option Q) (period : Q) (fs : list Frame)
  : outcome (list Frame) :=
  match fs with
  | [] => Returned []
  | frame :: fs' =>
      t ← Frame_time frame;
      if match last_saved_time with Some s => q_leb t s | None => false end
      then frames_to_add last_saved_time period fs'
      else
        r ← py_mod t period;
        rest ← frames_to_add last_saved_time period fs';
        Returned (if q_is_zero r then frame :: rest else rest)
  end.

Definition with_times (l : list Q) (h5 : Checkpoint) : Checkpoint :=
  {| attr_atomic_numbers := attr_atomic_numbers h5; attr_masses := attr_masses h5;
     attr_finished := attr_finished h5; attr_forwards := attr_forwards h5;
     all_times := l; all_energies := all_energies h5;
     all_positions := all_positions h5; all_velocities := all_velocities h5;
     all_accelerations := all_accelerations h5;
     bath_temperatures := bath_temperatures h5;
     temperatures_dtype := temperatures_dtype h5 |}.
Definition with_energies (l : list Q) (h5 : Checkpoint) : Checkpoint :=
  {| attr_atomic_numbers := attr_atomic_numbers h5; attr_masses := attr_masses h5;
     attr_finished := attr_finished h5; attr_forwards := attr_forwards h5;
     all_times := all_times h5; all_energies := l;
     all_positions := all_positions h5; all_velocities := all_velocities h5;
     all_accelerations := all_accelerations h5;
     bath_temperatures := bath_temperatures h5;
     temperatures_dtype := temperatures_dtype h5 |}.
Definition with_positions (l : list (list V3)) (h5 : Checkpoint) : Checkpoint :=
  {| attr_atomic_numbers := attr_atomic_numbers h5; attr_masses := attr_masses h5;
     attr_finished := attr_finished h5; attr_forwards := attr_forwards h5;
     all_times := all_times h5; all_energies := all_energies h5;
     all_positions := l; all_velocities := all_velocities h5;
     all_accelerations := all_accelerations h5;
     bath_temperatures := bath_temperatures h5;
     temperatures_dtype := temperatures_dtype h5 |}.
Definition with_velocities (l : list (list V3)) (h5 : Checkpoint) : Checkpoint :=
  {| attr_atomic_numbers := attr_atomic_numbers h5; attr_masses := attr_masses h5;
     attr_finished := attr_finished h5; attr_forwards := attr_forwards h5;
     all_times := all_times h5; all_energies := all_energies h5;
     all_positions := all_positions h5; all_velocities := l;
     all_accelerations := all_accelerations h5;
     bath_temperatures := bath_temperatures h5;
     temperatures_dtype := temperatures_dtype h5 |}.
Definition with_accelerations (l : list (list V3)) (h5 : Checkpoint) : Checkpoint :=
  {| attr_atomic_numbers := attr_atomic_numbers h5; attr_masses := attr_masses h5;
     attr_finished := attr_finished h5; attr_forwards := attr_forwards h5;
     all_times := all_times h5; all_energies := all_energies h5;
     all_positions := all_positions h5; all_velocities := all_velocities h5;
     all_accelerations := l;
     bath_temperatures := bath_temperatures h5;
     temperatures_dtype := temperatures_dtype h5 |}.
Definition with_temperatures (l : list Q) (h5 : Checkpoint) : Checkpoint :=
  {| attr_atomic_numbers := attr_atomic_numbers h5; attr_masses := attr_masses h5;
     attr_finished := attr_finished h5; attr_forwards := attr_forwards h5;
     all_times := all_times h5; all_energies := all_energies h5;
     all_positions := all_positions h5; all_velocities := all_velocities h5;
     all_accelerations := all_accelerations h5;
     bath_temperatures := l;
     temperatures_dtype := temperatures_dtype h5 |}.
(** [h5.create_dataset("bath_temperatures", data=array, ...)] *)
Definition create_temperatures (array : dtype * list Q) (h5 : Checkpoint) : Checkpoint :=
  {| attr_atomic_numbers := attr_atomic_numbers h5; attr_masses := attr_masses h5;
     attr_finished := attr_finished h5; attr_forwards := attr_forwards h5;
     all_times := all_times h5; all_energies := all_energies h5;
     all_positions := all_positions h5; all_velocities := all_velocities h5;
     all_accelerations := all_accelerations h5;
     bath_temperatures := array.2;
     temperatures_dtype := array.1 |}.

(** The file as it is now; it exists on every path that asks. *)
Definition current_file : M Checkpoint :=
  h ← get_file;
  match h with
  | Some h5 => mret h5
  | None => raise (ValueError "unable to open file")
  end.

(** [dataset.resize((now_n_frames, ...)); dataset[-new_n_frames:] = vals] on
    one dataset of the open file; [vals] are the rows as the dataset stores
    them, in its element type. *)
Definition extend_dataset {A : Type} (proj : Checkpoint -> list A)
    (upd : list A -> Checkpoint -> Checkpoint) (fill : A)
    (now_n_frames new_n_frames : nat) (vals : list A) : M unit :=
  h5 ← current_file;
  let resized := resize now_n_frames fill (proj h5) in
  _ ← put_file (upd resized h5);
  written ← lift (assign_tail new_n_frames vals resized);
  put_file (upd written h5).

(** [self.frames = self.frames[-self.buffer:]] unless [keep_all]. *)
Definition trim_frames (keep_all : bool) : M unit :=
  if keep_all then mret tt
  else modify_traj (fun t => with_frames (py_slice (Some (- buffer t)%Z) None (frames t)) t).

(** [Trajectory.save] *)
Definition save (keep_all : bool) : M unit :=
  self ← get_traj;
  match checkpoint_filename self with
  | None => raise (ValueError "can't save without checkpoint filename")
  | Some _ =>
      _ ← lock_acquire;
      last ← lift (py_last (frames self));
      last_run_time ← lift (Frame_time last);
      let n_atoms := length (atomic_numbers self) in
      let period := save_period self in
      h ← get_file;
      match h with
      | Some h5 =>
          (* the checkpoint exists: append *)
          _ ← put_file (store_flags self h5);
          let old_n_frames := Z.of_nat (length (all_energies h5)) in
          last_saved_time ← lift (py_last (all_times h5));
          new_n_frames ← lift (count_new_frames last_run_time last_saved_time
                                 (timestep self) (save_interval self));
          let now_n_frames := (new_n_frames + old_n_frames)%Z in
          if (new_n_frames =? 0)%Z then lock_release
          else
            _ ← lift (py_assert (0 <? new_n_frames)%Z "we can't write negative frames");
            to_add ← lift (frames_to_add (Some last_saved_time) period
                             (py_slice (Some (- (new_n_frames * save_interval self) - 1)%Z)
                                None (frames self)));
            _ ← lift (py_assert (new_n_frames =? Z.of_nat (length to_add))%Z
                        "pernicious math error in frame numbers!");
            let now := Z.to_nat now_n_frames in
            let new := Z.to_nat new_n_frames in
            new_times ← lift (omapM Frame_time to_add);
            _ ← extend_dataset all_times with_times 0 now new new_times;
            _ ← extend_dataset all_energies with_energies 0 now new (map energy to_add);
            let blank := replicate n_atoms v3_zero in
            new_positions ← lift (py_stack n_atoms (map positions to_add));
            _ ← extend_dataset all_positions with_positions blank now new new_positions;
            new_velocities ← lift (py_stack n_atoms (map velocities to_add));
            _ ← extend_dataset all_velocities with_velocities blank now new new_velocities;
            new_accels ← lift (py_stack n_atoms (map accelerations to_add));
            _ ← extend_dataset all_accelerations with_accelerations blank now new new_accels;
            new_temps ← lift (np_stack (map bath_temperature to_add));
            _ ← extend_dataset bath_temperatures with_temperatures 0 now new
                  (written_rows (temperatures_dtype h5) new_temps);
            _ ← lock_release;
            trim_frames keep_all
      | None =>
          (* no checkpoint yet: create the file; a dataset that has not been
             created yet reads as empty *)
          let h5 := {| attr_atomic_numbers := atomic_numbers self; attr_masses := masses self;
                       attr_finished := finished self; attr_forwards := forwards self;
                       all_times := []; all_energies := []; all_positions := [];
                       all_velocities := []; all_accelerations := [];
                       bath_temperatures := []; temperatures_dtype := float64 |} in
          _ ← put_file h5;
          to_add ← lift (frames_to_add None period (frames self));
          let h5 := with_energies (map energy to_add) h5 in
          _ ← put_file h5;
          times ← lift (omapM Frame_time to_add);
          let h5 := with_times times h5 in
          _ ← put_file h5;
          xs ← lift (py_stack n_atoms (map positions to_add));
          let h5 := with_positions xs h5 in
          _ ← put_file h5;
          vs ← lift (py_stack n_atoms (map velocities to_add));
          let h5 := with_velocities vs h5 in
          _ ← put_file h5;
          accs ← lift (py_stack n_atoms (map accelerations to_add));
          let h5 := with_accelerations accs h5 in
          _ ← put_file h5;
          let temps := np_asarray (map bath_temperature to_add) in
          _ ← put_file (create_temperatures temps h5);
          _ ← lock_release;
          trim_frames keep_all
      end
  end.

(** The [frames] argument of [load_from_checkpoint]: a string, a slice
    object (with step [None]), or anything else. *)
Inductive frames_arg : Type :=
| FramesKeyword (s : string)
| FramesSlice (start stop : option Z)
| FramesOther.

(** The [if frames == "all" ... else: assert isinstance(frames, slice)] chain:
    the bounds of the slice that is applied to every dataset. *)
Definition resolve_frames (self : Trajectory) (frames : frames_arg)
  : outcome (option Z * option Z) :=
  match frames with
  | FramesSlice start stop => Returned (start, stop)
  | FramesKeyword s =>
      if bool_decide (s = "all") then Returned (None, None)
      else if bool_decide (s = "first") then Returned (Some 1%Z, None)
      else if bool_decide (s = "last") then Returned (Some (-1)%Z, None)
      else if bool_decide (s = "buffer") then Returned (Some (- buffer self)%Z, None)
      else Raised (AssertionError "load_frames must be ``all``, ``first``, ``last``, or slice")
  | FramesOther =>
      Raised (AssertionError "load_frames must be ``all``, ``first``, ``last``, or slice")
  end.

(** [arr[i]] for a zero-based position of a numpy array. *)
Definition py_index {A : Type} (arr : list A) (i : nat) : outcome A :=
  match arr !! i with
  | Some x => Returned x
  | None => Raised (IndexError "index out of bounds")
  end.

(** The [Frame(...)] call of the loading loop, for position [i]. *)
Definition load_frame (energies : list Q) (xs vs accs : list (list V3))
    (d : dtype) (temperatures times : list Q) (i : nat) : outcome Frame :=
  x ← py_index xs i;
  v ← py_index vs i;
  a ← py_index accs i;
  e ← py_index energies i;
  temperature ← py_index temperatures i;
  t ← py_index times i;
  Frame_init x v a [("energy", Floating e); ("bath_temperature", read_scalar d temperature);
                    ("time", Floating t)].

(** [for i, t in enumerate(all_times): self.frames.append(Frame(...))] *)
Fixpoint load_loop (load : nat -> outcome Frame) (indices : list nat) : M unit :=
  match indices with
  | [] => mret tt
  | i :: rest =>
      frame ← lift (load i);
      _ ← modify_traj (fun t => with_frames (frames t ++ [frame]) t);
      load_loop load rest
  end.

(** [Trajectory.load_from_checkpoint] *)
Definition load_from_checkpoint (frames : frames_arg) : M unit :=
  mkM (fun w =>
    if negb (has_checkpoint w) then (Returned tt, w)
    else runM (
      self ← get_traj;
      '(start, stop) ← lift (resolve_frames self frames);
      _ ← lock_acquire;
      h5 ← current_file;
      _ ← modify_traj (with_attrs h5);
      _ ← modify_traj (with_frames []);
      _ ← (if bool_decide (length (all_energies h5) = 0%nat) then mret tt
           else
             let energies := py_slice start stop (all_energies h5) in
             let xs := py_slice start stop (all_positions h5) in
             let vs := py_slice start stop (all_velocities h5) in
             let accs := py_slice start stop (all_accelerations h5) in
             let temperatures := py_slice start stop (bath_temperatures h5) in
             let times := py_slice start stop (all_times h5) in
             _ ← lift (py_assert (bool_decide (length xs = length energies)) "");
             _ ← lift (py_assert (bool_decide (length vs = length energies)) "");
             _ ← lift (py_assert (bool_decide (length accs = length energies)) "");
             _ ← lift (py_assert (bool_decide (length times = length energies)) "");
             load_loop (load_frame energies xs vs accs (temperatures_dtype h5)
                          temperatures times)
               (seq 0 (length times)));
      lock_release) w).

(** ** The controller ([presto/controller.py]) *)

Record Check : Type := mkCheck {
  check_interval : Q;
  check_frame : Frame -> outcome unit;
}.

Record Reporter : Type := mkReporter {
  reporter_interval : Q;
  report : Trajectory -> outcome unit;
}.

(** The local variables of [Controller.run]. *)
Record locals : Type := mkLocals {
  current_time : Q;
  end_time : Q;
  finished_early : bool;
  count : Z;
}.

(** [l[-1] = x] *)
Definition set_last {A : Type} (x : A) (l : list A) : list A :=
  <[pred (length l) := x]> l.

Module Controller.
Section Controller.

(** The trajectory's integrator, checks and reporters. *)
Variables (integ : integrator) (checks : list Check) (reporters : list Reporter).

(** [self.frames] on the controller.  A [Controller] stores one attribute,
    [trajectory]; the frames live on the trajectory. *)
Definition self_frames : M (list Frame) :=
  raise (AttributeError "'Controller' object has no attribute 'frames'").

(** Lines 36-42 of a tick: the new frame requested from the tail frame.
    The scheduled temperature is computed into [bath_temp]; the call passes
    [temp=current_frame.bath_temperature]. *)
Definition request_next_frame (now : Q) : M Frame :=
  self ← get_traj;
  current_frame ← lift (py_last (frames self));
  let bath_temp := bath_temperature current_frame in
  bath_temp ← match kind self with
              | EquilibrationTrajectory => lift (bath_scheduler self now)
              | _ => mret bath_temp
              end;
  let '(current_frame', new_frame) :=
    Frame_next integ current_frame (Some (bath_temperature current_frame)) (forwards self) in
  _ ← modify_traj (fun t => with_frames (set_last current_frame' (frames t)) t);
  lift new_frame.

Fixpoint run_checks (now : Q) (new_frame : Frame) (cs : list Check) : outcome unit :=
  match cs with
  | [] => Returned tt
  | check :: cs' =>
      r ← py_mod now (check_interval check);
      _ ← (if (py_int r =? 0)%Z then check_frame check new_frame else Returned tt);
      run_checks now new_frame cs'
  end.

Fixpoint run_reporters (now : Q) (rs : list Reporter) : M unit :=
  match rs with
  | [] => mret tt
  | reporter :: rs' =>
      r ← lift (py_mod now (reporter_interval reporter));
      _ ← (if (py_int r =? 0)%Z then self ← get_traj; lift (report reporter self)
           else mret tt);
      run_reporters now rs'
  end.

(** Lines 54-60: "do we initiate early stopping?" *)
Definition early_stopping (st : locals) : M locals :=
  if finished_early st then mret st
  else
    self ← get_traj;
    match kind self with
    | ReactionTrajectory =>
        fs ← self_frames;
        last ← lift (py_last fs);
        stop ← lift (termination_function self last);
        if (stop : bool) then
          mret {| current_time := current_time st;
                  end_time := float_add (current_time st) (time_after_finished self);
                  finished_early := true; count := count st |}
        else mret st
    | _ => mret st
    end.

(** One iteration of the [while] loop. *)
Definition tick (checkpoint_interval : Q) (keep_all : bool) (st : locals) : M locals :=
  self ← get_traj;
  let now := float_add (current_time st) (timestep self) in
  let st := {| current_time := now; end_time := end_time st;
               finished_early := finished_early st; count := count st |} in
  new_frame ← request_next_frame now;
  t ← lift (Frame_time new_frame);
  _ ← lift (py_assert (Qeq_bool t now) "frame time does not match loop time");
  _ ← modify_traj (fun t => with_frames (frames t ++ [new_frame]) t);
  _ ← lift (run_checks now new_frame checks);
  _ ← run_reporters now reporters;
  st ← early_stopping st;
  r ← lift (py_mod now checkpoint_interval);
  _ ← (if (py_int r =? 0)%Z then save keep_all else mret tt);
  let st := {| current_time := current_time st; end_time := end_time st;
               finished_early := finished_early st; count := (count st + 1)%Z |} in
  _ ← (if (count st <? 10)%Z then _ ← lift (Frame_elapsed new_frame); mret tt
       else mret tt);
  mret st.

(** [while current_time < end_time: ...], for at most [fuel] iterations. *)
Fixpoint run_loop (fuel : nat) (checkpoint_interval : Q) (keep_all : bool) (st : locals)
  : M locals :=
  if q_ltb (current_time st) (end_time st) then
    match fuel with
    | O => lift Blocked
    | S fuel' =>
        st' ← tick checkpoint_interval keep_all st;
        run_loop fuel' checkpoint_interval keep_all st'
    end
  else mret st.

(** [Controller.run] *)
Definition run (fuel : nat) (checkpoint_interval : Q) (end_time runtime : option Q)
    (keep_all : bool) : M unit :=
  self ← get_traj;
  last ← lift (py_last (frames self));
  now ← lift (Frame_time last);
  let end_time :=
    match end_time with
    | Some e => e
    | None => match runtime with
              | Some r => float_add now r
              | None => stop_time self
              end
    end in
  _ ← lift (py_assert (q_ltb now end_time) "end_time must be greater than current_time");
  st ← run_loop fuel checkpoint_interval keep_all
         {| current_time := now; end_time := end_time;
            finished_early := false; count := 0 |};
  _ ← save keep_all;
  self ← get_traj;
  if Qeq_bool (current_time st) (stop_time self) then modify_traj (with_finished true)
  else if finished_early st then
    fs ← self_frames;
    last ← lift (py_last fs);
    stop ← lift (termination_function self last);
    modify_traj (with_finished stop)
  else mret tt.

End Controller.
End Controller.

(** ** Specifications of stateful calls *)

(** [triple P m Q E]: started in a world that satisfies [P], the call [m]
    ends in a world that satisfies [Q] when it returns, and [E] when it
    raises or never comes back. *)
Definition triple {A : Type} (P : world -> Prop) (m : M A) (Q E : world -> Prop) : Prop :=
  forall w, P w ->
    match (runM m w).1 with
    | Returned _ => Q (runM m w).2
    | _ => E (runM m w).2
    end.

Definition lock_is (b : bool) (w : world) : Prop := lock_held w = b.

(** ** Momentum of the active atoms *)

(** The net linear momentum of the atoms listed in [active_atoms]:
    the sum of [masses[active_atoms] * velocities[active_atoms]]. *)
Definition active_momentum (t : Trajectory) (f : Frame) : outcome V3 :=
  ms ← OneIndexed.take_atoms (masses t) (active_atoms t);
  vs ← OneIndexed.take_atoms (velocities f) (active_atoms t);
  mv ← scale_rows ms vs;
  Returned (v3_sum mv).

(** ** Active atoms ([Trajectory.set_inactive_atoms], [Frame.inactive_mask]) *)

Definition with_active_atoms (l : list nat) (t : Trajectory) : Trajectory :=
  {| kind := kind t; timestep := timestep t; frames := frames t; stop_time := stop_time t;
     atomic_numbers := atomic_numbers t; masses := masses t; active_atoms := l;
     finished := finished t; forwards := forwards t;
     checkpoint_filename := checkpoint_filename t; save_interval := save_interval t;
     buffer := buffer t; bath_scheduler := bath_scheduler t;
     termination_function := termination_function t;
     time_after_finished := time_after_finished t |}.

(** [l.remove(x)]: the first occurrence of [x] goes; [ValueError] when there
    is none. *)
Fixpoint list_remove (x : nat) (l : list nat) : outcome (list nat) :=
  match l with
  | [] => Raised (ValueError "list.remove(x): x not in list")
  | y :: l' =>
      if decide (y = x) then Returned l'
      else l'' ← list_remove x l'; Returned (y :: l'')
  end.

(** [for atom in inactive_atoms: active_atoms.remove(atom)] *)
Fixpoint remove_each (atoms active_atoms : list nat) : outcome (list nat) :=
  match atoms with
  | [] => Returned active_atoms
  | atom :: atoms' =>
      active_atoms ← list_remove atom active_atoms;
      remove_each atoms' active_atoms
  end.

(** The [inactive_atoms] argument: [None], a list or array of atom numbers,
    or any other object. *)
Inductive atoms_arg : Type :=
| AtomsNone
| AtomsList (atoms : list nat)
| AtomsOther.

(** [Trajectory.set_inactive_atoms] *)
Definition set_inactive_atoms (inactive_atoms : atoms_arg) (self : Trajectory)
  : outcome Trajectory :=
  let active_atoms := seq 1 (length (atomic_numbers self)) in
  active_atoms ← match inactive_atoms with
                 | AtomsNone => Returned active_atoms
                 | AtomsList atoms => remove_each atoms active_atoms
                 | AtomsOther => Raised (AssertionError "Need list of atoms!")
                 end;
  Returned (with_active_atoms active_atoms self).

(** [self.trajectory.active_atoms] used as an index.  The array that
    [set_inactive_atoms] stores is [np.array(active_atoms)]: an array of
    integers when the list has an entry, and the array [np.array([])] of
    floats when it has none, which numpy refuses as an index.  (An empty
    array of integers, which only a caller of the constructor can supply, is
    not represented.) *)
Definition active_index (t : Trajectory) : outcome (list nat) :=
  match active_atoms t with
  | [] => Raised (IndexError "arrays used as indices must be of integer (or boolean) type")
  | atoms => Returned atoms
  end.

(** [Frame.inactive_mask], for the frame's trajectory [t]: an array of ones
    with the entries of the active atoms set to 0, read as booleans. *)
Definition inactive_mask (t : Trajectory) (self : Frame) : outcome (list bool) :=
  let ones := replicate (length (positions self)) 1 in
  atoms ← active_index t;
  mask ← OneIndexed.put_atoms ones atoms [0];
  Returned (map (fun x => negb (q_is_zero x)) mask).

(** ** The lock file ([Trajectory.initialize_lock]) *)

(** [s.replace(c, new, 1)] for a one-character [c], on the characters of [s]. *)
Fixpoint replace_first (c : ascii) (new s : list ascii) : list ascii :=
  match s with
  | [] => []
  | a :: s' => if decide (a = c) then new ++ s' else a :: replace_first c new s'
  end.

(** The path of the lock file:
    [f"{name}.lock"[::-1].replace("/", "./", 1)[::-1]] when the checkpoint
    path has a "/", and [f".{name}.lock"] otherwise. *)
Definition lockfile_name (checkpoint_filename : string) : string :=
  let slash := "/"%char in
  if bool_decide (slash ∈ list_ascii_of_string checkpoint_filename) then
    string_of_list_ascii
      (reverse (replace_first slash (list_ascii_of_string "./")
                  (reverse (list_ascii_of_string (checkpoint_filename +:+ ".lock")))))
  else "." +:+ checkpoint_filename +:+ ".lock".

(** [Trajectory.initialize_lock], on the two attributes it reads and writes;
    the lock object is identified with the path it was created for. *)
Definition initialize_lock (checkpoint_filename : option string) (lock : option string)
  : option string :=
  match checkpoint_filename with
  | None => lock
  | Some name =>
      match lock with
      | None => Some (lockfile_name name)
      | Some l => Some l
      end
  end.

(** ** What a checkpoint holds *)

(** [t] is an integer multiple of [period]. *)
Definition on_grid (period t : Q) : Prop := exists k : Z, t == inject_Z k * period.

(** The six datasets of the file have one row per saved frame. *)
Definition consistent (h5 : Checkpoint) : Prop :=
  let n := length (all_energies h5) in
  length (all_times h5) = n /\ length (all_positions h5) = n
  /\ length (all_velocities h5) = n /\ length (all_accelerations h5) = n
  /\ length (bath_temperatures h5) = n.

(** ** Starting a trajectory ([Trajectory.initialize], [Trajectory.run]) *)

Definition with_checkpoint_filename (name : option string) (t : Trajectory) : Trajectory :=
  {| kind := kind t; timestep := timestep t; frames := frames t; stop_time := stop_time t;
     atomic_numbers := atomic_numbers t; masses := masses t; active_atoms := active_atoms t;
     finished := finished t; forwards := forwards t;
     checkpoint_filename := name; save_interval := save_interval t;
     buffer := buffer t; bath_scheduler := bath_scheduler t;
     termination_function := termination_function t;
     time_after_finished := time_after_finished t |}.

Section Initialize.

(** Lines 266-284 of [initialize], which follow the construction of the first
    frame: they call [Frame.add_thermal_energy], which [frame.py] does not
    define, store the frame and save. *)
Variable after_first_frame : Frame -> M unit.

(** [Trajectory.initialize(frame=..., positions=...)]; [given_positions] is
    the [positions] argument, [None] also standing for an object that is no
    one-indexed array. *)
Definition Trajectory_initialize (frame : option Frame) (given_positions : option (list V3))
  : M unit :=
  mkM (fun w =>
    match frames (traj w) with
    | _ :: _ => (Returned tt, w)
    | [] =>
        if has_checkpoint w then
          runM (_ ← load_from_checkpoint (FramesSlice (Some (-1)%Z) None);
                self ← get_traj;
                lift (py_assert (negb (length (frames self) =? 0)%nat)
                        "didn't load frames properly!")) w
        else
          runM (let given_positions := match frame with
                                       | Some f => Some (positions f)
                                       | None => given_positions
                                       end in
                positions ← lift (match given_positions with
                                  | Some x => Returned x
                                  | None => Raised (AssertionError
                                              "positions must be a one-indexed array!")
                                  end);
                let zeros := map (fun _ => v3_zero) positions in
                self ← get_traj;
                temperature ← lift (bath_scheduler self 0);
                frame ← lift (Frame_init positions zeros zeros
                                [("bath_temperature", temperature);
                                 ("time", Floating 0)]);
                after_first_frame frame) w
    end).

End Initialize.

Section Run.
Variables (integ : integrator) (checks : list Check) (reporters : list Reporter).
(** Whether [trajectory.calculator] and [trajectory.integrator] are instances
    of [Calculator] and [Integrator]. *)
Variables (valid_calculator valid_integrator : bool).

(** [Controller(trajectory, **kwargs)]: [__init__] takes the trajectory only. *)
Definition Controller_init (kwargs : list (string * string)) : outcome unit :=
  match kwargs with
  | (k, _) :: _ =>
      Raised (TypeError ("__init__() got an unexpected keyword argument '" +:+ k +:+ "'"))
  | [] =>
      _ ← py_assert valid_calculator "";
      py_assert valid_integrator ""
  end.

(** [try: controller.run(runtime=time)
     except Exception as e: raise ValueError(...)] *)
Definition guarded_controller_run (fuel : nat) (time : option Q) : M unit :=
  mkM (fun w =>
    match runM (Controller.run integ checks reporters fuel 25 None time false) w with
    | (Raised e, w') =>
        (Raised (ValueError "Trajectory run terminated prematurely due to error"), w')
    | out => out
    end).

(** [Trajectory.run(keep_all, time, **kwargs)]; the world holds the file at
    the path the trajectory has or is given. *)
Definition Trajectory_run (fuel : nat) (keep_all : bool) (time : option Q)
    (kwargs : list (string * string)) : M unit :=
  self ← get_traj;
  _ ← match checkpoint_filename self with
      | Some _ => mret tt
      | None =>
          match list_find (fun kv => bool_decide (kv.1 = "checkpoint_filename")) kwargs with
          | Some (_, (_, name)) => modify_traj (with_checkpoint_filename (Some name))
          | None => raise (ValueError "no checkpoint filename given!")
          end
      end;
  _ ← load_from_checkpoint (FramesSlice (Some (-1)%Z) None);
  self ← get_traj;
  _ ← lift (py_assert (length (frames self) =? 1)%nat
              "Wrong number of frames - do you need to call trajectory.initialize()?");
  _ ← (if finished self then mret tt
       else
         _ ← lift (Controller_init kwargs);
         guarded_controller_run fuel time);
  if keep_all then
    _ ← load_from_checkpoint (FramesKeyword "all");
    self ← get_traj;
    first ← lift (match frames self with
                  | first :: _ => Returned first
                  | [] => Raised (IndexError "list index out of range")
                  end);
    t ← lift (Frame_time first);
    lift (py_assert (Qeq_bool t 0) "missing first frame despite keep_all being True!")
  else mret tt.

End Run.


(** ** Temperature and pressure of a frame ([Frame.temperature], [Frame.pressure]) *)

(** [np.mean] of a two-dimensional array: [None] stands for the [nan] that
    numpy gives for an array without entries. *)
Definition np_mean (rows : list (list Q)) : option Q :=
  let entries := concat rows in
  if (length entries =? 0)%nat then None
  else Some (q_sum entries / inject_Z (Z.of_nat (length entries))).

(** [Frame.temperature], for the frame's trajectory [t] and the value [kB]
    of [presto.constants.BOLTZMANN_CONSTANT].  [np.power(norm(x), 2)] is the
    squared length of [x]; [m], of shape (k,1), times the k squared speeds
    broadcasts to a k x k array. *)
Definition Frame_temperature (kB : Q) (t : Trajectory) (self : Frame) : outcome (option Q) :=
  atoms ← active_index t;
  vs ← OneIndexed.take_atoms (velocities self) atoms;
  let v := map (fun x => v3_dot x x) vs in
  m ← OneIndexed.take_atoms (masses t) atoms;
  let K := map (fun m_i => map (fun v2 => m_i * v2) v) m in
  match np_mean K with
  | Some mean => T ← py_div mean (3 * kB); Returned (Some T)
  | None => if q_is_zero (3 * kB) then Raised ZeroDivisionError else Returned None
  end.

(** [for i in range(1, len(self.positions) + 1): tot += ...] of
    [Frame.pressure], from atom [i] on. *)
Fixpoint pressure_loop (m : list Q) (self : Frame) (i : nat) (count : nat) (tot : Q)
  : outcome Q :=
  match count with
  | O => Returned tot
  | S count' =>
      m_i ← OneIndexed.get m i;
      v_i ← OneIndexed.get (velocities self) i;
      x_i ← OneIndexed.get (positions self) i;
      a_i ← OneIndexed.get (accelerations self) i;
      let tot := tot + (v3_dot (v3_scale m_i v_i) v_i + v3_dot x_i (v3_scale m_i a_i)) in
      pressure_loop m self (S i) count' tot
  end.

(** [Frame.pressure]; [volume] is what [self.volume()] gives. *)
Definition Frame_pressure (volume : outcome Q) (t : Trajectory) (self : Frame) : outcome Q :=
  atoms ← active_index t;
  m ← OneIndexed.take_atoms (masses t) atoms;
  tot ← pressure_loop m self 1 (length (positions self)) 0;
  V ← volume;
  Returned (tot / 3 * V).


(** ** Settings and potentials ([presto/potentials.py]) *)

(** The Python values that occur in a settings dictionary. *)
#[warnings="-register-all"]
Inductive pyval : Type :=
| PyNone
| PyBool (b : bool)
| PyInt (z : Z)
| PyFloat (q : Q)
| PyStr (s : string)
| PyDict (items : list (string * pyval))
| PyOther.

(** [isinstance(v, (int, float))], with the value; [bool] is a subclass of
    [int]. *)
Definition py_numeric (v : pyval) : option Q :=
  match v with
  | PyBool b => Some (if b then 1 else 0)
  | PyInt z => Some (inject_Z z)
  | PyFloat q => Some q
  | _ => None
  end.

(** [settings[key]] when [key in settings]. *)
Fixpoint dict_get (key : string) (items : list (string * pyval)) : option pyval :=
  match items with
  | [] => None
  | (k, v) :: items' => if decide (k = key) then Some v else dict_get key items'
  end.

(** [c.lower()] for one character; only the letters A to Z change. *)
Definition lower_char (c : ascii) : ascii :=
  let n := nat_of_ascii c in
  if ((65 <=? n) && (n <=? 90))%nat then ascii_of_nat (n + 32) else c.

(** [s.lower()] *)
Fixpoint py_lower (s : string) : string :=
  match s with
  | EmptyString => EmptyString
  | String c s' => String (lower_char c) (py_lower s')
  end.

Record SphericalHarmonicPotential : Type := mkSphericalHarmonicPotential {
  radius : Q;
  force_constant : Q;
  max_radius : Q;
}.

(** [require(v, msg)]: the value that is there, or [AssertionError]. *)
Definition expect {A : Type} (v : option A) (msg : string) : outcome A :=
  match v with
  | Some a => Returned a
  | None => Raised (AssertionError msg)
  end.

(** [SphericalHarmonicPotential.__init__] *)
Definition SphericalHarmonicPotential_init (radius force_constant : pyval)
    (convert_from_kcal : bool) : outcome SphericalHarmonicPotential :=
  radius ← expect (py_numeric radius) "radius must be numeric";
  _ ← py_assert (q_ltb 0 radius) "radius must be positive";
  force_constant ← expect (py_numeric force_constant) "force_constant must be numeric";
  _ ← py_assert (q_ltb 0 force_constant) "force_constant must be positive";
  let force_constant :=
    if convert_from_kcal then force_constant * (4184 # 10000000) else force_constant in
  Returned {| radius := radius; force_constant := force_constant; max_radius := radius |}.

(** [build_potential] *)
Definition build_potential (settings : pyval) : outcome SphericalHarmonicPotential :=
  settings ← expect (match settings with PyDict items => Some items | _ => None end)
               "Need to pass a dictionary!!";
  type ← expect (dict_get "type" settings) "Need `type` for potential";
  type ← expect (match type with PyStr s => Some s | _ => None end)
           "Potential `type` must be a string";
  if bool_decide (py_lower type = "spherical_harmonic") then
    radius ← expect (dict_get "radius" settings)
               "Need `radius` for spherical harmonic potential.";
    r ← expect (py_numeric radius) "`radius` must be numeric!";
    _ ← py_assert (q_ltb 0 r) "`radius` must be positive!";
    match dict_get "force_constant" settings with
    | Some force_constant =>
        k ← expect (py_numeric force_constant) "`force_constant` must be numeric!";
        _ ← py_assert (q_ltb 0 k) "`force_constant` must be positive!";
        SphericalHarmonicPotential_init radius force_constant true
    | None => SphericalHarmonicPotential_init radius (PyInt 10) true
    end
  else Raised (ValueError "Unknown potential type").

Section Force.

(** The square root of numpy, a function on the exact numbers that stand for
    floats. *)
Variable sqrt : Q -> Q.

(** [np.linalg.norm(v)] *)
Definition norm (v : V3) : Q := sqrt (v3_dot v v).

(** One row of [SphericalHarmonicPotential.force]; the array operations of
    the method act on every row alone.  [None] is a row that is not finite:
    numpy divides by a zero norm without raising. *)
Definition force_row (self : SphericalHarmonicPotential) (x : V3) : option V3 :=
  let r := norm x in
  (* positions - positions/radii.reshape(-1,1) * self.radius *)
  let displacement :=
    if q_is_zero r then None
    else Some (v3_sub x (v3_scale (radius self) (v3_scale (/ r) x))) in
  let force :=
    d ← displacement;
    let force := v3_scale (- (1 # 2) * force_constant self) d in
    Some (v3_scale (norm d) force) in
  (* forces[inside, :] = 0 *)
  if q_ltb r (radius self) then Some v3_zero else force.

(** [SphericalHarmonicPotential.force] *)
Definition SphericalHarmonicPotential_force (self : SphericalHarmonicPotential)
    (positions : list V3) : list (option V3) :=
  map (force_row self) positions.

End Force.

(** [sqrt] is exact at [q]. *)
Definition exact_at (sqrt : Q -> Q) (q : Q) : Prop :=
  0 <= sqrt q /\ sqrt q * sqrt q == q.

Definition v3_eq (u v : V3) : Prop :=
  let '(u1, u2, u3) := u in let '(v1, v2, v3) := v in u1 == v1 /\ u2 == v2 /\ u3 == v3.

(** ** Building calculators from settings ([build_calculator]) *)

(** [isinstance(v, int)], with the value; [bool] is a subclass of [int]. *)
Definition py_int_value (v : pyval) : option Z :=
  match v with
  | PyBool b => Some (if b then 1 else 0)%Z
  | PyInt z => Some z
  | _ => None
  end.

Definition py_str_value (v : pyval) : option string :=
  match v with
  | PyStr s => Some s
  | _ => None
  end.

(** [v == n] for an integer [n] *)
Definition py_eq_int (v : pyval) (n : Z) : bool :=
  match py_numeric v with
  | Some q => Qeq_bool q (inject_Z n)
  | None => false
  end.

(** [v == s] for a string [s] *)
Definition py_eq_str (v : pyval) (s : string) : bool :=
  match v with
  | PyStr s' => bool_decide (s' = s)
  | _ => false
  end.

(** [pat] is a prefix of [s]. *)
Fixpoint starts_with (pat s : list ascii) : bool :=
  match pat, s with
  | [], _ => true
  | p :: pat', c :: s' => bool_decide (p = c) && starts_with pat' s'
  | _ :: _, [] => false
  end.

(** [re.search(pat, s)] for a pattern of plain characters: [pat] occurs in [s]. *)
Fixpoint occurs_in (pat s : list ascii) : bool :=
  starts_with pat s ||
  match s with
  | [] => false
  | _ :: s' => occurs_in pat s'
  end.

Definition re_search (pat s : string) : bool :=
  occurs_in (list_ascii_of_string pat) (list_ascii_of_string s).

(** [s.replace(old, new)] for a pattern that is not empty: the occurrences of
    [old] are replaced from the left, without overlap; [skip] characters of
    an occurrence that has been replaced are still to be passed over. *)
Fixpoint replace_all (old new : list ascii) (skip : nat) (s : list ascii) : list ascii :=
  match s with
  | [] => []
  | c :: s' =>
      match skip with
      | S skip' => replace_all old new skip' s'
      | O =>
          if starts_with old s then new ++ replace_all old new (pred (length old)) s'
          else c :: replace_all old new 0 s'
      end
  end.

Definition py_replace (old new s : string) : string :=
  string_of_list_ascii
    (replace_all (list_ascii_of_string old) (list_ascii_of_string new) 0
       (list_ascii_of_string s)).


(** The size of a settings value, counting nested dictionaries. *)
Fixpoint pyval_size (v : pyval) : nat :=
  match v with
  | PyDict items =>
      S ((fix items_size (l : list (string * pyval)) : nat :=
            match l with
            | [] => 0
            | (_, v) :: l' => pyval_size v + items_size l'
            end) items)
  | _ => 1
  end%nat.

Section BuildCalculator.

(** The type of constraint objects. *)
Variable Constraint : Type.

(** The attributes of the calculators that their [__init__] methods store. *)
Record XTBCalculator : Type := mkXTBCalculator {
  xtb_charge : Z;
  xtb_multiplicity : Z;
  xtb_gfn : pyval;
  xtb_parallel : Z;
  xtb_constraints : list Constraint;
  xtb_xcontrol_path : option string;
  xtb_topology : option string;
}.

Record GaussianCalculator : Type := mkGaussianCalculator {
  gaussian_charge : Z;
  gaussian_multiplicity : Z;
  gaussian_link0 : list (string * pyval);
  gaussian_route_card : string;
  gaussian_footer : option string;
  gaussian_constraints : list Constraint;
  gaussian_chk : option string;
}.

Inductive calculator : Type :=
| XTB (c : XTBCalculator)
| Gaussian (c : GaussianCalculator)
| ONIOM (high_calculator low_calculator full_calculator : calculator)
        (constraints : list Constraint).

(** [XTBCalculator.__init__], called with a [charge], [multiplicity] and
    [parallel] that are integers already. *)
Definition XTBCalculator_init (charge multiplicity : Z) (gfn : pyval) (parallel : Z)
    (constraints : list Constraint) (xcontrol_path topology : option string)
  : outcome calculator :=
  _ ← py_assert (match gfn with PyBool _ | PyInt _ | PyStr _ => true | _ => false end) "";
  _ ← py_assert (negb (py_eq_str gfn "ff") || bool_decide (is_Some topology))
        "need path for topology file!";
  Returned (XTB {| xtb_charge := charge; xtb_multiplicity := multiplicity; xtb_gfn := gfn;
                   xtb_parallel := parallel; xtb_constraints := constraints;
                   xtb_xcontrol_path := xcontrol_path; xtb_topology := topology |}).

(** [GaussianCalculator.__init__] *)
Definition GaussianCalculator_init (charge multiplicity : Z) (link0 : list (string * pyval))
    (route_card : string) (footer : option string) (constraints : list Constraint)
    (chk : option string) : outcome calculator :=
  if negb (re_search "force" route_card)
  then Raised (ValueError "need a force job to calculate forces")
  else Returned (Gaussian {| gaussian_charge := charge;
                             gaussian_multiplicity := multiplicity;
                             gaussian_link0 := link0; gaussian_route_card := route_card;
                             gaussian_footer := footer;
                             gaussian_constraints := constraints; gaussian_chk := chk |}).

(** [calculator.constraints = constraints] *)
Definition set_constraints (constraints : list Constraint) (c : calculator) : calculator :=
  match c with
  | XTB x => XTB {| xtb_charge := xtb_charge x; xtb_multiplicity := xtb_multiplicity x;
                    xtb_gfn := xtb_gfn x; xtb_parallel := xtb_parallel x;
                    xtb_constraints := constraints;
                    xtb_xcontrol_path := xtb_xcontrol_path x;
                    xtb_topology := xtb_topology x |}
  | Gaussian g => Gaussian {| gaussian_charge := gaussian_charge g;
                              gaussian_multiplicity := gaussian_multiplicity g;
                              gaussian_link0 := gaussian_link0 g;
                              gaussian_route_card := gaussian_route_card g;
                              gaussian_footer := gaussian_footer g;
                              gaussian_constraints := constraints;
                              gaussian_chk := gaussian_chk g |}
  | ONIOM high low full _ => ONIOM high low full constraints
  end.

(** The copy of the low calculator that [ONIOMCalculator.__init__] makes for
    the full system: a GFN-FF topology path has [".low"] replaced by
    [".full"]. *)
Definition full_copy (low_calculator : calculator) : outcome calculator :=
  match low_calculator with
  | XTB x =>
      if py_eq_str (xtb_gfn x) "ff" then
        topology ← match xtb_topology x with
                   | Some topology => Returned (py_replace ".low" ".full" topology)
                   | None => Raised (AttributeError
                               "'NoneType' object has no attribute 'replace'")
                   end;
        Returned (XTB {| xtb_charge := xtb_charge x;
                         xtb_multiplicity := xtb_multiplicity x;
                         xtb_gfn := xtb_gfn x; xtb_parallel := xtb_parallel x;
                         xtb_constraints := xtb_constraints x;
                         xtb_xcontrol_path := xtb_xcontrol_path x;
                         xtb_topology := Some topology |})
      else Returned low_calculator
  | _ => Returned low_calculator
  end.

(** [ONIOMCalculator.__init__] *)
Definition ONIOMCalculator_init (high_calculator low_calculator : calculator)
    (constraints : list Constraint) : outcome calculator :=
  full_calculator ← full_copy low_calculator;
  Returned (ONIOM high_calculator low_calculator
              (set_constraints constraints full_calculator) constraints).

(** The default link0 section of [GaussianCalculator]. *)
Definition default_link0 : list (string * pyval) :=
  [("mem", PyStr "1GB"); ("nprocshared", PyStr "4")].

(** [charge = 0; if "charge" in settings: assert isinstance(...); charge = ...] *)
Definition optional_int (key : string) (default : Z) (positive : bool) (msg msg_positive : string)
    (settings : list (string * pyval)) : outcome Z :=
  match dict_get key settings with
  | None => Returned default
  | Some v =>
      z ← expect (py_int_value v) msg;
      _ ← (if positive then py_assert (0 <? z)%Z msg_positive else Returned tt);
      Returned z
  end.

Definition optional_str (key : string) (msg : string) (settings : list (string * pyval))
  : outcome (option string) :=
  match dict_get key settings with
  | None => Returned None
  | Some v => s ← expect (py_str_value v) msg; Returned (Some s)
  end.

(** The Gaussian branch of [build_calculator] *)
Definition build_gaussian (settings : list (string * pyval)) (checkpoint_filename : string)
    (constraints : list Constraint) : outcome calculator :=
  charge ← optional_int "charge" 0 false "Calculator `charge` must be an integer." "" settings;
  multiplicity ← optional_int "multiplicity" 1 true
                   "Calculator `multiplicity` must be an integer."
                   "Calculator `multiplicity` must be positive." settings;
  link0 ← match dict_get "link0" settings with
          | None => Returned None
          | Some (PyDict d) => Returned (Some d)
          | Some _ => Raised (AssertionError "Calculator `link0` must be a dictionary.")
          end;
  route_card ← expect (dict_get "route_card" settings)
                 "Need a route card for `GaussianCalculator`!";
  route_card ← expect (py_str_value route_card) "Calculator `route_card` must be a string.";
  _ ← py_assert (re_search "#p" route_card) "Need `#p` in route card!";
  _ ← py_assert (re_search "force" route_card) "Need `force` in route card!";
  footer ← optional_str "footer" "Calculator `footer` must be string or `None`." settings;
  chk ← match dict_get "gaussian_chk" settings with
        | None => Returned None
        | Some (PyStr s) => Returned (Some s)
        | Some (PyBool true) => Returned (Some (checkpoint_filename +:+ ".gchk"))
        | Some _ => Raised (ValueError "`gaussian_chk` must be string or True!")
        end;
  GaussianCalculator_init charge multiplicity
    (match link0 with Some d => d | None => default_link0 end)
    route_card footer constraints chk.

(** The xtb branch of [build_calculator] *)
Definition build_xtb (settings : list (string * pyval)) (checkpoint_filename : string)
    (constraints : list Constraint) : outcome calculator :=
  charge ← optional_int "charge" 0 false "Calculator `charge` must be an integer." "" settings;
  multiplicity ← optional_int "multiplicity" 1 true
                   "Calculator `multiplicity` must be an integer."
                   "Calculator `multiplicity` must be positive." settings;
  gfn ← match dict_get "gfn" settings with
        | None => Returned (PyInt 2)
        | Some v =>
            _ ← py_assert (py_eq_int v 0 || py_eq_int v 1 || py_eq_int v 2 || py_eq_str v "ff")
                  "Calculator `gfn` must be 0, 1, 2, or ``ff``.";
            Returned v
        end;
  parallel ← optional_int "parallel" 1 true "Calculator `parallel` must be an integer."
               "Calculator `parallel` must be positive." settings;
  xcontrol ← optional_str "xcontrol" "Calculator `xcontrol` must be a string." settings;
  topology ← match dict_get "topology" settings with
             | Some v =>
                 s ← expect (py_str_value v)
                       "Calculator `topology` must be a string (path where topology will be stored).";
                 Returned (Some s)
             | None =>
                 Returned (if py_eq_str gfn "ff" then Some (checkpoint_filename +:+ ".top")
                           else None)
             end;
  XTBCalculator_init charge multiplicity gfn parallel constraints xcontrol topology.

(** [build_calculator]; the recursion follows the nesting of the settings. *)
Fixpoint build_calculator (settings : pyval) (checkpoint_filename : string)
    (constraints : list Constraint) {struct settings} : outcome calculator :=
  match settings with
  | PyDict items =>
      type ← expect (dict_get "type" items) "Need `type` for calculator";
      type ← expect (py_str_value type) "Calculator `type` must be a string";
      let type := py_lower type in
      if bool_decide (type = "oniom") then
        (* build_calculator(settings[key], checkpoint_filename + suffix) *)
        let build_at :=
          fix build_at (key suffix msg : string) (l : list (string * pyval))
            : outcome calculator :=
            match l with
            | [] => Raised (AssertionError msg)
            | (k, v) :: l' =>
                if decide (k = key) then build_calculator v (checkpoint_filename +:+ suffix) []
                else build_at key suffix msg l'
            end in
        _ ← py_assert (bool_decide (is_Some (dict_get "high_calculator" items)))
              "Need `high_calculator` settings dictionary for ONIOM!";
        _ ← py_assert (bool_decide (is_Some (dict_get "low_calculator" items)))
              "Need `low_calculator` settings dictionary for ONIOM!";
        high ← build_at "high_calculator" ".high"
                 "Need `high_calculator` settings dictionary for ONIOM!" items;
        low ← build_at "low_calculator" ".low"
                "Need `low_calculator` settings dictionary for ONIOM!" items;
        ONIOMCalculator_init high low constraints
      else if bool_decide (type = "gaussian") then
        build_gaussian items checkpoint_filename constraints
      else if bool_decide (type = "xtb") then
        build_xtb items checkpoint_filename constraints
      else Raised (ValueError "Unknown integrator type")
  | _ => Raised (AssertionError "Need to pass a dictionary!!")
  end.

(** What every calculator that passes the checks of [build_calculator] and
    of the constructors satisfies, at every level of nesting. *)
Fixpoint well_formed (c : calculator) : Prop :=
  match c with
  | XTB x =>
      (0 < xtb_multiplicity x)%Z /\ (0 < xtb_parallel x)%Z
      /\ py_eq_int (xtb_gfn x) 0 || py_eq_int (xtb_gfn x) 1 || py_eq_int (xtb_gfn x) 2
         || py_eq_str (xtb_gfn x) "ff" = true
      /\ (py_eq_str (xtb_gfn x) "ff" = true -> is_Some (xtb_topology x))
  | Gaussian g =>
      (0 < gaussian_multiplicity g)%Z
      /\ re_search "#p" (gaussian_route_card g) = true
      /\ re_search "force" (gaussian_route_card g) = true
  | ONIOM high low full _ => well_formed high /\ well_formed low /\ well_formed full
  end.

End BuildCalculator.

(** ** Concrete inputs *)

(** A three-atom system whose second atom is the high-level subset, with the
    energies 10, 7 and 50 of the specification's example. *)
Definition ex_numbers : list Z := [1; 6; 8]%Z.
Definition ex_positions : list (@Calculators.vec3 Z) :=
  [(0, 0, 0); (1, 0, 0); (0, 1, 0)]%Z.
Definition ex_Fh : list (@Calculators.vec3 Z) := [(1, 2, 3)]%Z.
Definition ex_Fl : list (@Calculators.vec3 Z) := [(4, 4, 4)]%Z.
Definition ex_Ff : list (@Calculators.vec3 Z) :=
  [(10, 10, 10); (20, 20, 20); (30, 30, 30)]%Z.
Definition ex_high (_ : list Z) (_ : list (@Calculators.vec3 Z)) (_ : option unit)
  : @Calculators.worker Z := Calculators.mkWorker (Some (10%Z, ex_Fh)) (Some 0%Z).
Definition ex_low (_ : list Z) (_ : list (@Calculators.vec3 Z)) (_ : option unit)
  : @Calculators.worker Z := Calculators.mkWorker (Some (7%Z, ex_Fl)) (Some 0%Z).
Definition ex_full (_ : list Z) (_ : list (@Calculators.vec3 Z)) (_ : option unit)
  : @Calculators.worker Z := Calculators.mkWorker (Some (50%Z, ex_Ff)) (Some 0%Z).
(** The same low-level worker, having sent its result and then exited with
    status 1. *)
Definition ex_low_failed (_ : list Z) (_ : list (@Calculators.vec3 Z)) (_ : option unit)
  : @Calculators.worker Z := Calculators.mkWorker (Some (7%Z, ex_Fl)) (Some 1%Z).
(** The low-level worker that raised before it had a result: it has sent
    nothing and has exited with status 1. *)
Definition ex_low_silent (_ : list Z) (_ : list (@Calculators.vec3 Z)) (_ : option unit)
  : @Calculators.worker Z := Calculators.mkWorker None (Some 1%Z).
Definition ex_pipes : @Calculators.pipes Z := Calculators.mkPipes [] [].

(** A one-atom trajectory with checkpoint path "run.chk", timestep 1,
    save interval 1 and buffer 100, holding the given frames. *)
Definition ex_frame (t : Q) : Frame :=
  {| positions := [(inject_Z 0, 0, 0)]; velocities := [(t, 0, 0)];
     accelerations := [(0, 0, 0)]; bath_temperature := Integer 298; energy := t * t;
     time := Some t; elapsed := None |}.

Definition ex_trajectory (k : trajectory_kind) (fs : list Frame) : Trajectory :=
  {| kind := k; timestep := 1; frames := fs; stop_time := 10;
     atomic_numbers := [1%Z]; masses := [1]; active_atoms := [1%nat];
     finished := false; forwards := true;
     checkpoint_filename := Some "run.chk"; save_interval := 1; buffer := 100;
     bath_scheduler := fun _ => Returned (Integer 400);
     termination_function := fun _ => Returned true;
     time_after_finished := 5 |}.

(** The checkpoint that holds the frames of the given times; their bath
    temperature is the integer 298. *)
Definition ex_checkpoint (times : list Q) : Checkpoint :=
  {| attr_atomic_numbers := [1%Z]; attr_masses := [1];
     attr_finished := false; attr_forwards := true;
     all_times := times;
     all_energies := map (fun t => energy (ex_frame t)) times;
     all_positions := map (fun t => positions (ex_frame t)) times;
     all_velocities := map (fun t => velocities (ex_frame t)) times;
     all_accelerations := map (fun t => accelerations (ex_frame t)) times;
     bath_temperatures := map (fun t => number_value (bath_temperature (ex_frame t))) times;
     temperatures_dtype := int64 |}.

Definition ex_world (k : trajectory_kind) (frame_times : list Q)
    (saved : option (list Q)) : world :=
  {| traj := ex_trajectory k (map ex_frame frame_times);
     file := option_map ex_checkpoint saved;
     lock_held := false |}.

(** The six datasets of a checkpoint. *)
Definition datasets (h5 : Checkpoint) :=
  (all_times h5, all_energies h5, all_positions h5, all_velocities h5,
   all_accelerations h5, bath_temperatures h5).

(** An integrator that leaves positions, velocities and accelerations as
    they are and reports the energy 0. *)
Definition ex_integrator : integrator :=
  fun frame _ => Returned (0, positions frame, velocities frame, accelerations frame).

Definition ex_locals : locals :=
  {| current_time := 0; end_time := 10; finished_early := false; count := 0 |}.

(** Two atoms of mass 1 on the x axis; the first moves along x, the second
    is frozen (it is not listed in [active_atoms]) and at rest. *)
Definition ex_com_trajectory : Trajectory :=
  {| kind := PlainTrajectory; timestep := 1; frames := []; stop_time := 10;
     atomic_numbers := [1%Z; 1%Z]; masses := [1; 1]; active_atoms := [1%nat];
     finished := false; forwards := true;
     checkpoint_filename := None; save_interval := 1; buffer := 100;
     bath_scheduler := fun _ => Returned (Integer 298);
     termination_function := fun _ => Returned false;
     time_after_finished := 0 |}.

Definition ex_com_frame : Frame :=
  {| positions := [(inject_Z 1, 0, 0); (- (1), 0, 0)];
     velocities := [(inject_Z 1, 0, 0); (0, 0, 0)];
     accelerations := [(inject_Z 0, 0, 0); (0, 0, 0)];
     bath_temperature := Integer 298; energy := 0; time := None; elapsed := None |}.

(** The one-atom trajectory with a buffer of two frames, holding the frames
    of times 0 to 3 over a checkpoint that holds the frame of time 0. *)
Definition ex_small_buffer : world :=
  {| traj := {| kind := PlainTrajectory; timestep := 1;
                frames := map ex_frame [0; 1; 2; 3]; stop_time := 10;
                atomic_numbers := [1%Z]; masses := [1]; active_atoms := [1%nat];
                finished := false; forwards := true;
                checkpoint_filename := Some "run.chk"; save_interval := 1;
                buffer := 2;
                bath_scheduler := fun _ => Returned (Integer 298);
                termination_function := fun _ => Returned false;
                time_after_finished := 0 |};
     file := Some (ex_checkpoint [0]); lock_held := false |}.

(** A water molecule: three atoms, none of them listed as active yet. *)
Definition ex_three_atoms : Trajectory :=
  {| kind := PlainTrajectory; timestep := 1; frames := []; stop_time := 10;
     atomic_numbers := [8%Z; 1%Z; 1%Z]; masses := [16; 1; 1]; active_atoms := [];
     finished := false; forwards := true;
     checkpoint_filename := None; save_interval := 1; buffer := 100;
     bath_scheduler := fun _ => Returned (Integer 298);
     termination_function := fun _ => Returned false;
     time_after_finished := 0 |}.

(** Its frame at rest. *)
Definition ex_three_atoms_frame : Frame :=
  {| positions := [(inject_Z 0, 0, 0); (1, 0, 0); (0, 1, 0)];
     velocities := [(inject_Z 0, 0, 0); (0, 0, 0); (0, 0, 0)];
     accelerations := [(inject_Z 0, 0, 0); (0, 0, 0); (0, 0, 0)];
     bath_temperature := Integer 298; energy := 0; time := None; elapsed := None |}.

(** A constraint that pulls every atom along x with energy 5. *)
Definition ex_pull : @Calculators.constraint Z unit :=
  fun positions _ => Returned (map (fun _ => (1, 0, 0)%Z) positions, 5%Z).

(** A finished one-frame trajectory without a checkpoint file. *)
Definition ex_finished : world :=
  {| traj := with_finished true (ex_trajectory PlainTrajectory [ex_frame 10]);
     file := None; lock_held := false |}.

(** Two active atoms of masses 1 and 3; the first moves with speed 2, the
    second is at rest. *)
Definition ex_unequal : Trajectory :=
  {| kind := PlainTrajectory; timestep := 1; frames := []; stop_time := 10;
     atomic_numbers := [1%Z; 3%Z]; masses := [1; 3]; active_atoms := [1%nat; 2%nat];
     finished := false; forwards := true;
     checkpoint_filename := None; save_interval := 1; buffer := 100;
     bath_scheduler := fun _ => Returned (Integer 298);
     termination_function := fun _ => Returned false;
     time_after_finished := 0 |}.

Definition ex_unequal_frame : Frame :=
  {| positions := [(inject_Z 1, 0, 0); (- (1), 0, 0)];
     velocities := [(inject_Z 2, 0, 0); (0, 0, 0)];
     accelerations := [(inject_Z 0, 0, 0); (0, 0, 0)];
     bath_temperature := Integer 298; energy := 0; time := None; elapsed := None |}.

(** Settings of a sphere of radius 7.5 with the default force constant. *)
Definition ex_sphere : pyval :=
  PyDict [("type", PyStr "Spherical_Harmonic"); ("radius", PyFloat (15 # 2))].

(** A square root that is exact on the squares of rationals: the integer
    roots of numerator and denominator in lowest terms. *)
Definition ex_sqrt (q : Q) : Q :=
  let q := Qred q in Z.sqrt (Qnum q) # Pos.sqrt (Qden q).

(** The sphere of radius 1 with force constant 2. *)
Definition ex_potential : SphericalHarmonicPotential :=
  {| radius := 1; force_constant := 2; max_radius := 1 |}.

(** Settings of an ONIOM calculator: Gaussian with a checkpoint of its own
    on the high layer, GFN-FF below; and the calculator they describe for
    the checkpoint "run.chk" and one constraint. *)
Definition ex_oniom_settings : pyval :=
  PyDict [("type", PyStr "ONIOM");
          ("high_calculator",
           PyDict [("type", PyStr "gaussian"); ("route_card", PyStr "#p hf/3-21g force");
                   ("gaussian_chk", PyBool true)]);
          ("low_calculator", PyDict [("type", PyStr "xtb"); ("gfn", PyStr "ff")])].

Definition ex_low_xtb (constraints : list unit) (topology : string) : XTBCalculator unit :=
  {| xtb_charge := 0; xtb_multiplicity := 1; xtb_gfn := PyStr "ff"; xtb_parallel := 1;
     xtb_constraints := constraints; xtb_xcontrol_path := None;
     xtb_topology := Some topology |}.

Definition ex_oniom_calculator : calculator unit :=
  ONIOM unit
    (Gaussian unit
       {| gaussian_charge := 0; gaussian_multiplicity := 1;
          gaussian_link0 := default_link0;
          gaussian_route_card := "#p hf/3-21g force"; gaussian_footer := None;
          gaussian_constraints := []; gaussian_chk := Some "run.chk.high.gchk" |})
    (XTB unit (ex_low_xtb [] "run.chk.low.top"))
    (XTB unit (ex_low_xtb [tt] "run.chk.full.top"))
    [tt].

(** The float 0.1, and the clock of a run with that timestep after [n]
    ticks: 0.1, 0.2, 0.30000000000000004, 0.4, 0.5, ... *)
Definition ex_tenth : Q := round64 (1 # 10).
Definition ex_clock (n : nat) : Q := Nat.iter n (fun t => float_add t ex_tenth) 0.

(** A one-atom frame at rest with the given time and bath temperature. *)
Definition ex_frame_at (t : Q) (T : number) : Frame :=
  {| positions := [(inject_Z 0, 0, 0)]; velocities := [(inject_Z 0, 0, 0)];
     accelerations := [(inject_Z 0, 0, 0)]; bath_temperature := T; energy := 0;
     time := Some t; elapsed := None |}.

(** A one-atom trajectory of timestep 0.1 with the given save interval,
    holding one frame per tick of the clock from 0 on, with the given bath
    temperatures, over the given file. *)
Definition ex_decimal (save_interval : Z) (temperatures : list number)
    (saved : option Checkpoint) : world :=
  {| traj := {| kind := PlainTrajectory; timestep := ex_tenth;
                frames := imap (fun n T => ex_frame_at (ex_clock n) T) temperatures;
                stop_time := 10;
                atomic_numbers := [1%Z]; masses := [1]; active_atoms := [1%nat];
                finished := false; forwards := true;
                checkpoint_filename := Some "run.chk"; save_interval := save_interval;
                buffer := 100;
                bath_scheduler := fun _ => Returned (Integer 298);
                termination_function := fun _ => Returned false;
                time_after_finished := 0 |};
     file := saved; lock_held := false |}.

(** * Properties *)

Local Close Scope Q_scope.

(** ** The outcome monad *)

Lemma py_assert_true msg : py_assert true msg = Returned tt.
Proof. reflexivity. Qed.

Lemma py_assert_Returned cond msg u : py_assert cond msg = Returned u -> cond = true.
Proof. destruct cond; [reflexivity | discriminate]. Qed.

Lemma outcome_bind_Returned {A B : Type} (m : outcome A) (k : A -> outcome B) (b : B) :
  m ≫= k = Returned b -> exists a, m = Returned a /\ k a = Returned b.
Proof. destruct m as [a| |]; [eauto | discriminate | discriminate]. Qed.

(** ** One-indexed arrays *)

Section OneIndexedFacts.
Context {A : Type}.
Implicit Types (arr vals : list A) (idx : list nat).

Lemma get_in_range arr a :
  1 <= a <= length arr -> exists x, OneIndexed.get arr a = Returned x /\ arr !! (a - 1) = Some x.
Proof.
  intros [H1 H2]. destruct a as [|i]; [lia|].
  cbn [OneIndexed.get]. replace (S i - 1) with i by lia.
  destruct (lookup_lt_is_Some_2 arr i) as [x Hx]; [lia|].
  rewrite Hx. eauto.
Qed.

(** Reading with an index array of in-range atoms returns one row per
    index, the row of that atom. *)
Lemma take_atoms_in_range arr idx :
  Forall (fun a => 1 <= a <= length arr) idx ->
  exists rows,
    OneIndexed.take_atoms arr idx = Returned rows
    /\ length rows = length idx
    /\ forall k a, idx !! k = Some a -> rows !! k = arr !! (a - 1).
Proof.
  unfold OneIndexed.take_atoms.
  induction 1 as [|a idx Ha _ (rows & Hrows & Hlen & Hrow)].
  - exists []. repeat split. intros k a Hk. rewrite lookup_nil in Hk. discriminate.
  - destruct (get_in_range arr a Ha) as (x & Hx & Hax).
    exists (x :: rows). cbn [omapM]. rewrite Hx. cbn. rewrite Hrows. cbn.
    repeat split; [by rewrite Hlen|].
    intros [|k] b Hk; cbn in Hk |- *; [by inversion Hk; subst | by apply Hrow].
Qed.


(** Writing one row per index, left to right: the array keeps its length,
    an atom that is not indexed keeps its row, and an indexed atom holds
    the value paired with one of its occurrences. *)
Lemma put_rows_in_range idx : forall vals arr,
  length vals = length idx ->
  Forall (fun a => 1 <= a <= length arr) idx ->
  exists arr',
    OneIndexed.put_rows arr idx vals = Returned arr'
    /\ length arr' = length arr
    /\ (forall i, S i ∉ idx -> arr' !! i = arr !! i)
    /\ (forall i, S i ∈ idx ->
          exists k v, idx !! k = Some (S i) /\ vals !! k = Some v /\ arr' !! i = Some v).
Proof.
  induction idx as [|a idx IH]; intros vals arr Hlen Hin.
  - exists arr. cbn. repeat split. intros i Hi. by apply elem_of_nil in Hi.
  - destruct vals as [|v vals]; [discriminate|]. cbn in Hlen.
    apply Forall_cons in Hin as [Ha Hin].
    destruct a as [|j]; [lia|].
    cbn [OneIndexed.put_rows OneIndexed.set].
    destruct (decide (j < length arr)) as [Hj|Hj]; [|lia]. cbn.
    destruct (IH vals (<[j:=v]> arr)) as (arr' & Hput & Hl & Hout & Hins).
    { lia. }
    { rewrite length_insert. exact Hin. }
    exists arr'. split; [exact Hput|].
    split; [by rewrite Hl, length_insert|].
    split.
    + intros i Hi. apply not_elem_of_cons in Hi as [Hne Hi].
      rewrite (Hout i Hi). apply list_lookup_insert_ne. congruence.
    + intros i Hi.
      destruct (decide (S i ∈ idx)) as [Hi'|Hi'].
      * destruct (Hins i Hi') as (k & w & Hk & Hw & Hr).
        exists (S k), w. by cbn.
      * apply elem_of_cons in Hi as [Hi|Hi]; [|done].
        inversion Hi; subst j.
        exists 0, v. cbn. repeat split.
        rewrite (Hout i Hi'). apply list_lookup_insert_eq. exact Hj.
Qed.

End OneIndexedFacts.

(** ** The ONIOM composite *)

Section ONIOMFacts.
Context {num time_t : Type}.
Variables (nadd nsub : num -> num -> num).

Local Abbreviation vec3 := (@Calculators.vec3 num).
Local Abbreviation result := (@Calculators.result num).
Local Abbreviation worker := (@Calculators.worker num).
Local Abbreviation pipes := (@Calculators.pipes num).
Local Abbreviation vadd := (Calculators.vadd nadd).
Local Abbreviation vsub := (Calculators.vsub nsub).

Variables high_calculator low_calculator full_calculator :
  list Z -> list vec3 -> option time_t -> worker.

Local Abbreviation ONIOMCalculator_evaluate :=
  (Calculators.ONIOMCalculator_evaluate nadd nsub
     high_calculator low_calculator full_calculator).

Implicit Types (atomic_numbers hn : list Z) (positions hp Fh Fl Ff : list vec3)
  (high_atoms : list nat) (pipe : Calculators.pipe_arg) (time : option time_t)
  (s : pipes).

Lemma nonempty_length_pos (high_atoms : list nat) :
  high_atoms <> [] -> (0 <? length high_atoms) = true.
Proof. destruct high_atoms; [done|]. intros _. reflexivity. Qed.

(** C1: with a non-empty, in-range high-level subset and the three worker
    results (Eh, Fh), (El, Fl), (Ef, Ff), the evaluation returns the energy
    Eh + Ef - El and forces that agree with Ff outside the subset and hold
    Fh + Ff[atom] - Fl (the rows of the atom's entry in the subset) inside. *)
Theorem oniom_combination_law
    atomic_numbers positions high_atoms pipe time s hn hp
    (Eh El Ef : num) Fh Fl Ff :
  high_atoms <> [] ->
  OneIndexed.take_atoms atomic_numbers high_atoms = Returned hn ->
  OneIndexed.take_atoms positions high_atoms = Returned hp ->
  high_calculator hn hp time = Calculators.mkWorker (Some (Eh, Fh)) (Some 0%Z) ->
  low_calculator hn hp time = Calculators.mkWorker (Some (El, Fl)) (Some 0%Z) ->
  full_calculator atomic_numbers positions time
    = Calculators.mkWorker (Some (Ef, Ff)) (Some 0%Z) ->
  length Fh = length high_atoms ->
  length Fl = length high_atoms ->
  Forall (fun a => 1 <= a <= length Ff) high_atoms ->
  exists F : list vec3,
    ONIOMCalculator_evaluate atomic_numbers positions high_atoms pipe time s
      = (Returned (Some (nsub (nadd Eh Ef) El, F)), s)
    /\ length F = length Ff
    /\ (forall a, 1 <= a -> a ∉ high_atoms -> F !! (a - 1) = Ff !! (a - 1))
    /\ (forall a, a ∈ high_atoms ->
          exists k fh fl ff,
            high_atoms !! k = Some a /\ Fh !! k = Some fh /\ Fl !! k = Some fl
            /\ Ff !! (a - 1) = Some ff
            /\ F !! (a - 1) = Some (vsub (vadd fh ff) fl))
    /\ (NoDup high_atoms ->
        forall k a fh fl ff,
          high_atoms !! k = Some a -> Fh !! k = Some fh -> Fl !! k = Some fl ->
          Ff !! (a - 1) = Some ff ->
          F !! (a - 1) = Some (vsub (vadd fh ff) fl)).
Proof.
  intros Hne Hhn Hhp Hhigh Hlow Hfull HFh HFl Hrange.
  destruct (take_atoms_in_range Ff high_atoms Hrange) as (llh & Hllh & Hlen & Hrow).
  set (rhs := zip_with vsub (zip_with vadd Fh llh) Fl).
  assert (Hrhs_len : length rhs = length high_atoms).
  { unfold rhs. rewrite !length_zip_with. lia. }
  assert (Hrhs : forall k a fh fl ff,
             high_atoms !! k = Some a -> Fh !! k = Some fh -> Fl !! k = Some fl ->
             Ff !! (a - 1) = Some ff -> rhs !! k = Some (vsub (vadd fh ff) fl)).
  { intros k a fh fl ff Hk Hfh Hfl Hff. unfold rhs.
    rewrite !lookup_zip_with, Hfh, (Hrow k a Hk), Hff, Hfl. reflexivity. }
  destruct (put_rows_in_range high_atoms rhs Ff Hrhs_len Hrange)
    as (F & Hput & HF & Hout & Hins).
  assert (Hwritten : forall a, a ∈ high_atoms ->
             exists k fh fl ff,
               high_atoms !! k = Some a /\ Fh !! k = Some fh /\ Fl !! k = Some fl
               /\ Ff !! (a - 1) = Some ff
               /\ F !! (a - 1) = Some (vsub (vadd fh ff) fl)).
  { intros a Ha.
    assert (Ha' : 1 <= a <= length Ff) by (by eapply Forall_forall in Hrange).
    destruct a as [|i]; [lia|].
    destruct (Hins i Ha) as (k & v & Hk & Hv & HFi).
    assert (Hklt : k < length high_atoms) by (by eapply lookup_lt_Some).
    destruct (lookup_lt_is_Some_2 Fh k) as [fh Hfh]; [lia|].
    destruct (lookup_lt_is_Some_2 Fl k) as [fl Hfl]; [lia|].
    destruct (lookup_lt_is_Some_2 Ff (S i - 1)) as [ff Hff]; [lia|].
    exists k, fh, fl, ff. repeat split; try done.
    replace (S i - 1) with i by lia.
    rewrite HFi, <- Hv. by eapply Hrhs. }
  exists F. split; [|split; [exact HF|split; [|split; [exact Hwritten|]]]].
  - unfold Calculators.ONIOMCalculator_evaluate.
    rewrite (nonempty_length_pos _ Hne), py_assert_true. cbn.
    rewrite Hhn, Hhp. cbn. rewrite Hhigh, Hlow, Hfull.
    unfold Calculators.recv, Calculators.exit_ok. cbn.
    rewrite Hllh. cbn.
    unfold OneIndexed.broadcast2.
    destruct (decide (length Fh = length llh)) as [_|Hbad]; [|lia]. cbn.
    destruct (decide (length (zip_with vadd Fh llh) = length Fl)) as [_|Hbad];
      [|rewrite length_zip_with in Hbad; lia]. cbn.
    unfold OneIndexed.put_atoms.
    destruct (decide (length (zip_with vsub (zip_with vadd Fh llh) Fl)
                      = length high_atoms)) as [_|Hbad]; [|done].
    fold rhs. rewrite Hput. reflexivity.
  - intros a Ha Hnotin. destruct a as [|i]; [lia|].
    replace (S i - 1) with i by lia. by apply Hout.
  - intros Hnodup k a fh fl ff Hk Hfh Hfl Hff.
    destruct (Hwritten a) as (k' & fh' & fl' & ff' & Hk' & Hfh' & Hfl' & Hff' & HFa).
    { by eapply list_elem_of_lookup_2. }
    assert (k' = k) by (by eapply NoDup_lookup). subst k'.
    congruence.
Qed.

(** C4: the evaluation receives the three results before it joins a worker
    or looks at an exit status.  When a worker never sends, as one that dies
    before it has a result, the receive does not come back: the evaluation
    neither fails nor returns, whatever the exit statuses are, and no pipe
    is touched. *)
Theorem oniom_waits_for_a_silent_worker
    atomic_numbers positions high_atoms pipe time s hn hp :
  high_atoms <> [] ->
  OneIndexed.take_atoms atomic_numbers high_atoms = Returned hn ->
  OneIndexed.take_atoms positions high_atoms = Returned hp ->
  Calculators.w_sent (high_calculator hn hp time) = None
  \/ Calculators.w_sent (low_calculator hn hp time) = None
  \/ Calculators.w_sent (full_calculator atomic_numbers positions time) = None ->
  ONIOMCalculator_evaluate atomic_numbers positions high_atoms pipe time s = (Blocked, s).
Proof.
  intros Hne Hhn Hhp Hsilent.
  unfold Calculators.ONIOMCalculator_evaluate.
  rewrite (nonempty_length_pos _ Hne), py_assert_true. cbn [mbind outcome_bind].
  rewrite Hhn, Hhp. cbn [mbind outcome_bind]. unfold Calculators.recv.
  destruct (Calculators.w_sent (high_calculator hn hp time)) as [[e_hh f_hh]|];
    cbn [mbind outcome_bind]; [|reflexivity].
  destruct (Calculators.w_sent (low_calculator hn hp time)) as [[e_hl f_hl]|];
    cbn [mbind outcome_bind]; [|reflexivity].
  destruct (Calculators.w_sent (full_calculator atomic_numbers positions time))
    as [[e_ll f_ll]|]; cbn [mbind outcome_bind]; [|reflexivity].
  by destruct Hsilent as [|[|]].
Qed.

(** X20: when a worker has not exited cleanly (it is still alive after the
    join, or its exit status is not zero), the evaluation returns no value;
    once the three results have been received it fails with an
    [AssertionError]. *)
Theorem oniom_worker_failure_is_fatal
    atomic_numbers positions high_atoms pipe time s hn hp :
  OneIndexed.take_atoms atomic_numbers high_atoms = Returned hn ->
  OneIndexed.take_atoms positions high_atoms = Returned hp ->
  Calculators.exit_ok (high_calculator hn hp time)
    && Calculators.exit_ok (low_calculator hn hp time)
    && Calculators.exit_ok (full_calculator atomic_numbers positions time) = false ->
  let out := ONIOMCalculator_evaluate atomic_numbers positions high_atoms pipe time s in
  (forall v, out.1 <> Returned v)
  /\ (high_atoms <> [] ->
      is_Some (Calculators.w_sent (high_calculator hn hp time)) ->
      is_Some (Calculators.w_sent (low_calculator hn hp time)) ->
      is_Some (Calculators.w_sent (full_calculator atomic_numbers positions time)) ->
      exists msg, out.1 = Raised (AssertionError msg)).
Proof.
  intros Hhn Hhp Hexit out. subst out.
  unfold Calculators.ONIOMCalculator_evaluate. cbn [fst].
  rewrite Hhn, Hhp.
  destruct (0 <? length high_atoms) eqn:Hlen; cbn.
  2:{ split; [discriminate|]. intros Hne. by rewrite nonempty_length_pos in Hlen. }
  unfold Calculators.recv.
  destruct (Calculators.w_sent (high_calculator hn hp time)) as [[e_hh f_hh]|]; cbn.
  2:{ split; [discriminate|]. intros _ [? ?]. discriminate. }
  destruct (Calculators.w_sent (low_calculator hn hp time)) as [[e_hl f_hl]|]; cbn.
  2:{ split; [discriminate|]. intros _ _ [? ?]. discriminate. }
  destruct (Calculators.w_sent (full_calculator atomic_numbers positions time))
    as [[e_ll f_ll]|]; cbn.
  2:{ split; [discriminate|]. intros _ _ _ [? ?]. discriminate. }
  destruct (Calculators.exit_ok (high_calculator hn hp time)); cbn;
    [|split; [discriminate | eauto]].
  destruct (Calculators.exit_ok (low_calculator hn hp time)); cbn;
    [|split; [discriminate | eauto]].
  destruct (Calculators.exit_ok (full_calculator atomic_numbers positions time)); cbn;
    [discriminate | split; [discriminate | eauto]].
Qed.

End ONIOMFacts.

Lemma oniom_combination_law_witness :
  exists F,
    Calculators.ONIOMCalculator_evaluate Z.add Z.sub ex_high ex_low ex_full
      ex_numbers ex_positions [2] Calculators.NoPipe None ex_pipes
      = (Returned (Some (53%Z, F)), ex_pipes)
    /\ F !! 0 = Some (10, 10, 10)%Z
    /\ F !! 2 = Some (30, 30, 30)%Z
    /\ F !! 1 = Some (17, 18, 19)%Z.
Proof.
  destruct (oniom_combination_law Z.add Z.sub ex_high ex_low ex_full
              ex_numbers ex_positions [2] Calculators.NoPipe None ex_pipes
              [6%Z] [(1, 0, 0)%Z] 10%Z 7%Z 50%Z ex_Fh ex_Fl ex_Ff)
    as (F & Heval & _ & Hout & _ & Hin);
    [ discriminate | reflexivity | reflexivity | reflexivity | reflexivity
    | reflexivity | reflexivity | reflexivity
    | repeat constructor; cbn; lia | ].
  exists F. split; [exact Heval|].
  split; [apply (Hout 1); [lia | by intros H%list_elem_of_singleton]|].
  split; [apply (Hout 3); [lia | by intros H%list_elem_of_singleton]|].
  apply (Hin (NoDup_singleton 2) 0 2 (1, 2, 3)%Z (4, 4, 4)%Z (20, 20, 20)%Z);
    reflexivity.
Defined.

(** The low-level worker has exited with status 1 and has sent nothing: the
    evaluation is still waiting for its result. *)
Lemma oniom_waits_for_a_silent_worker_witness :
  Calculators.w_exitcode (ex_low_silent [6%Z] [(1, 0, 0)%Z] None) = Some 1%Z
  /\ Calculators.ONIOMCalculator_evaluate Z.add Z.sub ex_high ex_low_silent ex_full
       ex_numbers ex_positions [2] Calculators.NoPipe None ex_pipes
     = (Blocked, ex_pipes).
Proof.
  split; [reflexivity|].
  apply (oniom_waits_for_a_silent_worker Z.add Z.sub ex_high ex_low_silent ex_full
           ex_numbers ex_positions [2] Calculators.NoPipe None ex_pipes
           [6%Z] [(1, 0, 0)%Z]);
    [discriminate | reflexivity | reflexivity | right; left; reflexivity].
Defined.

Lemma oniom_worker_failure_is_fatal_witness :
  (forall v,
     (Calculators.ONIOMCalculator_evaluate Z.add Z.sub ex_high ex_low_failed ex_full
        ex_numbers ex_positions [2] Calculators.NoPipe None ex_pipes).1 <> Returned v)
  /\ exists msg,
       (Calculators.ONIOMCalculator_evaluate Z.add Z.sub ex_high ex_low_failed ex_full
          ex_numbers ex_positions [2] Calculators.NoPipe None ex_pipes).1
       = Raised (AssertionError msg).
Proof.
  destruct (oniom_worker_failure_is_fatal Z.add Z.sub ex_high ex_low_failed ex_full
              ex_numbers ex_positions [2] Calculators.NoPipe None ex_pipes
              [6%Z] [(1, 0, 0)%Z]) as [Hno Herr];
    [reflexivity | reflexivity | reflexivity |].
  split; [exact Hno|].
  apply Herr; [discriminate | by eexists | by eexists | by eexists].
Defined.

(** ** Pipes *)

Section PipeFacts.
Context {num time_t : Type}.
Variables (zero : num) (nadd nsub : num -> num -> num).

Local Abbreviation vec3' := (@Calculators.vec3 num).
Local Abbreviation pipes' := (@Calculators.pipes num).

Variables high_calculator low_calculator full_calculator :
  list Z -> list vec3' -> option time_t -> @Calculators.worker num.




End PipeFacts.

(** ** Truncation *)

Lemma quot_neg_iff n d : (0 < d)%Z -> (Z.quot n d < 0 <-> n <= - d)%Z.
Proof. intros Hd. Z.to_euclidean_division_equations. nia. Qed.

Lemma quot_zero_iff n d : (0 < d)%Z -> (Z.quot n d = 0 <-> - d < n < d)%Z.
Proof. intros Hd. Z.to_euclidean_division_equations. nia. Qed.

(** [int(q)] is negative exactly from -1 downwards, and zero exactly on the
    open interval between -1 and 1. *)
Lemma py_int_negative q : (py_int q < 0)%Z <-> (q <= -1)%Q.
Proof. unfold py_int, Qle. cbn. rewrite quot_neg_iff by lia. lia. Qed.

Lemma py_int_zero q : py_int q = 0%Z <-> (-1 < q /\ q < 1)%Q.
Proof. unfold py_int, Qlt. cbn. rewrite quot_zero_iff by lia. lia. Qed.

(** ** Rounding *)

Lemma round_half_even_ge n d : (0 < d)%Z -> (n / d <= round_half_even n d)%Z.
Proof.
  intros Hd. unfold round_half_even.
  destruct (2 * (n mod d) ?= d)%Z; [destruct (Z.even _)|..]; lia.
Qed.

(** The scaled quotient is at least 1, so the significand is positive. *)
Lemma round64_pos_positive n d : (0 < round64_pos n d)%Q.
Proof.
  unfold round64_pos.
  set (a := Z.log2 (Z.pos n)). set (b := Z.log2 (Z.pos d)).
  set (e0 := (a - b - 53)%Z).
  set (N := (Z.pos n * 2 ^ Z.max 0 (- e0))%Z).
  set (D := (Z.pos d * 2 ^ Z.max 0 e0)%Z).
  assert (Ha : (2 ^ a <= Z.pos n)%Z) by (apply Z.log2_spec; lia).
  assert (Hb : (Z.pos d < 2 ^ Z.succ b)%Z) by (apply Z.log2_spec; lia).
  assert (Ha0 : (0 <= a)%Z) by apply Z.log2_nonneg.
  assert (Hb0 : (0 <= b)%Z) by apply Z.log2_nonneg.
  assert (He0 : e0 = (a - b - 53)%Z) by reflexivity.
  assert (HD : (0 < D)%Z).
  { unfold D. apply Z.mul_pos_pos; [lia|]. apply Z.pow_pos_nonneg; lia. }
  assert (HND : (D <= N)%Z).
  { unfold N, D. destruct (Z.le_gt_cases 0 e0) as [He|He].
    - rewrite (Z.max_l 0 (- e0)) by lia. rewrite (Z.max_r 0 e0) by lia.
      rewrite Z.pow_0_r, Z.mul_1_r.
      assert (H : (Z.pos d * 2 ^ e0 < 2 ^ Z.succ b * 2 ^ e0)%Z).
      { apply Z.mul_lt_mono_pos_r; [apply Z.pow_pos_nonneg; lia|exact Hb]. }
      rewrite <- Z.pow_add_r in H by lia.
      assert (2 ^ (Z.succ b + e0) <= 2 ^ a)%Z by (apply Z.pow_le_mono_r; lia).
      lia.
    - rewrite (Z.max_r 0 (- e0)) by lia. rewrite (Z.max_l 0 e0) by lia.
      rewrite Z.pow_0_r, Z.mul_1_r.
      assert (H : (2 ^ a * 2 ^ (- e0) <= Z.pos n * 2 ^ (- e0))%Z).
      { apply Z.mul_le_mono_nonneg_r; [apply Z.pow_nonneg; lia|exact Ha]. }
      rewrite <- Z.pow_add_r in H by lia.
      assert (2 ^ Z.succ b <= 2 ^ (a + - e0))%Z by (apply Z.pow_le_mono_r; lia).
      lia. }
  assert (Hm : forall D' e, (0 < D')%Z -> (D' <= N)%Z ->
             (0 < Qred (inject_Z (round_half_even N D') * 2 ^ e))%Q).
  { intros D' e HD' HN. rewrite Qred_correct.
    apply Qmult_lt_0_compat; [|by apply Qpower_0_lt].
    change 0%Q with (inject_Z 0). rewrite <- Zlt_Qlt.
    pose proof (round_half_even_ge N D' HD').
    assert (1 <= N / D')%Z by (apply Z.div_le_lower_bound; lia).
    lia. }
  destruct (Z.leb_spec (2 ^ 53 * D) N) as [Hbig|Hsmall].
  - apply Hm; lia.
  - by apply Hm.
Qed.

(** Rounding respects the equality of rationals, keeps zero and keeps the
    sign. *)
Lemma round64_comp x y : (x == y)%Q -> round64 x = round64 y.
Proof. intros H. unfold round64. by rewrite (Qred_complete x y H). Qed.

Lemma round64_0 x : (x == 0)%Q -> round64 x = 0%Q.
Proof. intros H. by rewrite (round64_comp x 0 H). Qed.

Lemma round64_positive x : (0 < x)%Q -> (0 < round64 x)%Q.
Proof.
  intros Hx. unfold round64.
  assert (H : (0 < Qred x)%Q) by (by rewrite Qred_correct).
  destruct (Qred x) as [[|n|n] d]; [|apply round64_pos_positive|];
    unfold Qlt in H; cbn in H; lia.
Qed.

Lemma round64_negative x : (x < 0)%Q -> (round64 x < 0)%Q.
Proof.
  intros Hx. unfold round64.
  assert (H : (Qred x < 0)%Q) by (by rewrite Qred_correct).
  destruct (Qred x) as [[|n|n] d].
  - unfold Qlt in H. cbn in H. lia.
  - unfold Qlt in H. cbn in H. lia.
  - cbn [Qnum Qden]. pose proof (round64_pos_positive n d). lra.
Qed.

Lemma round64_zero_iff x : (round64 x == 0)%Q <-> (x == 0)%Q.
Proof.
  split.
  - intros H. destruct (Q_dec x 0) as [[Hlt|Hgt]|Heq]; [| |exact Heq].
    + apply round64_negative in Hlt. lra.
    + apply round64_positive in Hgt. lra.
  - intros H. by rewrite (round64_0 x H).
Qed.

(** ** Flushing to an existing checkpoint *)

(** C2, as the code has it: the number of new frames is the float quotient
    [(last_run_time - last_saved_time) / (timestep * save_interval)], every
    operation rounded, truncated towards zero.  From -1 downwards the
    truncated count is negative and [save] fails with an [AssertionError],
    the datasets untouched; strictly between -1 and 1 it is zero and [save]
    returns without an error, the datasets and the frames in memory
    untouched. *)
Theorem save_truncated_frame_count (keep_all : bool) (w : world) (name : string)
    (h5 : Checkpoint) (last : Frame) (t_run t_saved : Q) :
  checkpoint_filename (traj w) = Some name ->
  file w = Some h5 ->
  py_last (frames (traj w)) = Returned last ->
  time last = Some t_run ->
  py_last (all_times h5) = Returned t_saved ->
  let period := save_period (traj w) in
  q_is_zero period = false ->
  let q := float_div (float_sub t_run t_saved) period in
  let out := runM (save keep_all) w in
  count_new_frames t_run t_saved (timestep (traj w)) (save_interval (traj w))
    = Returned (py_int q)
  /\ ((q <= -1)%Q ->
      out.1 = Raised (AssertionError "we can't write negative frames")
      /\ exists h5', file out.2 = Some h5' /\ datasets h5' = datasets h5)
  /\ ((-1 < q /\ q < 1)%Q ->
      out.1 = Returned tt
      /\ frames (traj out.2) = frames (traj w)
      /\ exists h5', file out.2 = Some h5' /\ datasets h5' = datasets h5).
Proof.
  intros Hname Hfile Hlast Htime Hsaved period Hperiod q out.
  assert (Hcount : count_new_frames t_run t_saved (timestep (traj w))
                     (save_interval (traj w)) = Returned (py_int q)).
  { unfold count_new_frames. fold (save_period (traj w)). fold period. by rewrite Hperiod. }
  split; [exact Hcount|].
  subst out. unfold save. cbn [runM mbind M_bind get_traj].
  rewrite Hname.
  cbn [runM mbind M_bind lock_acquire lift get_file put_file traj file lock_held].
  rewrite Hlast. unfold Frame_time. rewrite Htime. cbn [getattr].
  rewrite Hfile.
  cbn [runM mbind M_bind lock_acquire lift get_file put_file traj file lock_held].
  rewrite Hsaved, Hcount.
  split.
  - intros Hneg%py_int_negative.
    destruct (Z.eqb_spec (py_int q) 0) as [H0|_]; [lia|].
    cbn [runM mbind M_bind lift].
    destruct (Z.ltb_spec 0 (py_int q)) as [Hpos|_]; [lia|].
    cbn. eauto.
  - intros ->%py_int_zero. cbn. eauto.
Qed.

Lemma save_truncated_frame_count_witness :
  let out := runM (save false) (ex_world PlainTrajectory [0; 1] (Some [0; 1; 2; 3]))%Q in
  out.1 = Raised (AssertionError "we can't write negative frames")
  /\ exists h5', file out.2 = Some h5' /\ datasets h5' = datasets (ex_checkpoint [0; 1; 2; 3]%Q).
Proof.
  cbn zeta.
  apply (save_truncated_frame_count false
           (ex_world PlainTrajectory [0; 1] (Some [0; 1; 2; 3]))%Q
           "run.chk" (ex_checkpoint [0; 1; 2; 3]%Q) (ex_frame 1) 1%Q 3%Q);
    [reflexivity | reflexivity | reflexivity | reflexivity | reflexivity
    | reflexivity | ].
  vm_compute. discriminate.
Defined.

(** C2 as it is stated fails: with a last frame at time 5/2 after a last
    persisted time 0 (timestep 1, save interval 1) the quotient is the
    fraction 5/2, and [save] returns and appends two frames; with the last
    frame at time 1/2 after a persisted time 1 the quotient is the negative
    -1/2, and [save] returns without an error. *)
Lemma save_accepts_fractional_and_negative_quotients :
  let grown := runM (save false) (ex_world PlainTrajectory [0; 1; 2; 5 # 2] (Some [0]))%Q in
  let backwards := runM (save false) (ex_world PlainTrajectory [0; 1 # 2] (Some [1]))%Q in
  (grown.1 = Returned tt /\ option_map all_times (file grown.2) = Some [0; 1; 2]%Q)
  /\ (backwards.1 = Returned tt /\ option_map all_times (file backwards.2) = Some [1%Q]).
Proof. cbn zeta. repeat split; vm_compute; reflexivity. Qed.

(** ** Triples *)

Section Triples.
Context {A B : Type}.
Implicit Types (P Q E : world -> Prop).

Lemma triple_bind P P' Q E (m : M A) (k : A -> M B) :
  triple P m P' E -> (forall a, triple P' (k a) Q E) -> triple P (m ≫= k) Q E.
Proof.
  intros Hm Hk w Hw. specialize (Hm w Hw).
  unfold mbind, M_bind. cbn [runM].
  destruct (runM m w) as [[a| |] w']; cbn [fst snd] in Hm |- *;
    [by apply Hk | exact Hm | exact Hm].
Qed.

Lemma runM_bind (m : M A) (k : A -> M B) w :
  runM (m ≫= k) w
  = match runM m w with
    | (Returned a, w') => runM (k a) w'
    | (Raised e, w') => (Raised e, w')
    | (Blocked, w') => (Blocked, w')
    end.
Proof. reflexivity. Qed.

Lemma triple_ret P E (a : A) : triple P (mret a) P E.
Proof. intros w Hw. exact Hw. Qed.

Lemma triple_lift P (o : outcome A) : triple P (lift o) P P.
Proof. intros w Hw. cbn. by destruct o. Qed.


End Triples.

(** *** Calls that leave the lock as it is *)

Lemma keeps_get_traj b E : triple (lock_is b) get_traj (lock_is b) E.
Proof. intros w Hw. exact Hw. Qed.

Lemma keeps_get_file b E : triple (lock_is b) get_file (lock_is b) E.
Proof. intros w Hw. exact Hw. Qed.

Lemma keeps_put_file b E h5 : triple (lock_is b) (put_file h5) (lock_is b) E.
Proof. intros w Hw. exact Hw. Qed.

Lemma keeps_modify_traj b E f : triple (lock_is b) (modify_traj f) (lock_is b) E.
Proof. intros w Hw. exact Hw. Qed.

Lemma keeps_trim_frames b E keep_all : triple (lock_is b) (trim_frames keep_all) (lock_is b) E.
Proof. intros w Hw. destruct keep_all; exact Hw. Qed.

Lemma triple_lock_acquire P E : triple P lock_acquire (lock_is true) E.
Proof. intros w Hw. reflexivity. Qed.

Lemma triple_lock_release P E : triple P lock_release (lock_is false) E.
Proof. intros w Hw. reflexivity. Qed.

Create HintDb lock.

#[local] Hint Resolve triple_ret triple_lift keeps_get_traj keeps_get_file keeps_put_file
  keeps_modify_traj keeps_trim_frames triple_lock_acquire triple_lock_release : lock.

(** One step of a call under the lock: the next action keeps the lock (or
    acquires or releases it), and the rest follows; a branch is split. *)
Ltac lock_step :=
  first
    [ solve [eauto with lock]
    | match goal with
      | |- triple _ (match ?x with _ => _ end) _ _ => destruct x
      | |- triple _ (let '(_, _) := ?x in _) _ _ => destruct x
      end
    | eapply triple_bind; [solve [repeat lock_step] | intros ?] ].

Lemma keeps_current_file b : triple (lock_is b) current_file (lock_is b) (lock_is b).
Proof. unfold current_file, raise. repeat lock_step. Qed.

#[local] Hint Resolve keeps_current_file : lock.

Lemma keeps_extend_dataset {A : Type} b proj upd (fill : A) now new vals :
  triple (lock_is b) (extend_dataset proj upd fill now new vals) (lock_is b) (lock_is b).
Proof. unfold extend_dataset. repeat lock_step. Qed.

Lemma keeps_load_loop b load indices :
  triple (lock_is b) (load_loop load indices) (lock_is b) (lock_is b).
Proof.
  induction indices as [|i rest IH]; cbn [load_loop]; repeat lock_step.
Qed.

#[local] Hint Resolve keeps_extend_dataset keeps_load_loop : lock.

(** From the acquisition on, [save] ends with the lock released when it
    returns and with the lock held when it raises. *)
Lemma save_lock_discipline keep_all w name :
  checkpoint_filename (traj w) = Some name ->
  match (runM (save keep_all) w).1 with
  | Returned _ => lock_held (runM (save keep_all) w).2 = false
  | _ => lock_held (runM (save keep_all) w).2 = true
  end.
Proof.
  intros Hname. unfold save. rewrite runM_bind. cbn [runM get_traj]. rewrite Hname.
  match goal with
  | |- context [runM ?m w] =>
      assert (H : triple (fun _ => True) m (lock_is false) (lock_is true))
  end.
  { repeat lock_step. }
  exact (H w I).
Qed.

(** Past the check of its [frames] argument, [load_from_checkpoint] ends
    with the lock released when it returns and with the lock held when it
    raises. *)
Lemma load_lock_discipline frames w bounds :
  has_checkpoint w = true ->
  resolve_frames (traj w) frames = Returned bounds ->
  match (runM (load_from_checkpoint frames) w).1 with
  | Returned _ => lock_held (runM (load_from_checkpoint frames) w).2 = false
  | _ => lock_held (runM (load_from_checkpoint frames) w).2 = true
  end.
Proof.
  intros Hhas Hres. unfold load_from_checkpoint. cbn [runM]. rewrite Hhas. cbn [negb].
  rewrite runM_bind. cbn [runM get_traj].
  rewrite runM_bind. cbn [runM lift]. rewrite Hres. destruct bounds as [start stop].
  match goal with
  | |- context [runM ?m w] =>
      assert (H : triple (fun _ => True) m (lock_is false) (lock_is true))
  end.
  { repeat lock_step. }
  exact (H w I).
Qed.

(** C6, as the code has it: [save] and [load_from_checkpoint], entered with
    the lock free, leave it free whenever they return; when they raise after
    having acquired it ([save] with a checkpoint filename,
    [load_from_checkpoint] with an accepted [frames] argument) the lock is
    still held. *)
Theorem lock_released_when_the_call_returns (keep_all : bool) (frames : frames_arg)
    (w : world) :
  lock_held w = false ->
  let saved := runM (save keep_all) w in
  let loaded := runM (load_from_checkpoint frames) w in
  (saved.1 = Returned tt -> lock_held saved.2 = false)
  /\ (loaded.1 = Returned tt -> lock_held loaded.2 = false)
  /\ (forall e, saved.1 = Raised e -> is_Some (checkpoint_filename (traj w)) ->
        lock_held saved.2 = true)
  /\ (forall e, loaded.1 = Raised e -> returns (resolve_frames (traj w) frames) ->
        lock_held loaded.2 = true).
Proof.
  intros Hfree saved loaded. subst saved loaded.
  split; [|split; [|split]].
  - intros Hret.
    destruct (checkpoint_filename (traj w)) as [name|] eqn:Hname.
    + pose proof (save_lock_discipline keep_all w name Hname) as H.
      by rewrite Hret in H.
    + revert Hret. unfold save. rewrite runM_bind. cbn [runM get_traj].
      rewrite Hname. discriminate.
  - intros Hret.
    destruct (has_checkpoint w) eqn:Hhas.
    + destruct (resolve_frames (traj w) frames) as [bounds| |] eqn:Hres.
      * pose proof (load_lock_discipline frames w bounds Hhas Hres) as H.
        by rewrite Hret in H.
      * revert Hret. unfold load_from_checkpoint. cbn [runM]. rewrite Hhas. cbn [negb].
        rewrite runM_bind. cbn [runM get_traj]. rewrite runM_bind. cbn [runM lift].
        rewrite Hres. discriminate.
      * revert Hret. unfold load_from_checkpoint. cbn [runM]. rewrite Hhas. cbn [negb].
        rewrite runM_bind. cbn [runM get_traj]. rewrite runM_bind. cbn [runM lift].
        rewrite Hres. discriminate.
    + unfold load_from_checkpoint. cbn [runM]. rewrite Hhas. exact Hfree.
  - intros e Hraise [name Hname].
    pose proof (save_lock_discipline keep_all w name Hname) as H.
    by rewrite Hraise in H.
  - intros e Hraise [bounds Hres].
    destruct (has_checkpoint w) eqn:Hhas.
    + pose proof (load_lock_discipline frames w bounds Hhas Hres) as H.
      by rewrite Hraise in H.
    + revert Hraise. unfold load_from_checkpoint. cbn [runM]. rewrite Hhas. discriminate.
Qed.

Lemma lock_released_when_the_call_returns_witness :
  let w := ex_world PlainTrajectory [0; 1 # 2]%Q (Some [0%Q]) in
  lock_held (runM (save false) w).2 = false.
Proof.
  cbn zeta.
  apply (lock_released_when_the_call_returns false (FramesKeyword "all")
           (ex_world PlainTrajectory [0; 1 # 2]%Q (Some [0%Q])));
    reflexivity.
Defined.

(** C6 as it is stated fails: entered with the lock free, [save] on a
    checkpoint that is ahead of the frames in memory raises and leaves the
    lock held, and so does [load_from_checkpoint] on a checkpoint that holds
    a frame. *)
Lemma lock_left_held_when_the_call_raises :
  let behind := ex_world PlainTrajectory [0; 1]%Q (Some [0; 1; 2; 3]%Q) in
  let saved := runM (save false) behind in
  let loaded := runM (load_from_checkpoint (FramesKeyword "all")) behind in
  lock_held behind = false
  /\ (saved.1 = Raised (AssertionError "we can't write negative frames")
      /\ lock_held saved.2 = true)
  /\ (raises loaded.1 /\ lock_held loaded.2 = true).
Proof.
  cbn zeta. split; [reflexivity|]. split; [split; vm_compute; reflexivity|].
  split; [eexists; vm_compute; reflexivity | vm_compute; reflexivity].
Qed.

(** ** Loading *)

(** The length of a slice depends on the length of the sequence only. *)
Lemma length_py_slice {A B : Type} start stop (l : list A) (l' : list B) :
  length l = length l' -> length (py_slice start stop l) = length (py_slice start stop l').
Proof.
  intros Hlen. unfold py_slice. rewrite !length_take, !length_drop, Hlen. reflexivity.
Qed.

Lemma py_index_in_range {A : Type} (l : list A) i :
  i < length l -> exists x, py_index l i = Returned x.
Proof.
  intros Hi. unfold py_index.
  destruct (lookup_lt_is_Some_2 l i Hi) as [x ->]. eauto.
Qed.

(** The call in the loading loop passes [time=], which is no parameter of
    [Frame.__init__]: the arguments evaluated, the call raises. *)
Lemma load_frame_raises energies xs vs accs d temperatures times i :
  i < length times ->
  length energies = length times -> length xs = length times ->
  length vs = length times -> length accs = length times ->
  length temperatures = length times ->
  load_frame energies xs vs accs d temperatures times i
  = Raised (TypeError "__init__() got an unexpected keyword argument 'time'").
Proof.
  intros Hi He Hx Hv Ha HT. unfold load_frame.
  destruct (py_index_in_range xs i) as [x ->]; [lia|].
  destruct (py_index_in_range vs i) as [v ->]; [lia|].
  destruct (py_index_in_range accs i) as [a ->]; [lia|].
  destruct (py_index_in_range energies i) as [e ->]; [lia|].
  destruct (py_index_in_range temperatures i) as [T ->]; [lia|].
  destruct (py_index_in_range times i) as [t ->]; [lia|].
  reflexivity.
Qed.

Lemma load_loop_first_raises load i rest e w :
  load i = Raised e -> runM (load_loop load (i :: rest)) w = (Raised e, w).
Proof. intros H. cbn [load_loop]. rewrite runM_bind. cbn [runM lift]. by rewrite H. Qed.

Lemma py_slice_nil {A : Type} start stop : @py_slice A start stop [] = [].
Proof. unfold py_slice. by rewrite drop_nil, take_nil. Qed.

(** C3: the round trip does not go through.  [load_from_checkpoint] builds
    each frame with [Frame(..., time=all_times[i])], and [Frame.__init__]
    has no [time] parameter: on every checkpoint whose selected slice holds a
    frame the call raises [TypeError], no frame is loaded, and the lock stays
    held. *)
Theorem load_rejects_time_keyword (which : frames_arg) (w : world) (name : string)
    (h5 : Checkpoint) (start stop : option Z) :
  checkpoint_filename (traj w) = Some name ->
  file w = Some h5 ->
  resolve_frames (traj w) which = Returned (start, stop) ->
  length (all_energies h5) = length (all_times h5) ->
  length (all_positions h5) = length (all_times h5) ->
  length (all_velocities h5) = length (all_times h5) ->
  length (all_accelerations h5) = length (all_times h5) ->
  length (bath_temperatures h5) = length (all_times h5) ->
  py_slice start stop (all_times h5) <> [] ->
  let out := runM (load_from_checkpoint which) w in
  out.1 = Raised (TypeError "__init__() got an unexpected keyword argument 'time'")
  /\ frames (traj out.2) = []
  /\ lock_held out.2 = true.
Proof.
  intros Hname Hfile Hres He Hx Hv Ha HT Hsome out. subst out.
  assert (Hne : bool_decide (length (all_energies h5) = 0) = false).
  { apply bool_decide_eq_false. intros H0. apply Hsome.
    rewrite He in H0. apply nil_length_inv in H0. rewrite H0. apply py_slice_nil. }
  set (times := py_slice start stop (all_times h5)) in *.
  assert (Hlen : forall {B} (l : list B), length l = length (all_times h5) ->
                   length (py_slice start stop l) = length times).
  { intros B l Hl. by apply length_py_slice. }
  unfold load_from_checkpoint, has_checkpoint. cbn [runM]. rewrite Hname, Hfile. cbn [negb].
  rewrite runM_bind. cbn [runM get_traj].
  rewrite runM_bind. cbn [runM lift]. rewrite Hres.
  rewrite runM_bind. cbn [runM lock_acquire].
  rewrite runM_bind. unfold current_file. rewrite runM_bind. cbn [runM get_file file].
  rewrite Hfile. cbn [runM mret M_ret].
  rewrite runM_bind. cbn [runM modify_traj].
  rewrite runM_bind. cbn [runM modify_traj].
  rewrite runM_bind. rewrite Hne.
  repeat (rewrite runM_bind; cbn [runM lift]).
  rewrite !Hlen by done.
  rewrite !bool_decide_eq_true_2 by done. cbn [py_assert].
  fold times.
  destruct times as [|t0 times'] eqn:Htimes; [done|].
  cbn [length seq].
  rewrite load_loop_first_raises
    with (e := TypeError "__init__() got an unexpected keyword argument 'time'").
  - cbn. done.
  - apply load_frame_raises; rewrite ?Hlen; cbn; try done; try lia.
    all: rewrite <- Htimes; by apply Hlen.
Qed.

Lemma load_rejects_time_keyword_witness :
  let saved := runM (save false) (ex_world PlainTrajectory [0%Q] None) in
  let out := runM (load_from_checkpoint (FramesKeyword "all")) saved.2 in
  out.1 = Raised (TypeError "__init__() got an unexpected keyword argument 'time'")
  /\ frames (traj out.2) = []
  /\ lock_held out.2 = true.
Proof.
  cbn zeta.
  apply (load_rejects_time_keyword (FramesKeyword "all")
           (runM (save false) (ex_world PlainTrajectory [0%Q] None)).2
           "run.chk" (ex_checkpoint [0%Q]) None None);
    try reflexivity.
  vm_compute. discriminate.
Defined.

Lemma py_slice_from_one {A : Type} (l : list A) : py_slice (Some 1%Z) None l = drop 1 l.
Proof.
  unfold py_slice, clamp_index.
  change (1 <? 0)%Z with false. change (Z.to_nat 1) with 1. cbv iota.
  destruct l as [|x l]; [reflexivity|].
  cbn [length Nat.min]. rewrite Nat.min_0_r. cbn [drop].
  replace (S (length l) - 1) with (length l) by lia. apply firstn_all.
Qed.

(** C9: the keyword "first" is the slice [1:], which drops the initial
    frame; on a checkpoint that holds exactly one frame the call returns
    with no frame loaded at all. *)
Theorem load_first_skips_the_initial_frame (w : world) (name : string) (h5 : Checkpoint) :
  checkpoint_filename (traj w) = Some name ->
  file w = Some h5 ->
  length (all_times h5) = 1 -> length (all_energies h5) = 1 ->
  length (all_positions h5) = 1 -> length (all_velocities h5) = 1 ->
  length (all_accelerations h5) = 1 -> length (bath_temperatures h5) = 1 ->
  let out := runM (load_from_checkpoint (FramesKeyword "first")) w in
  resolve_frames (traj w) (FramesKeyword "first") = Returned (Some 1%Z, None)
  /\ py_slice (Some 1%Z) None (all_times h5) = drop 1 (all_times h5)
  /\ out.1 = Returned tt
  /\ frames (traj out.2) = []
  /\ lock_held out.2 = false.
Proof.
  intros Hname Hfile Ht He Hx Hv Ha HT out. subst out.
  assert (Hres : resolve_frames (traj w) (FramesKeyword "first")
                 = Returned (Some 1%Z, None)) by reflexivity.
  split; [exact Hres|]. split; [apply py_slice_from_one|].
  unfold load_from_checkpoint, has_checkpoint. cbn [runM]. rewrite Hname, Hfile. cbn [negb].
  rewrite runM_bind. cbn [runM get_traj].
  rewrite runM_bind. cbn [runM lift]. rewrite Hres.
  rewrite runM_bind. cbn [runM lock_acquire].
  rewrite runM_bind. unfold current_file. rewrite runM_bind. cbn [runM get_file file].
  rewrite Hfile. cbn [runM mret M_ret].
  rewrite runM_bind. cbn [runM modify_traj].
  rewrite runM_bind. cbn [runM modify_traj].
  rewrite runM_bind. rewrite He. cbn [bool_decide decide_rel].
  rewrite !py_slice_from_one.
  destruct (all_times h5) as [|t [|]]; try discriminate.
  destruct (all_energies h5) as [|e [|]]; try discriminate.
  destruct (all_positions h5) as [|x [|]]; try discriminate.
  destruct (all_velocities h5) as [|v [|]]; try discriminate.
  destruct (all_accelerations h5) as [|a [|]]; try discriminate.
  destruct (bath_temperatures h5) as [|T [|]]; try discriminate.
  cbn. done.
Qed.

Lemma load_first_skips_the_initial_frame_witness :
  let out := runM (load_from_checkpoint (FramesKeyword "first"))
               (ex_world PlainTrajectory [] (Some [0%Q])) in
  out.1 = Returned tt /\ frames (traj out.2) = [] /\ lock_held out.2 = false.
Proof.
  cbn zeta.
  apply (load_first_skips_the_initial_frame
           (ex_world PlainTrajectory [] (Some [0%Q])) "run.chk" (ex_checkpoint [0%Q]));
    reflexivity.
Defined.

(** ** The controller *)

(** A frame built by [Frame.__init__] carries the bath temperature it was
    given and no [time] attribute. *)
Lemma Frame_init_Returned x v a kwargs f :
  Frame_init x v a kwargs = Returned f ->
  time f = None /\ bath_temperature f = kwarg "bath_temperature" kwargs (Integer 298).
Proof.
  unfold Frame_init.
  destruct (list_find _ kwargs) as [[? [? ?]]|]; [discriminate|].
  intros H.
  repeat (apply outcome_bind_Returned in H as (? & _ & H)).
  inversion H. split; reflexivity.
Qed.

Section ControllerFacts.
Variables (integ : integrator) (checks : list Check) (reporters : list Reporter).

(** The frame a tick requests comes from [Frame.__init__], called with the
    bath temperature of the tail frame. *)
Lemma request_next_frame_Returned now w nf w' :
  runM (Controller.request_next_frame integ now) w = (Returned nf, w') ->
  exists current x v a,
    py_last (frames (traj w)) = Returned current
    /\ Frame_init x v a [("bath_temperature", bath_temperature current)] = Returned nf.
Proof.
  unfold Controller.request_next_frame.
  rewrite runM_bind. cbn [runM get_traj].
  rewrite runM_bind. cbn [runM lift].
  destruct (py_last (frames (traj w))) as [current| |]; [|discriminate|discriminate].
  rewrite runM_bind.
  assert (Hrest : forall w0,
    runM (let '(current_frame', new_frame) :=
            Frame_next integ current (Some (bath_temperature current)) (forwards (traj w)) in
          modify_traj (fun t => with_frames (set_last current_frame' (frames t)) t) ≫=
          (fun _ => lift new_frame)) w0
    = (Returned nf, w') ->
    exists current0 x v a, Returned current = Returned current0 /\
      Frame_init x v a [("bath_temperature", bath_temperature current0)] = Returned nf).
  { intros w0. unfold Frame_next.
    destruct (is_numeric (bath_temperature current));
      [|rewrite runM_bind; cbn [runM modify_traj lift]; discriminate].
    destruct (integ current (forwards (traj w))) as [[[[e nx] nv] na]| |].
    - rewrite runM_bind. cbn [runM modify_traj lift]. intros [= H _]. eauto 10.
    - rewrite runM_bind. cbn [runM modify_traj lift]. discriminate.
    - rewrite runM_bind. cbn [runM modify_traj lift]. discriminate. }
  destruct (kind (traj w)); cbn [runM lift mret M_ret].
  - apply Hrest.
  - destruct (bath_scheduler (traj w) now); [apply Hrest | discriminate | discriminate].
  - apply Hrest.
Qed.

(** C8: the temperature passed to [Frame.next] is
    [current_frame.bath_temperature]: the new frame takes the bath
    temperature of the tail frame, whatever the trajectory's schedule gives
    at the clock time. *)
Theorem next_frame_inherits_bath_temperature now w nf w' :
  runM (Controller.request_next_frame integ now) w = (Returned nf, w') ->
  exists current,
    py_last (frames (traj w)) = Returned current
    /\ bath_temperature nf = bath_temperature current.
Proof.
  intros (current & x & v & a & Hlast & Hinit)%request_next_frame_Returned.
  exists current. split; [exact Hlast|].
  by apply Frame_init_Returned in Hinit as [_ ->].
Qed.

(** No tick completes: the frame that [Frame.next] builds has no [time]
    attribute, and the tick reads it. *)
Lemma tick_never_returns checkpoint_interval keep_all st w :
  match (runM (Controller.tick integ checks reporters checkpoint_interval keep_all st) w).1
  with
  | Returned _ => False
  | _ => True
  end.
Proof.
  unfold Controller.tick.
  rewrite runM_bind. cbn [runM get_traj].
  rewrite runM_bind.
  destruct (runM (Controller.request_next_frame integ _) w) as [[nf| |] w'] eqn:Hreq;
    [|done|done].
  apply request_next_frame_Returned in Hreq as (current & x & v & a & _ & Hinit).
  apply Frame_init_Returned in Hinit as [Htime _].
  rewrite runM_bind. cbn [runM lift]. unfold Frame_time. rewrite Htime. done.
Qed.

Lemma run_loop_never_returns fuel checkpoint_interval keep_all st w :
  q_ltb (current_time st) (end_time st) = true ->
  match (runM (Controller.run_loop integ checks reporters fuel checkpoint_interval
                 keep_all st) w).1
  with
  | Returned _ => False
  | _ => True
  end.
Proof.
  intros Hlt. destruct fuel as [|fuel]; cbn [Controller.run_loop]; rewrite Hlt; [done|].
  rewrite runM_bind.
  pose proof (tick_never_returns checkpoint_interval keep_all st w) as Htick.
  destruct (runM (Controller.tick _ _ _ _ _ _) w) as [[st'| |] w']; done.
Qed.

Lemma run_never_returns fuel checkpoint_interval end_time runtime keep_all w :
  match (runM (Controller.run integ checks reporters fuel checkpoint_interval
                 end_time runtime keep_all) w).1
  with
  | Returned _ => False
  | _ => True
  end.
Proof.
  unfold Controller.run.
  rewrite runM_bind. cbn [runM get_traj].
  rewrite runM_bind. cbn [runM lift].
  destruct (py_last (frames (traj w))) as [last| |]; [|done|done].
  rewrite runM_bind. cbn [runM lift].
  destruct (Frame_time last) as [now| |]; [|done|done].
  rewrite runM_bind. cbn [runM lift].
  set (target := match end_time with Some e => e | None => _ end).
  destruct (q_ltb now target) eqn:Hlt; [|done]. cbn [py_assert].
  rewrite runM_bind.
  pose proof (run_loop_never_returns fuel checkpoint_interval keep_all
                {| current_time := now; end_time := target;
                   finished_early := false; count := 0 |} w Hlt) as Hloop.
  destruct (runM (Controller.run_loop _ _ _ _ _ _ _) w) as [[st'| |] w']; done.
Qed.

(** C5: on a reaction trajectory in the running state the early-stopping
    check raises before the termination predicate is called: it reads
    [self.frames] on the controller, which has no such attribute.  The end
    time is never extended, and no run returns. *)
Theorem early_stopping_raises fuel checkpoint_interval end_time runtime keep_all st w :
  kind (traj w) = ReactionTrajectory ->
  finished_early st = false ->
  runM (Controller.early_stopping st) w
  = (Raised (AttributeError "'Controller' object has no attribute 'frames'"), w)
  /\ match (runM (Controller.run integ checks reporters fuel checkpoint_interval
                    end_time runtime keep_all) w).1
     with
     | Returned _ => False
     | _ => True
     end.
Proof.
  intros Hkind Hrunning. split; [|apply run_never_returns].
  unfold Controller.early_stopping. rewrite Hrunning.
  rewrite runM_bind. cbn [runM get_traj]. rewrite Hkind. reflexivity.
Qed.

End ControllerFacts.

Lemma next_frame_inherits_bath_temperature_witness :
  let w := ex_world EquilibrationTrajectory [0%Q] None in
  exists nf w',
    runM (Controller.request_next_frame ex_integrator 1%Q) w = (Returned nf, w')
    /\ bath_scheduler (traj w) 1%Q = Returned (Integer 400)
    /\ exists current,
         py_last (frames (traj w)) = Returned current
         /\ bath_temperature nf = bath_temperature current.
Proof.
  cbn zeta. eexists. eexists. split; [reflexivity|]. split; [reflexivity|].
  eapply (next_frame_inherits_bath_temperature ex_integrator 1%Q
            (ex_world EquilibrationTrajectory [0%Q] None)).
  reflexivity.
Defined.

Lemma early_stopping_raises_witness :
  let w := ex_world ReactionTrajectory [0%Q] (Some [0%Q]) in
  runM (Controller.early_stopping ex_locals) w
  = (Raised (AttributeError "'Controller' object has no attribute 'frames'"), w)
  /\ match (runM (Controller.run ex_integrator [] [] 20 25%Q None None false) w).1 with
     | Returned _ => False
     | _ => True
     end.
Proof.
  cbn zeta.
  apply (early_stopping_raises ex_integrator [] [] 20 25%Q None None false ex_locals
           (ex_world ReactionTrajectory [0%Q] (Some [0%Q])));
    reflexivity.
Defined.

(** The run of a reaction trajectory whose termination predicate holds on
    every frame: the first tick raises. *)
Lemma reaction_run_raises_in_first_tick :
  (runM (Controller.run ex_integrator [] [] 20 25%Q None None false)
     (ex_world ReactionTrajectory [0%Q] (Some [0%Q]))).1
  = Raised (AttributeError "'Frame' object has no attribute 'time'").
Proof. vm_compute. reflexivity. Qed.

(** ** Removal of center-of-mass motion *)

Lemma scale_rows_same_length masses rows :
  length masses = length rows ->
  scale_rows masses rows = Returned (zip_with v3_scale masses rows).
Proof. intros H. unfold scale_rows. by destruct (decide _). Qed.

Lemma broadcast2_same_length {A : Type} (op : A -> A -> A) (xs ys : list A) :
  length xs = length ys ->
  OneIndexed.broadcast2 op xs ys = Returned (zip_with op xs ys).
Proof. intros H. unfold OneIndexed.broadcast2. by destruct (decide _). Qed.

Lemma py_assert_cases cond msg :
  (cond = true /\ py_assert cond msg = Returned tt)
  \/ (cond = false /\ py_assert cond msg = Raised (AssertionError msg)).
Proof. destruct cond; [left | right]; done. Qed.

(** The assertion at the head of the remaining code: it holds and the code
    goes on, or it fails with an [AssertionError]. *)
Ltac head_assert H :=
  lazymatch goal with
  | |- (forall f', mbind _ (py_assert ?c ?m) = _ -> _) /\ _ =>
      destruct (py_assert_cases c m) as [[H ->]|[H ->]];
      cbn [mbind outcome_bind];
      [| split; [intros ? Hf; discriminate Hf|];
         split; [intros ? He; inversion He; eauto | discriminate] ]
  end.

(** C7, as the code has it: the correction is computed over, and applied to,
    every atom (the centroid, the total mass and both corrections are sums
    over all rows; [active_atoms] is not read).  When the call returns, the
    net linear momentum and the net angular momentum over all atoms are
    below the tolerance 0.0001; when it does not return, it has raised an
    [AssertionError]. *)
Theorem remove_com_motion_corrects_all_atoms (masses : list Q) (f : Frame) :
  length masses = length (velocities f) ->
  length (positions f) = length (velocities f) ->
  let n := inject_Z (Z.of_nat (length (positions f))) in
  let centroid := v3_scale (/ n)%Q (v3_sum (positions f)) in
  let xs := map (fun x => v3_sub x centroid) (positions f) in
  let total := q_sum masses in
  let shift := v3_scale (/ total)%Q (v3_sum (zip_with v3_scale masses (velocities f))) in
  let vs := map (fun v => v3_sub v shift) (velocities f) in
  let spin := v3_scale (/ total)%Q
                (v3_sum (zip_with v3_cross vs (zip_with v3_scale masses xs))) in
  let vs' := zip_with v3_sub vs
               (zip_with (fun c x => v3_scale (/ v3_dot x x)%Q c)
                  (zip_with v3_cross xs (replicate (length vs) spin)) xs) in
  (forall f', remove_com_motion masses f = Returned f' ->
     positions f' = xs /\ velocities f' = vs'
     /\ norm_below (v3_sum (zip_with v3_scale masses (velocities f'))) tolerance = true
     /\ norm_below (v3_sum (zip_with v3_scale masses
                              (zip_with v3_cross (velocities f') (positions f'))))
          tolerance = true)
  /\ (forall e, remove_com_motion masses f = Raised e -> exists msg, e = AssertionError msg)
  /\ remove_com_motion masses f <> Blocked.
Proof.
  intros Hm Hx n centroid xs total shift vs spin vs'.
  assert (Hxs : length xs = length (velocities f)) by (unfold xs; by rewrite length_map).
  assert (Hvs : length vs = length (velocities f)) by (unfold vs; by rewrite length_map).
  assert (Hvs' : length vs' = length (velocities f)).
  { unfold vs'. rewrite !length_zip_with, length_replicate. lia. }
  unfold remove_com_motion.
  rewrite (scale_rows_same_length masses (velocities f)) by done. cbn [mbind outcome_bind].
  fold n centroid xs total shift vs.
  rewrite (scale_rows_same_length masses vs) by lia. cbn [mbind outcome_bind].
  head_assert Hc1.
  rewrite (scale_rows_same_length masses xs) by lia. cbn [mbind outcome_bind].
  rewrite (broadcast2_same_length v3_cross vs) by (rewrite length_zip_with; lia).
  cbn [mbind outcome_bind]. fold spin.
  rewrite (broadcast2_same_length v3_cross xs) by (rewrite length_replicate; lia).
  cbn [mbind outcome_bind].
  rewrite (broadcast2_same_length _ (zip_with v3_cross xs (replicate (length vs) spin)) xs)
    by (rewrite length_zip_with, length_replicate; lia).
  cbn [mbind outcome_bind].
  rewrite (broadcast2_same_length v3_sub vs)
    by (rewrite !length_zip_with, length_replicate; lia).
  cbn [mbind outcome_bind]. fold vs'.
  rewrite (scale_rows_same_length masses vs') by lia. cbn [mbind outcome_bind].
  head_assert Hc2.
  rewrite (broadcast2_same_length v3_cross vs' xs) by lia. cbn [mbind outcome_bind].
  rewrite (scale_rows_same_length masses (zip_with v3_cross vs' xs))
    by (rewrite length_zip_with; lia).
  cbn [mbind outcome_bind].
  head_assert Hc3.
  split; [|split; [intros e He; discriminate He | discriminate]].
  intros f' [= <-]. cbn [positions velocities].
  apply andb_true_iff in Hc2 as [_ Hc2].
  repeat split; done.
Qed.

Lemma remove_com_motion_corrects_all_atoms_witness :
  exists f',
    remove_com_motion (masses ex_com_trajectory) ex_com_frame = Returned f'
    /\ norm_below (v3_sum (zip_with v3_scale (masses ex_com_trajectory) (velocities f')))
         tolerance = true
    /\ norm_below (v3_sum (zip_with v3_scale (masses ex_com_trajectory)
                             (zip_with v3_cross (velocities f') (positions f'))))
         tolerance = true.
Proof.
  eexists. split; [vm_compute; reflexivity|].
  eapply (proj1 (remove_com_motion_corrects_all_atoms (masses ex_com_trajectory)
                   ex_com_frame eq_refl eq_refl)).
  vm_compute. reflexivity.
Defined.

(** C7 as it is stated fails: the frozen second atom, at rest before the
    call, moves with velocity -1/2 after it, and the net linear momentum of
    the active atoms alone is 1/2, far above the tolerance. *)
Lemma remove_com_motion_moves_frozen_atoms :
  exists f' v p,
    remove_com_motion (masses ex_com_trajectory) ex_com_frame = Returned f'
    /\ active_atoms ex_com_trajectory = [1]
    /\ OneIndexed.get (velocities ex_com_frame) 2 = Returned (0, 0, 0)%Q
    /\ OneIndexed.get (velocities f') 2 = Returned v
    /\ Qeq_bool v.1.1 (- (1 # 2))%Q = true
    /\ active_momentum ex_com_trajectory f' = Returned p
    /\ Qeq_bool p.1.1 (1 # 2)%Q = true
    /\ norm_below p tolerance = false.
Proof.
  eexists. eexists. eexists.
  split; [vm_compute; reflexivity|].
  split; [reflexivity|].
  split; [reflexivity|].
  split; [vm_compute; reflexivity|].
  split; [vm_compute; reflexivity|].
  split; [vm_compute; reflexivity|].
  split; vm_compute; reflexivity.
Qed.

(** ** What a save writes *)

(** One step of a call whose outcome is known to be a return: a state
    action is run, a lifted outcome is split into its cases. *)
Ltac step_M :=
  rewrite runM_bind;
  cbn [runM get_traj get_file put_file lock_acquire lock_release lift modify_traj
       traj file lock_held].

Ltac step_lift H :=
  rewrite runM_bind; cbn [runM lift];
  lazymatch goal with
  | |- (match ?o with _ => _ end) = _ -> _ =>
      destruct o eqn:H; [|discriminate|discriminate]
  end.

(** [trim_frames] always returns; it keeps the last [buffer] frames unless
    [keep_all]. *)
Lemma runM_trim_frames keep_all w :
  runM (trim_frames keep_all) w
  = (Returned tt,
     {| traj := if keep_all then traj w
                else with_frames (py_slice (Some (- buffer (traj w))%Z) None (frames (traj w)))
                       (traj w);
        file := file w; lock_held := lock_held w |}).
Proof. unfold trim_frames. destruct keep_all; [by destruct w|reflexivity]. Qed.

(** [np.stack] returns the rows it was given, and only for a list that is
    not empty. *)
Lemma py_stack_Returned n rows r :
  py_stack n rows = Returned r ->
  r = rows /\ rows <> [] /\ Forall (fun row => length row = n) rows.
Proof.
  unfold py_stack. destruct rows as [|row rows]; [discriminate|].
  destruct (forallb _ _) eqn:Hall; [|discriminate].
  intros [= <-]. split; [reflexivity|]. split; [discriminate|].
  apply Forall_forall. intros x Hx.
  rewrite forallb_forall in Hall. apply list_elem_of_In in Hx. specialize (Hall x Hx).
  by apply bool_decide_eq_true in Hall.
Qed.

Lemma np_stack_Returned vals array :
  np_stack vals = Returned array -> array = np_asarray vals /\ vals <> [].
Proof. destruct vals; [discriminate|]. by intros [= <-]. Qed.

(** A save that returns on a path without a file: the world it leaves. *)
Lemma save_create_Returned keep_all w w' name :
  checkpoint_filename (traj w) = Some name ->
  file w = None ->
  runM (save keep_all) w = (Returned tt, w') ->
  let self := traj w in
  let period := save_period self in
  let n_atoms := length (atomic_numbers self) in
  exists to_add times,
    frames_to_add None period (frames self) = Returned to_add
    /\ to_add <> []
    /\ omapM Frame_time to_add = Returned times
    /\ Forall (fun f => length (positions f) = n_atoms
                        /\ length (velocities f) = n_atoms
                        /\ length (accelerations f) = n_atoms) to_add
    /\ w' = {| traj := if keep_all then self
                       else with_frames
                              (py_slice (Some (- buffer self)%Z) None (frames self)) self;
               file := Some
                 {| attr_atomic_numbers := atomic_numbers self; attr_masses := masses self;
                    attr_finished := finished self; attr_forwards := forwards self;
                    all_times := times; all_energies := map energy to_add;
                    all_positions := map positions to_add;
                    all_velocities := map velocities to_add;
                    all_accelerations := map accelerations to_add;
                    bath_temperatures :=
                      map (as_dtype (array_dtype (map bath_temperature to_add)))
                        (map bath_temperature to_add);
                    temperatures_dtype := array_dtype (map bath_temperature to_add) |};
               lock_held := false |}.
Proof.
  intros Hname Hfile. unfold save.
  step_M. rewrite Hname.
  step_M. step_lift Hlast. step_lift Htime. step_M. rewrite Hfile.
  step_M. step_lift Hadd. step_M. step_lift Htimes. step_M.
  step_lift Hxs. step_M. step_lift Hvs. step_M. step_lift Haccs.
  do 3 step_M. rewrite runM_trim_frames. cbn [traj file lock_held].
  intros [= <-]. cbv zeta.
  apply py_stack_Returned in Hxs as (-> & Hne & Hx).
  apply py_stack_Returned in Hvs as (-> & _ & Hv).
  apply py_stack_Returned in Haccs as (-> & _ & Ha).
  eexists _, _. split; [reflexivity|].
  split; [by intros ->|]. split; [exact Htimes|].
  split; [|reflexivity].
  rewrite Forall_fmap in Hx, Hv, Ha.
  rewrite !Forall_forall in *. intros f Hf. specialize (Hx f Hf). specialize (Hv f Hf).
  specialize (Ha f Hf). done.
Qed.

(** Resizing and writing the tail of one dataset of the open file. *)
Lemma runM_extend_dataset {A : Type} (proj : Checkpoint -> list A) upd fill now new vals w h5 :
  file w = Some h5 ->
  runM (extend_dataset proj upd fill now new vals) w
  = match assign_tail new vals (resize now fill (proj h5)) with
    | Returned written =>
        (Returned tt, {| traj := traj w; file := Some (upd written h5);
                         lock_held := lock_held w |})
    | Raised e =>
        (Raised e, {| traj := traj w; file := Some (upd (resize now fill (proj h5)) h5);
                      lock_held := lock_held w |})
    | Blocked =>
        (Blocked, {| traj := traj w; file := Some (upd (resize now fill (proj h5)) h5);
                     lock_held := lock_held w |})
    end.
Proof.
  intros Hfile. unfold extend_dataset, current_file.
  rewrite !runM_bind. cbn [runM get_file]. rewrite Hfile.
  cbn [runM mret M_ret]. rewrite !runM_bind. cbn [runM put_file lift traj file lock_held].
  by destruct (assign_tail _ _ _).
Qed.

Ltac step_extend H :=
  rewrite runM_bind; erewrite runM_extend_dataset by reflexivity;
  cbn [traj file lock_held];
  lazymatch goal with
  | |- (match (match ?o with _ => _ end) with _ => _ end) = _ -> _ =>
      destruct o eqn:H; [|discriminate|discriminate]
  end.


(** A save that returns on an existing checkpoint: either nothing was due
    and only the two flags were stored, or every dataset was resized and its
    tail written. *)
Lemma save_append_Returned keep_all w w' name h5 :
  checkpoint_filename (traj w) = Some name ->
  file w = Some h5 ->
  runM (save keep_all) w = (Returned tt, w') ->
  let self := traj w in
  let period := save_period self in
  let n_atoms := length (atomic_numbers self) in
  let blank := replicate n_atoms v3_zero in
  exists last t_run t_saved n_new,
    py_last (frames self) = Returned last
    /\ Frame_time last = Returned t_run
    /\ py_last (all_times h5) = Returned t_saved
    /\ count_new_frames t_run t_saved (timestep self) (save_interval self) = Returned n_new
    /\ ((n_new = 0%Z
         /\ w' = {| traj := self; file := Some (store_flags self h5); lock_held := false |})
        \/ ((0 < n_new)%Z
            /\ let now := Z.to_nat (n_new + Z.of_nat (length (all_energies h5))) in
               let new := Z.to_nat n_new in
               exists to_add times wt we wx wv wa wb,
                 frames_to_add (Some t_saved) period
                   (py_slice (Some (- (n_new * save_interval self) - 1)%Z) None (frames self))
                 = Returned to_add
                 /\ Z.of_nat (length to_add) = n_new
                 /\ omapM Frame_time to_add = Returned times
                 /\ assign_tail new times (resize now 0%Q (all_times h5)) = Returned wt
                 /\ assign_tail new (map energy to_add) (resize now 0%Q (all_energies h5))
                    = Returned we
                 /\ assign_tail new (map positions to_add)
                      (resize now blank (all_positions h5)) = Returned wx
                 /\ assign_tail new (map velocities to_add)
                      (resize now blank (all_velocities h5)) = Returned wv
                 /\ assign_tail new (map accelerations to_add)
                      (resize now blank (all_accelerations h5)) = Returned wa
                 /\ assign_tail new
                      (written_rows (temperatures_dtype h5)
                         (np_asarray (map bath_temperature to_add)))
                      (resize now 0%Q (bath_temperatures h5)) = Returned wb
                 /\ w' = {| traj := if keep_all then self
                                    else with_frames
                                           (py_slice (Some (- buffer self)%Z) None (frames self))
                                           self;
                            file := Some
                              {| attr_atomic_numbers := attr_atomic_numbers h5;
                                 attr_masses := attr_masses h5;
                                 attr_finished := finished self;
                                 attr_forwards := forwards self;
                                 all_times := wt; all_energies := we; all_positions := wx;
                                 all_velocities := wv; all_accelerations := wa;
                                 bath_temperatures := wb;
                                 temperatures_dtype := temperatures_dtype h5 |};
                            lock_held := false |})).
Proof.
  intros Hname Hfile. unfold save.
  step_M. rewrite Hname.
  step_M. step_lift Hlast. step_lift Htime. step_M. rewrite Hfile.
  step_M. step_lift Hsaved. step_lift Hcount.
  match goal with |- context [(?n =? 0)%Z] => rename n into n_new end.
  destruct (Z.eqb_spec n_new 0) as [Hz|Hnz].
  - cbn [runM lock_release traj file lock_held]. intros [= <-]. cbv zeta.
    eexists _, _, _, _. repeat (split; [done|]). left. done.
  - step_lift Hpos. apply py_assert_Returned in Hpos. apply Z.ltb_lt in Hpos.
    step_lift Hadd. step_lift Hlen. apply py_assert_Returned in Hlen. apply Z.eqb_eq in Hlen.
    step_lift Htimes.
    step_extend Ht. step_extend He.
    step_lift Hxs. apply py_stack_Returned in Hxs as (-> & _ & _).
    step_extend Hx.
    step_lift Hvs. apply py_stack_Returned in Hvs as (-> & _ & _).
    step_extend Hv.
    step_lift Has. apply py_stack_Returned in Has as (-> & _ & _).
    step_extend Ha.
    step_lift Htemps. apply np_stack_Returned in Htemps as [-> _].
    step_extend Hb.
    step_M. rewrite runM_trim_frames. cbn [traj file lock_held].
    intros [= <-]. cbv zeta.
    eexists _, _, _, _. repeat (split; [done|]). right. split; [done|].
    eexists _, _, _, _, _, _, _, _.
    repeat (split; [done|]). reflexivity.
Qed.

(** Truncation leaves an integer as it is. *)
Lemma py_int_inject q k : (q == inject_Z k)%Q -> py_int q = k.
Proof.
  unfold Qeq, py_int. cbn. rewrite Z.mul_1_r. intros ->.
  apply Z.quot_mul. lia.
Qed.

(** [t % p == 0] holds exactly when [t] is an integer multiple of [p]. *)
Lemma py_mod_zero_iff t p r :
  py_mod t p = Returned r -> (q_is_zero r = true <-> on_grid p t).
Proof.
  unfold py_mod, on_grid.
  destruct (q_is_zero p) eqn:Hp; [discriminate|].
  apply Qeq_bool_neq in Hp.
  assert (Hgrid : (exists k : Z, (t == inject_Z k * p)%Q) -> (fmod t p == 0)%Q).
  { intros [k Hk]. unfold fmod.
    rewrite (py_int_inject (t / p) k); [rewrite Hk; ring|].
    rewrite Hk. field. exact Hp. }
  destruct (q_is_zero (fmod t p)) eqn:Hrem.
  - intros [= <-]. split; [|reflexivity]. intros _.
    apply Qeq_bool_iff in Hrem. exists (py_int (t / p)).
    unfold fmod in Hrem. lra.
  - apply Qeq_bool_neq in Hrem.
    destruct (xorb _ _); intros [= <-]; unfold q_is_zero; rewrite Qeq_bool_iff.
    + unfold float_add. rewrite round64_zero_iff. split.
      * intros H. exists (py_int (t / p) + -1)%Z. rewrite inject_Z_plus.
        unfold fmod in H. change (inject_Z (-1)) with (-1 # 1)%Q. lra.
      * intros H. by apply Hgrid in H.
    + split; [done|]. intros H. by apply Hgrid in H.
Qed.

(** The selection loops of [save] keep the order of the frames, and select
    a frame exactly when it is later than the last saved time (if there is
    one) and on the grid of the save period. *)
Lemma frames_to_add_spec s period fs : forall l,
  frames_to_add s period fs = Returned l ->
  sublist l fs
  /\ forall f, f ∈ fs ->
       exists t, time f = Some t
         /\ (f ∈ l <->
             match s with Some s => q_leb t s = false | None => True end
             /\ on_grid period t).
Proof.
  induction fs as [|f fs IH]; intros l; cbn [frames_to_add].
  - intros [= <-]. split; [constructor|]. intros f Hf. by apply elem_of_nil in Hf.
  - unfold Frame_time at 1. destruct (time f) as [t|] eqn:Ht; [|discriminate].
    cbn [getattr mbind outcome_bind].
    destruct (match s with Some s0 => q_leb t s0 | None => false end) eqn:Hskip.
    + intros H. destruct (IH l H) as [Hsub Hall].
      split; [by apply sublist_cons|].
      intros g [->|Hg]%elem_of_cons; [|by apply Hall].
      exists t. split; [exact Ht|]. split.
      * intros Hin. destruct (Hall f) as (t' & Ht' & Hiff).
        { eapply elem_of_sublist; eauto. }
        rewrite Ht in Ht'. injection Ht' as <-. by apply Hiff.
      * intros [Hlate _]. destruct s as [s0|]; congruence.
    + destruct (py_mod t period) as [r| |] eqn:Hmod; [|discriminate|discriminate].
      cbn [mbind outcome_bind].
      destruct (frames_to_add s period fs) as [rest| |] eqn:Hrest; [|discriminate|discriminate].
      cbn [mbind outcome_bind]. intros [= <-].
      destruct (IH rest eq_refl) as [Hsub Hall].
      pose proof (py_mod_zero_iff t period r Hmod) as Hgrid.
      assert (Hlate : match s with Some s0 => q_leb t s0 = false | None => True end).
      { by destruct s. }
      destruct (q_is_zero r) eqn:Hr.
      * split; [by apply sublist_skip|].
        intros g [->|Hg]%elem_of_cons.
        -- exists t. split; [exact Ht|]. split; [|intros _; apply elem_of_cons; by left].
           intros _. split; [exact Hlate | by apply Hgrid].
        -- destruct (Hall g Hg) as (t' & Ht' & Hiff). exists t'. split; [exact Ht'|].
           rewrite <- Hiff. split; [|intros ?; apply elem_of_cons; by right].
           intros [->|?]%elem_of_cons; [|done].
           rewrite Ht in Ht'. injection Ht' as <-. apply Hiff. split; [exact Hlate|by apply Hgrid].
      * split; [by apply sublist_cons|].
        intros g [->|Hg]%elem_of_cons; [|by apply Hall].
        exists t. split; [exact Ht|]. split.
        -- intros Hin. destruct (Hall f) as (t' & Ht' & Hiff).
           { eapply elem_of_sublist; eauto. }
           rewrite Ht in Ht'. injection Ht' as <-. by apply Hiff.
        -- intros [_ Hon]. apply Hgrid in Hon. discriminate.
Qed.


Lemma Frame_time_Returned f t : Frame_time f = Returned t -> time f = Some t.
Proof. unfold Frame_time. destruct (time f); [by intros [= ->] | discriminate]. Qed.

Lemma omapM_Frame_time fs times :
  omapM Frame_time fs = Returned times -> map time fs = map Some times.
Proof.
  revert times. induction fs as [|f fs IH]; intros times; cbn [omapM].
  - by intros [= <-].
  - destruct (Frame_time f) as [t| |] eqn:Ht; cbn [mbind outcome_bind];
      [|discriminate|discriminate].
    apply Frame_time_Returned in Ht.
    destruct (omapM Frame_time fs) as [ts| |]; cbn [mbind outcome_bind];
      [|discriminate|discriminate].
    intros [= <-]. cbn. rewrite Ht. f_equal. by apply IH.
Qed.

(** X1: a save that returns on a path where no file exists creates the
    checkpoint from the frames in memory whose time is an integer multiple
    of the float [timestep * save_interval]: those frames, in their order,
    one row in each of the six datasets, and the atomic numbers, masses and
    the two flags of the trajectory as attributes.  The bath temperatures
    make an integer dataset when all of them are integers, and a float
    dataset otherwise.  At least one frame is written. *)
Theorem save_creates_checkpoint_of_grid_frames (keep_all : bool) (w w' : world)
    (name : string) :
  checkpoint_filename (traj w) = Some name ->
  file w = None ->
  runM (save keep_all) w = (Returned tt, w') ->
  let self := traj w in
  let period := save_period self in
  exists to_add times h5,
    file w' = Some h5
    /\ to_add <> []
    /\ sublist to_add (frames self)
    /\ (forall f, f ∈ frames self ->
          exists t, time f = Some t /\ (f ∈ to_add <-> on_grid period t))
    /\ map time to_add = map Some times
    /\ temperatures_dtype h5 = array_dtype (map bath_temperature to_add)
    /\ datasets h5
       = (times, map energy to_add, map positions to_add, map velocities to_add,
          map accelerations to_add,
          map (as_dtype (temperatures_dtype h5)) (map bath_temperature to_add))
    /\ attr_atomic_numbers h5 = atomic_numbers self
    /\ attr_masses h5 = masses self
    /\ attr_finished h5 = finished self
    /\ attr_forwards h5 = forwards self.
Proof.
  intros Hname Hfile Hrun self period.
  destruct (save_create_Returned keep_all w w' name Hname Hfile Hrun)
    as (to_add & times & Hadd & Hne & Htimes & _ & ->).
  destruct (frames_to_add_spec None _ _ _ Hadd) as [Hsub Hall].
  eexists to_add, times, _. split; [reflexivity|].
  split; [exact Hne|]. split; [exact Hsub|].
  split.
  { intros f Hf. destruct (Hall f Hf) as (t & Ht & Hiff). exists t. split; [exact Ht|].
    rewrite Hiff. tauto. }
  split; [by apply omapM_Frame_time|]. done.
Qed.

(** With the timestep 0.1 and the save interval 5 the period is the float
    0.5, and of the six frames of the clock those of the times 0 and 0.5 are
    written; their integer bath temperatures make an integer dataset. *)
Lemma save_creates_checkpoint_of_grid_frames_witness :
  let w := ex_decimal 5 (replicate 6 (Integer 298)) None in
  save_period (traj w) = (1 # 2)%Q
  /\ exists to_add times h5,
    file (runM (save false) w).2 = Some h5
    /\ to_add <> []
    /\ sublist to_add (frames (traj w))
    /\ (forall f, f ∈ frames (traj w) ->
          exists t, time f = Some t /\ (f ∈ to_add <-> on_grid (1 # 2)%Q t))
    /\ map time to_add = map Some times
    /\ temperatures_dtype h5 = array_dtype (map bath_temperature to_add)
    /\ datasets h5
       = (times, map energy to_add, map positions to_add, map velocities to_add,
          map accelerations to_add,
          map (as_dtype (temperatures_dtype h5)) (map bath_temperature to_add))
    /\ attr_atomic_numbers h5 = [1%Z]
    /\ attr_masses h5 = [1%Q]
    /\ attr_finished h5 = false
    /\ attr_forwards h5 = true.
Proof.
  cbn zeta. split; [vm_compute; reflexivity|].
  apply (save_creates_checkpoint_of_grid_frames false
           (ex_decimal 5 (replicate 6 (Integer 298)) None)
           (runM (save false) (ex_decimal 5 (replicate 6 (Integer 298)) None)).2 "run.chk");
    [reflexivity | reflexivity | vm_compute; reflexivity].
Defined.

(** Growing a dataset by the number of new rows and writing them at its
    tail appends them. *)
Lemma assign_tail_appends {A : Type} (fill : A) (d vals : list A) (n_new : Z) :
  (0 < n_new)%Z ->
  Z.of_nat (length vals) = n_new ->
  assign_tail (Z.to_nat n_new) vals
    (resize (Z.to_nat (n_new + Z.of_nat (length d))) fill d)
  = Returned (d ++ vals).
Proof.
  intros Hpos Hlen. unfold assign_tail, resize.
  assert (Hnew : Z.to_nat n_new = length vals) by lia.
  assert (Hnow : Z.to_nat (n_new + Z.of_nat (length d)) = length d + length vals) by lia.
  rewrite Hnew, Hnow.
  rewrite take_ge by lia.
  replace (length d + length vals - length d) with (length vals) by lia.
  rewrite length_app, length_replicate.
  rewrite Nat.min_l by lia.
  destruct (decide (length vals = length vals)) as [_|]; [|done].
  replace (length d + length vals - length vals) with (length d) by lia.
  by rewrite take_app_length.
Qed.

(** One float among the numbers makes the array a float array. *)
Lemma array_dtype_float vals k q :
  vals !! k = Some (Floating q) -> array_dtype vals = float64.
Proof.
  intros Hk. unfold array_dtype. destruct vals as [|v vals]; [done|].
  destruct (forallb is_integral (v :: vals)) eqn:Hall; [|reflexivity].
  rewrite forallb_forall in Hall.
  specialize (Hall (Floating q)). cbn [is_integral] in Hall.
  assert (false = true); [|discriminate].
  apply Hall. apply list_elem_of_In. by eapply list_elem_of_lookup_2.
Qed.

(** Written into an integer dataset, a float is truncated. *)
Lemma written_rows_truncates vals k q :
  vals !! k = Some (Floating q) ->
  written_rows int64 (np_asarray vals) !! k = Some (inject_Z (py_int q)).
Proof.
  intros Hk. unfold written_rows, np_asarray. cbn [fst snd].
  rewrite (array_dtype_float vals k q Hk).
  change (map ?g ?l) with (g <$> l). rewrite !list_lookup_fmap, Hk. reflexivity.
Qed.

(** X2: a save that returns on a checkpoint whose datasets have one row per
    saved frame only appends: every dataset keeps its rows and gains the
    rows of the same frames of the trajectory, each of them later than the
    last saved time and on the grid of the float [timestep * save_interval].
    The dataset of the bath temperatures keeps its element type, and the new
    temperatures are converted to it: in an integer dataset a float
    temperature is stored truncated.  The file stays consistent, keeps its
    atomic numbers and masses, and takes the two flags of the trajectory. *)
Theorem save_appends_after_the_saved_frames (keep_all : bool) (w w' : world)
    (name : string) (h5 : Checkpoint) :
  checkpoint_filename (traj w) = Some name ->
  file w = Some h5 ->
  consistent h5 ->
  runM (save keep_all) w = (Returned tt, w') ->
  let self := traj w in
  let period := save_period self in
  exists t_saved to_add times temperatures h5',
    file w' = Some h5'
    /\ py_last (all_times h5) = Returned t_saved
    /\ sublist to_add (frames self)
    /\ map time to_add = map Some times
    /\ Forall (fun t => (t_saved < t)%Q /\ on_grid period t) times
    /\ temperatures
       = written_rows (temperatures_dtype h5) (np_asarray (map bath_temperature to_add))
    /\ (temperatures_dtype h5 = int64 ->
        forall k f q, to_add !! k = Some f -> bath_temperature f = Floating q ->
          temperatures !! k = Some (inject_Z (py_int q)))
    /\ datasets h5'
       = (all_times h5 ++ times,
          all_energies h5 ++ map energy to_add,
          all_positions h5 ++ map positions to_add,
          all_velocities h5 ++ map velocities to_add,
          all_accelerations h5 ++ map accelerations to_add,
          bath_temperatures h5 ++ temperatures)
    /\ temperatures_dtype h5' = temperatures_dtype h5
    /\ consistent h5'
    /\ attr_atomic_numbers h5' = attr_atomic_numbers h5
    /\ attr_masses h5' = attr_masses h5
    /\ attr_finished h5' = finished self
    /\ attr_forwards h5' = forwards self.
Proof.
  intros Hname Hfile (Ht & Hx & Hv & Ha & Hb) Hrun self period.
  destruct (save_append_Returned keep_all w w' name h5 Hname Hfile Hrun)
    as (last & t_run & t_saved & n_new & _ & _ & Hsaved & _ & [[_ ->]|[Hpos Hnew]]).
  - exists t_saved, [], [], [], (store_flags self h5).
    split; [reflexivity|]. split; [exact Hsaved|]. split; [apply sublist_nil_l|].
    split; [reflexivity|]. split; [constructor|]. split; [reflexivity|].
    split; [by intros _ k f q Hk|].
    unfold datasets. cbn. rewrite !app_nil_r.
    split; [reflexivity|]. split; [reflexivity|]. split; [done|]. done.
  - cbv zeta in Hnew.
    destruct Hnew as (to_add & times & wt & we & wx & wv & wa & wb & Hadd & Hlen & Htimes
                      & Hwt & Hwe & Hwx & Hwv & Hwa & Hwb & ->).
    assert (Hlent : length times = length to_add).
    { apply omapM_Frame_time in Htimes.
      by rewrite <- (length_map Some times), <- Htimes, length_map. }
    set (temperatures := written_rows (temperatures_dtype h5)
                           (np_asarray (map bath_temperature to_add))) in *.
    assert (Hlenb : length temperatures = length to_add).
    { unfold temperatures, written_rows, np_asarray. cbn [fst snd].
      by rewrite !length_map. }
    rewrite <- Ht in Hwt. rewrite <- Hx in Hwx. rewrite <- Hv in Hwv.
    rewrite <- Ha in Hwa. rewrite <- Hb in Hwb.
    rewrite assign_tail_appends in Hwt by lia.
    rewrite assign_tail_appends in Hwe by (rewrite ?length_map; lia).
    rewrite assign_tail_appends in Hwx by (rewrite ?length_map; lia).
    rewrite assign_tail_appends in Hwv by (rewrite ?length_map; lia).
    rewrite assign_tail_appends in Hwa by (rewrite ?length_map; lia).
    rewrite assign_tail_appends in Hwb by lia.
    injection Hwt as <-. injection Hwe as <-. injection Hwx as <-.
    injection Hwv as <-. injection Hwa as <-. injection Hwb as <-.
    destruct (frames_to_add_spec _ _ _ _ Hadd) as [Hsub Hall].
    eexists t_saved, to_add, times, temperatures, _.
    split; [reflexivity|]. split; [exact Hsaved|].
    split.
    { etrans; [exact Hsub|]. unfold py_slice. etrans; [apply sublist_take|apply sublist_drop]. }
    split; [by apply omapM_Frame_time|].
    split.
    { apply omapM_Frame_time in Htimes.
      apply Forall_forall. intros t Hin.
      assert (Hin' : Some t ∈ map time to_add).
      { rewrite Htimes. by apply list_elem_of_fmap_2. }
      apply list_elem_of_fmap in Hin' as (f & Hf & Hfin).
      destruct (Hall f) as (t' & Ht' & Hiff).
      { eapply elem_of_sublist; eauto. }
      rewrite Ht' in Hf. injection Hf as ->.
      apply Hiff in Hfin as [Hlate Hon]. split; [|exact Hon].
      unfold q_leb in Hlate. apply Qnot_le_lt. intros Hle.
      apply Qle_bool_iff in Hle. congruence. }
    split; [reflexivity|].
    split.
    { intros Hint k f q Hk Hq. unfold temperatures. rewrite Hint.
      apply written_rows_truncates.
      change (map ?g ?l) with (g <$> l). by rewrite list_lookup_fmap, Hk, <- Hq. }
    split; [reflexivity|]. split; [reflexivity|].
    split.
    { unfold consistent. cbn. rewrite !length_app, !length_map. lia. }
    done.
Qed.

(** With the timestep 0.1 and the save interval 3 the period is the float
    0.30000000000000004, which is the time of the clock after three ticks:
    that frame is appended to a checkpoint that holds the frame of time 0.
    The checkpoint was created with the integer temperature 298; the
    temperature 300.5 of the new frame is stored as 300. *)
Lemma save_appends_after_the_saved_frames_witness :
  let T := Floating (601 # 2) in
  let w := ex_decimal 3 [Integer 298; T; T; T] (Some (ex_checkpoint [0%Q])) in
  ((3 # 10) < ex_clock 3)%Q
  /\ save_period (traj w) = ex_clock 3
  /\ exists h5',
    file (runM (save false) w).2 = Some h5'
    /\ all_times h5' = [0%Q; ex_clock 3]
    /\ bath_temperatures h5' = [298; 300]%Q
    /\ temperatures_dtype h5' = int64
    /\ consistent h5'.
Proof.
  cbn zeta. split; [vm_compute; reflexivity|]. split; [vm_compute; reflexivity|].
  destruct (save_appends_after_the_saved_frames false
              (ex_decimal 3 [Integer 298; Floating (601 # 2); Floating (601 # 2);
                             Floating (601 # 2)] (Some (ex_checkpoint [0%Q])))
              (runM (save false)
                 (ex_decimal 3 [Integer 298; Floating (601 # 2); Floating (601 # 2);
                                Floating (601 # 2)] (Some (ex_checkpoint [0%Q])))).2
              "run.chk" (ex_checkpoint [0%Q]))
    as (t_saved & to_add & times & temperatures & h5' & Hfile & _ & _ & _ & _ & _ & _ & _
        & _ & Hcons & _);
    [reflexivity | reflexivity | by repeat split | vm_compute; reflexivity |].
  exists h5'. split; [exact Hfile|].
  vm_compute in Hfile. injection Hfile as <-.
  split; [vm_compute; reflexivity|]. split; [reflexivity|]. split; [reflexivity|].
  by repeat split.
Defined.

(** [l[-b:]] for a positive [b] is the last [b] entries, or all of [l]. *)
Lemma py_slice_tail {A : Type} (b : Z) (l : list A) :
  (0 < b)%Z -> py_slice (Some (- b)%Z) None l = drop (length l - Z.to_nat b) l.
Proof.
  intros Hb. unfold py_slice, clamp_index.
  destruct (Z.ltb_spec (- b) 0) as [_|]; [|lia].
  replace (Z.to_nat (Z.max 0 (Z.of_nat (length l) + - b))) with (length l - Z.to_nat b) by lia.
  apply take_ge. rewrite length_drop. lia.
Qed.

Lemma py_last_drop {A : Type} (k : nat) (l : list A) :
  k < length l -> py_last (drop k l) = py_last l.
Proof.
  intros Hk. unfold py_last.
  rewrite <- (take_drop k l) at 2. rewrite last_app.
  destruct (last (drop k l)) eqn:Hlast; [reflexivity|].
  apply last_None in Hlast. apply (f_equal length) in Hlast.
  rewrite length_drop in Hlast. cbn in Hlast. lia.
Qed.

Lemma with_frames_frames fs t : with_frames (frames t) (with_frames fs t) = t.
Proof. by destruct t. Qed.

(** X3: with a positive buffer, a save that returns changes nothing of the
    trajectory but its list of frames, of which it drops only the oldest:
    either none is dropped, or [keep_all] is off and exactly [buffer] frames
    remain.  The newest frame always remains. *)
Theorem save_keeps_the_newest_frames (keep_all : bool) (w w' : world) (name : string) :
  checkpoint_filename (traj w) = Some name ->
  (0 < buffer (traj w))%Z ->
  runM (save keep_all) w = (Returned tt, w') ->
  exists dropped,
    frames (traj w) = dropped ++ frames (traj w')
    /\ (dropped = []
        \/ (keep_all = false /\ length (frames (traj w')) = Z.to_nat (buffer (traj w))))
    /\ py_last (frames (traj w')) = py_last (frames (traj w))
    /\ with_frames (frames (traj w)) (traj w') = traj w.
Proof.
  intros Hname Hbuf Hrun.
  assert (Hcases : exists last, py_last (frames (traj w)) = Returned last
            /\ (traj w' = traj w
                \/ (keep_all = false
                    /\ traj w' = with_frames
                                   (py_slice (Some (- buffer (traj w))%Z) None (frames (traj w)))
                                   (traj w)))).
  { destruct (file w) as [h5|] eqn:Hfile.
    - destruct (save_append_Returned keep_all w w' name h5 Hname Hfile Hrun)
        as (last & t_run & t_saved & n_new & Hlast & _ & _ & _ & [[_ ->]|[_ Hnew]]).
      + exists last. split; [exact Hlast|]. by left.
      + cbv zeta in Hnew.
        destruct Hnew as (? & ? & ? & ? & ? & ? & ? & ? & _ & _ & _ & _ & _ & _ & _ & _ & _ & ->).
        exists last. split; [exact Hlast|]. destruct keep_all; [by left | by right].
    - pose proof Hrun as Hrun'. revert Hrun'. unfold save at 1.
      step_M. rewrite Hname. step_M. step_lift Hlast. intros _.
      destruct (save_create_Returned keep_all w w' name Hname Hfile Hrun)
        as (? & ? & _ & _ & _ & _ & ->).
      eexists. split; [reflexivity|]. destruct keep_all; [by left | by right]. }
  destruct Hcases as (last & Hlast & [->|[-> ->]]).
  - exists []. split; [reflexivity|]. split; [by left|]. split; [reflexivity|].
    by destruct (traj w).
  - cbn [frames with_frames]. rewrite py_slice_tail by exact Hbuf.
    set (n := length (frames (traj w))). set (b := Z.to_nat (buffer (traj w))).
    exists (take (n - b) (frames (traj w))).
    split; [by rewrite take_drop|].
    split.
    { destruct (decide (n <= b)) as [Hle|Hgt].
      - left. replace (n - b) with 0 by lia. reflexivity.
      - right. split; [reflexivity|]. rewrite length_drop. fold n. lia. }
    split.
    { apply py_last_drop. fold n.
      assert (n <> 0); [|lia].
      subst n. intros Hn. apply nil_length_inv in Hn. rewrite Hn in Hlast. discriminate. }
    apply with_frames_frames.
Qed.

Lemma save_keeps_the_newest_frames_witness :
  let w := ex_small_buffer in
  let w' := (runM (save false) w).2 in
  frames (traj w') = map ex_frame [2; 3]%Q
  /\ exists dropped,
    frames (traj w) = dropped ++ frames (traj w')
    /\ (dropped = [] \/ (false = false /\ length (frames (traj w')) = 2))
    /\ py_last (frames (traj w')) = py_last (frames (traj w))
    /\ with_frames (frames (traj w)) (traj w') = traj w.
Proof.
  cbn zeta. split; [vm_compute; reflexivity|].
  apply (save_keeps_the_newest_frames false ex_small_buffer
           (runM (save false) ex_small_buffer).2 "run.chk");
    [reflexivity | reflexivity | vm_compute; reflexivity].
Defined.

(** ** Active and inactive atoms *)

Lemma filter_all {A : Type} (P : A -> Prop) `{!forall x, Decision (P x)} (l : list A) :
  Forall P l -> filter P l = l.
Proof.
  induction 1 as [|x l Hx _ IH]; [reflexivity|].
  rewrite filter_cons_True by exact Hx. by rewrite IH.
Qed.

(** Removing an element of a duplicate-free list leaves the others. *)
Lemma list_remove_present x l :
  NoDup l -> x ∈ l -> list_remove x l = Returned (filter (fun y => y <> x) l).
Proof.
  induction 1 as [|y l Hy Hnd IH]; intros Hin; [by apply elem_of_nil in Hin|].
  cbn [list_remove]. destruct (decide (y = x)) as [->|Hne].
  - rewrite filter_cons_False by (intros H; by apply H).
    rewrite filter_all; [reflexivity|].
    apply Forall_forall. intros z Hz ->. contradiction.
  - apply elem_of_cons in Hin as [->|Hin]; [done|].
    rewrite (IH Hin). cbn [mbind outcome_bind]. by rewrite filter_cons_True.
Qed.

Lemma list_remove_absent x l :
  x ∉ l -> list_remove x l = Raised (ValueError "list.remove(x): x not in list").
Proof.
  induction l as [|y l IH]; intros Hin; [reflexivity|].
  apply not_elem_of_cons in Hin as [Hne Hin].
  cbn [list_remove]. destruct (decide (y = x)) as [->|_]; [done|].
  by rewrite (IH Hin).
Qed.

Lemma remove_each_complement atoms : forall active,
  NoDup active -> NoDup atoms -> atoms ⊆ active ->
  remove_each atoms active = Returned (filter (fun a => a ∉ atoms) active).
Proof.
  induction atoms as [|a atoms IH]; intros active Hnd Hnda Hsub.
  - cbn. rewrite filter_all; [reflexivity|].
    apply Forall_forall. intros x _. apply not_elem_of_nil.
  - apply NoDup_cons in Hnda as [Ha Hnda].
    cbn [remove_each]. rewrite list_remove_present; [|exact Hnd|apply Hsub; left].
    cbn [mbind outcome_bind].
    rewrite IH; [|by apply NoDup_filter|exact Hnda|].
    + f_equal. rewrite list_filter_filter. apply list_filter_iff.
      intros x. rewrite not_elem_of_cons. tauto.
    + intros x Hx. apply list_elem_of_filter. split; [by intros ->|].
      apply Hsub. by right.
Qed.

Lemma remove_each_rejects atoms : forall active,
  NoDup active -> ~ (NoDup atoms /\ atoms ⊆ active) ->
  remove_each atoms active = Raised (ValueError "list.remove(x): x not in list").
Proof.
  induction atoms as [|a atoms IH]; intros active Hnd Hbad.
  - exfalso. apply Hbad. split; [constructor|]. intros x Hx. by apply elem_of_nil in Hx.
  - cbn [remove_each]. destruct (decide (a ∈ active)) as [Hin|Hout].
    + rewrite list_remove_present by done. cbn [mbind outcome_bind].
      apply IH; [by apply NoDup_filter|].
      intros [Hnda Hsub]. apply Hbad. split.
      * apply NoDup_cons. split; [|exact Hnda].
        intros Ha. apply Hsub in Ha. apply list_elem_of_filter in Ha as [Ha _]. done.
      * intros x [->|Hx]%elem_of_cons; [exact Hin|].
        apply Hsub in Hx. by apply list_elem_of_filter in Hx as [_ Hx].
    + by rewrite list_remove_absent.
Qed.

Lemma in_range_subseteq n atoms : Forall (fun a => 1 <= a <= n) atoms <-> atoms ⊆ seq 1 n.
Proof.
  rewrite Forall_forall. split.
  - intros H x Hx. apply elem_of_seq. specialize (H x Hx). lia.
  - intros H x Hx. apply H, elem_of_seq in Hx. lia.
Qed.

(** X4: given distinct atom numbers between 1 and the number of atoms,
    [set_inactive_atoms] stores their complement as the active atoms, in
    increasing order. *)
Theorem set_inactive_atoms_complement (atoms : list nat) (self : Trajectory) :
  NoDup atoms ->
  Forall (fun a => 1 <= a <= length (atomic_numbers self)) atoms ->
  set_inactive_atoms (AtomsList atoms) self
  = Returned (with_active_atoms
                (filter (fun a => a ∉ atoms) (seq 1 (length (atomic_numbers self)))) self).
Proof.
  intros Hnd Hrange. unfold set_inactive_atoms.
  rewrite remove_each_complement; [reflexivity|apply NoDup_seq|exact Hnd|].
  by apply in_range_subseteq.
Qed.

(** X5: an atom number that is listed twice, or that is not between 1 and
    the number of atoms, makes [set_inactive_atoms] fail with the
    [ValueError] of [list.remove]; no active atoms are stored. *)
Theorem set_inactive_atoms_rejects (atoms : list nat) (self : Trajectory) :
  ~ (NoDup atoms /\ Forall (fun a => 1 <= a <= length (atomic_numbers self)) atoms) ->
  set_inactive_atoms (AtomsList atoms) self
  = Raised (ValueError "list.remove(x): x not in list").
Proof.
  intros Hbad. unfold set_inactive_atoms.
  rewrite remove_each_rejects; [reflexivity|apply NoDup_seq|].
  intros [Hnd Hsub]. apply Hbad. split; [exact Hnd|]. by apply in_range_subseteq.
Qed.

Lemma put_atoms_scalar {A : Type} (arr : list A) idx (v : A) :
  OneIndexed.put_atoms arr idx [v] = OneIndexed.put_rows arr idx (replicate (length idx) v).
Proof.
  unfold OneIndexed.put_atoms.
  destruct (decide (length [v] = length idx)) as [Hlen|_]; [|reflexivity].
  cbn in Hlen. by rewrite <- Hlen.
Qed.


Lemma active_index_cons t a atoms :
  active_atoms t = a :: atoms -> active_index t = Returned (a :: atoms).
Proof. unfold active_index. by intros ->. Qed.

(** The mask of a frame whose active atoms, of which there is at least one,
    are all atoms of the frame. *)
Lemma inactive_mask_in_range (t : Trajectory) (self : Frame) :
  active_atoms t <> [] ->
  Forall (fun a => 1 <= a <= length (positions self)) (active_atoms t) ->
  exists mask,
    inactive_mask t self = Returned mask
    /\ length mask = length (positions self)
    /\ forall a, 1 <= a <= length (positions self) ->
         OneIndexed.get mask a = Returned (bool_decide (a ∉ active_atoms t)).
Proof.
  intros Hne Hrange. unfold inactive_mask.
  destruct (active_atoms t) as [|a0 atoms] eqn:Hactive; [done|].
  rewrite (active_index_cons t a0 atoms Hactive). cbn [mbind outcome_bind].
  rewrite put_atoms_scalar.
  destruct (put_rows_in_range (a0 :: atoms) (replicate (length (a0 :: atoms)) 0%Q)
              (replicate (length (positions self)) 1%Q))
    as (arr' & Hput & Hlen & Hout & Hins).
  { by rewrite length_replicate. }
  { by rewrite length_replicate. }
  rewrite Hput. cbn [mbind outcome_bind]. eexists. split; [reflexivity|].
  rewrite length_replicate in Hlen.
  split; [by rewrite length_map|].
  intros [|i] Ha; [lia|]. cbn [OneIndexed.get].
  change (map ?f ?l) with (f <$> l). rewrite list_lookup_fmap.
  destruct (decide (S i ∈ a0 :: atoms)) as [Hin|Hnin].
  - destruct (Hins i Hin) as (k & v & _ & Hv & ->).
    apply lookup_replicate in Hv as [-> _].
    rewrite bool_decide_eq_false_2 by (intros H; by apply H). reflexivity.
  - rewrite (Hout i Hnin). rewrite lookup_replicate_2 by lia.
    by rewrite bool_decide_eq_true_2.
Qed.

Lemma put_rows_out_of_range {A : Type} idx : forall (vals arr : list A),
  length vals = length idx ->
  ~ Forall (fun a => 1 <= a <= length arr) idx ->
  exists msg, OneIndexed.put_rows arr idx vals = Raised (IndexError msg).
Proof.
  induction idx as [|a idx IH]; intros vals arr Hlen Hbad; [by destruct Hbad|].
  destruct vals as [|v vals]; [discriminate|]. cbn in Hlen.
  destruct a as [|j]; cbn [OneIndexed.put_rows OneIndexed.set];
    [cbn [mbind outcome_bind]; by eexists|].
  destruct (decide (j < length arr)) as [Hj|Hj]; cbn [mbind outcome_bind]; [|by eexists].
  apply IH; [lia|].
  rewrite length_insert. intros Hall. apply Hbad. constructor; [lia|exact Hall].
Qed.

(** X6: when there is an active atom and every active atom is an atom of
    the frame, [inactive_mask] returns a mask with one entry per atom,
    [True] for the atoms that are not active and [False] for the active
    ones.  When no atom is active, the stored index array is the float array
    [np.array([])] and the call fails with an [IndexError]; so it does when
    an active atom has a number beyond the atoms of the frame. *)
Theorem inactive_mask_marks_the_frozen_atoms (t : Trajectory) (self : Frame) :
  let n := length (positions self) in
  (active_atoms t <> [] -> Forall (fun a => 1 <= a <= n) (active_atoms t) ->
   exists mask,
     inactive_mask t self = Returned mask
     /\ length mask = n
     /\ forall a, 1 <= a <= n ->
          OneIndexed.get mask a = Returned (bool_decide (a ∉ active_atoms t)))
  /\ (active_atoms t = [] \/ Exists (fun a => n < a) (active_atoms t) ->
      exists msg, inactive_mask t self = Raised (IndexError msg)).
Proof.
  intros n. split; [apply inactive_mask_in_range|].
  unfold inactive_mask.
  destruct (active_atoms t) as [|a0 atoms] eqn:Hactive.
  { intros _. unfold active_index. rewrite Hactive. cbn [mbind outcome_bind]. eauto. }
  intros [Hnil|Hbeyond]; [discriminate|].
  rewrite (active_index_cons t a0 atoms Hactive). cbn [mbind outcome_bind].
  rewrite put_atoms_scalar.
  destruct (put_rows_out_of_range (a0 :: atoms)
              (replicate (length (a0 :: atoms)) 0%Q)
              (replicate (length (positions self)) 1%Q)) as [msg ->].
  { by rewrite length_replicate. }
  { rewrite length_replicate. intros Hall.
    apply Exists_exists in Hbeyond as (a & Ha & Hgt).
    rewrite Forall_forall in Hall. specialize (Hall a Ha). subst n. lia. }
  cbn [mbind outcome_bind]. eauto.
Qed.

Lemma remove_each_Returned atoms n active :
  remove_each atoms (seq 1 n) = Returned active ->
  NoDup atoms /\ Forall (fun a => 1 <= a <= n) atoms
  /\ active = filter (fun a => a ∉ atoms) (seq 1 n).
Proof.
  intros Hret.
  destruct (decide (NoDup atoms /\ atoms ⊆ seq 1 n)) as [[Hnd Hsub]|Hbad].
  - rewrite remove_each_complement in Hret by (done || apply NoDup_seq).
    injection Hret as <-. split; [exact Hnd|]. split; [|reflexivity].
    by apply in_range_subseteq.
  - rewrite remove_each_rejects in Hret by (done || apply NoDup_seq). discriminate.
Qed.

(** A duplicate-free list of numbers from 1 to [n] leaves none of them out
    exactly when it has [n] entries. *)
Lemma filter_complement_nil atoms n :
  NoDup atoms -> Forall (fun a => 1 <= a <= n) atoms ->
  (filter (fun a => a ∉ atoms) (seq 1 n) = [] <-> length atoms = n).
Proof.
  intros Hnd Hrange.
  assert (Hsub : atoms ⊆+ seq 1 n).
  { apply NoDup_submseteq; [exact Hnd|]. by apply in_range_subseteq. }
  pose proof (submseteq_length _ _ Hsub) as Hle. rewrite length_seq in Hle.
  split.
  - intros Hnil.
    assert (Hall : seq 1 n ⊆+ atoms).
    { apply NoDup_submseteq; [apply NoDup_seq|].
      intros a Ha. destruct (decide (a ∈ atoms)) as [|Hnin]; [done|].
      by destruct (filter_nil_not_elem_of _ _ a Hnil Hnin). }
    apply submseteq_length in Hall. rewrite length_seq in Hall. lia.
  - intros Hlen.
    assert (Hperm : atoms ≡ₚ seq 1 n).
    { apply submseteq_length_Permutation; [exact Hsub|]. rewrite length_seq. lia. }
    destruct (filter _ (seq 1 n)) as [|a rest] eqn:Hfilter; [reflexivity|].
    assert (Ha : a ∈ filter (fun a => a ∉ atoms) (seq 1 n)).
    { rewrite Hfilter. by left. }
    apply list_elem_of_filter in Ha as [Hnin Ha].
    rewrite <- Hperm in Ha. contradiction.
Qed.

(** X7: after [set_inactive_atoms] has accepted a list of atoms that leaves
    an atom active, the mask of a frame of the trajectory is [True] at
    exactly the atoms of that list; after it has accepted a list of all
    atoms, [inactive_mask] fails with an [IndexError]. *)
Theorem inactive_mask_after_set_inactive_atoms (atoms : list nat) (t t' : Trajectory)
    (self : Frame) :
  length (positions self) = length (atomic_numbers t) ->
  set_inactive_atoms (AtomsList atoms) t = Returned t' ->
  (length atoms < length (atomic_numbers t) ->
   exists mask,
     inactive_mask t' self = Returned mask
     /\ length mask = length (positions self)
     /\ forall a, 1 <= a <= length (positions self) ->
          OneIndexed.get mask a = Returned (bool_decide (a ∈ atoms)))
  /\ (length atoms = length (atomic_numbers t) ->
      exists msg, inactive_mask t' self = Raised (IndexError msg)).
Proof.
  intros Hn. unfold set_inactive_atoms.
  destruct (remove_each atoms _) as [active| |] eqn:Hrem; cbn [mbind outcome_bind];
    [|discriminate|discriminate].
  intros [= <-].
  apply remove_each_Returned in Hrem as (Hnd & Hrange & ->).
  pose proof (filter_complement_nil atoms _ Hnd Hrange) as Hnil.
  split.
  - intros Hless.
    destruct (inactive_mask_in_range
                (with_active_atoms
                   (filter (fun a => a ∉ atoms) (seq 1 (length (atomic_numbers t)))) t) self)
      as (mask & Hmask & Hlen & Hget).
    { cbn [active_atoms with_active_atoms]. intros H. apply Hnil in H. lia. }
    { cbn [active_atoms with_active_atoms]. apply Forall_forall.
      intros a [_ Ha%elem_of_seq]%list_elem_of_filter. lia. }
    exists mask. split; [exact Hmask|]. split; [exact Hlen|].
    intros a Ha. rewrite (Hget a Ha). f_equal.
    cbn [active_atoms with_active_atoms].
    apply bool_decide_ext. rewrite list_elem_of_filter, elem_of_seq.
    split.
    + intros H. destruct (decide (a ∈ atoms)) as [|Hnin]; [done|].
      exfalso. apply H. split; [exact Hnin|lia].
    + intros Hin [Hnin _]. contradiction.
  - intros Hall. apply Hnil in Hall.
    unfold inactive_mask, active_index. cbn [active_atoms with_active_atoms].
    rewrite Hall. cbn [mbind outcome_bind]. eauto.
Qed.


Lemma set_inactive_atoms_complement_witness :
  set_inactive_atoms (AtomsList [3; 1]) ex_three_atoms
  = Returned (with_active_atoms [2] ex_three_atoms).
Proof.
  apply (set_inactive_atoms_complement [3; 1] ex_three_atoms).
  - apply (bool_decide_unpack (NoDup [3; 1])). reflexivity.
  - repeat constructor.
Defined.

Lemma set_inactive_atoms_rejects_witness :
  set_inactive_atoms (AtomsList [2; 2]) ex_three_atoms
  = Raised (ValueError "list.remove(x): x not in list")
  /\ set_inactive_atoms (AtomsList [4]) ex_three_atoms
     = Raised (ValueError "list.remove(x): x not in list").
Proof.
  split.
  - apply (set_inactive_atoms_rejects [2; 2] ex_three_atoms).
    intros [Hnd _]. apply NoDup_cons in Hnd as [Hnin _]. apply Hnin. by left.
  - apply (set_inactive_atoms_rejects [4] ex_three_atoms).
    intros [_ Hr]. apply Forall_cons in Hr as [Hr _]. cbn in Hr. lia.
Defined.

Lemma inactive_mask_after_set_inactive_atoms_witness :
  (exists mask,
     inactive_mask (with_active_atoms [2] ex_three_atoms) ex_three_atoms_frame = Returned mask
     /\ length mask = length (positions ex_three_atoms_frame)
     /\ forall a, 1 <= a <= length (positions ex_three_atoms_frame) ->
          OneIndexed.get mask a = Returned (bool_decide (a ∈ [3; 1])))
  /\ exists msg,
       inactive_mask (with_active_atoms [] ex_three_atoms) ex_three_atoms_frame
       = Raised (IndexError msg).
Proof.
  split.
  - apply (inactive_mask_after_set_inactive_atoms [3; 1] ex_three_atoms
             (with_active_atoms [2] ex_three_atoms) ex_three_atoms_frame);
      [reflexivity | reflexivity | cbn; lia].
  - apply (inactive_mask_after_set_inactive_atoms [1; 2; 3] ex_three_atoms
             (with_active_atoms [] ex_three_atoms) ex_three_atoms_frame);
      reflexivity.
Defined.

(** ** The lock file *)

Lemma chars_app (a b : string) :
  list_ascii_of_string (a +:+ b) = list_ascii_of_string a ++ list_ascii_of_string b.
Proof.
  induction a as [|c a IH]; [reflexivity|].
  change (String c a +:+ b) with (String c (a +:+ b)).
  cbn [list_ascii_of_string app]. by rewrite IH.
Qed.

Lemma string_of_chars_app (a b : list ascii) :
  string_of_list_ascii (a ++ b) = string_of_list_ascii a +:+ string_of_list_ascii b.
Proof.
  induction a as [|c a IH]; [reflexivity|].
  cbn [string_of_list_ascii app]. rewrite IH. reflexivity.
Qed.

Lemma replace_first_split c new s1 s2 :
  c ∉ s1 -> replace_first c new (s1 ++ c :: s2) = s1 ++ new ++ s2.
Proof.
  induction s1 as [|a s1 IH]; intros Hnin; cbn [replace_first app].
  - by rewrite decide_True.
  - apply not_elem_of_cons in Hnin as [Hne Hnin].
    rewrite decide_False by congruence. by rewrite IH.
Qed.

(** A list that holds [c] splits at the last [c]. *)
Lemma last_occurrence {A : Type} `{!EqDecision A} (c : A) (l : list A) :
  c ∈ l -> exists d b, l = d ++ c :: b /\ c ∉ b.
Proof.
  induction l as [|x l IH]; intros Hin; [by apply elem_of_nil in Hin|].
  destruct (decide (c ∈ l)) as [Hl|Hl].
  - destruct (IH Hl) as (d & b & -> & Hb). by exists (x :: d), b.
  - apply elem_of_cons in Hin as [->|Hin]; [|done]. by exists [], l.
Qed.

Lemma of_chars_inj (a b : string) :
  list_ascii_of_string a = list_ascii_of_string b -> a = b.
Proof.
  intros H. rewrite <- (string_of_list_ascii_of_string a), <- (string_of_list_ascii_of_string b).
  by rewrite H.
Qed.

Lemma lockfile_name_plain (name : string) :
  "/"%char ∉ list_ascii_of_string name ->
  lockfile_name name = "." +:+ name +:+ ".lock".
Proof. intros H. unfold lockfile_name. by rewrite bool_decide_eq_false_2. Qed.

(** For a path with a "/", the dot goes after the last one. *)
Lemma lockfile_name_slash (name : string) (d b : list ascii) :
  list_ascii_of_string name = d ++ "/"%char :: b ->
  "/"%char ∉ b ->
  list_ascii_of_string (lockfile_name name)
  = d ++ "/"%char :: "."%char :: b ++ list_ascii_of_string ".lock".
Proof.
  intros Hname Hb. unfold lockfile_name.
  rewrite bool_decide_eq_true_2.
  2:{ rewrite Hname. apply elem_of_app. right. by left. }
  rewrite chars_app, Hname. rewrite list_ascii_of_string_of_list_ascii.
  rewrite <- app_assoc. cbn [app]. rewrite !reverse_app, !reverse_cons.
  rewrite <- !app_assoc. cbn [app].
  rewrite replace_first_split.
  2:{ rewrite elem_of_reverse, not_elem_of_app. split; [exact Hb|].
      cbn. rewrite !not_elem_of_cons. repeat split; try discriminate. apply not_elem_of_nil. }
  rewrite !reverse_app, !reverse_involutive.
  rewrite <- !app_assoc. reflexivity.
Qed.

(** X8: for a trajectory without a lock, [initialize_lock] derives the lock
    file from the checkpoint path alone: the file name [base] becomes
    [.base.lock], in the directory of the checkpoint. *)
Theorem lockfile_is_hidden_beside_the_checkpoint (dir base : string) :
  "/"%char ∉ list_ascii_of_string base ->
  initialize_lock (Some base) None = Some ("." +:+ base +:+ ".lock")
  /\ initialize_lock (Some (dir +:+ "/" +:+ base)) None
     = Some (dir +:+ "/." +:+ base +:+ ".lock").
Proof.
  intros Hbase. cbn [initialize_lock]. split; [by rewrite lockfile_name_plain|].
  f_equal. apply of_chars_inj.
  rewrite (lockfile_name_slash _ (list_ascii_of_string dir) (list_ascii_of_string base));
    [|by rewrite !chars_app|exact Hbase].
  by rewrite !chars_app.
Qed.

Lemma lockfile_is_hidden_beside_the_checkpoint_witness :
  initialize_lock (Some "run.chk") None = Some ".run.chk.lock"
  /\ initialize_lock (Some "runs/water/run.chk") None = Some "runs/water/.run.chk.lock".
Proof.
  apply (lockfile_is_hidden_beside_the_checkpoint "runs/water" "run.chk").
  apply (bool_decide_unpack ("/"%char ∉ list_ascii_of_string "run.chk")). reflexivity.
Defined.

(** X9: two checkpoint paths with the same lock file are the same path, so
    trajectories on different checkpoints never contend for one lock. *)
Theorem lockfile_name_is_injective (a b : string) :
  lockfile_name a = lockfile_name b -> a = b.
Proof.
  intros Heq. apply of_chars_inj. apply (f_equal list_ascii_of_string) in Heq.
  assert (Hsuffix : "/"%char ∉ list_ascii_of_string ".lock").
  { cbn. rewrite !not_elem_of_cons. repeat split; try discriminate. apply not_elem_of_nil. }
  destruct (decide ("/"%char ∈ list_ascii_of_string a)) as [Ha|Ha];
    destruct (decide ("/"%char ∈ list_ascii_of_string b)) as [Hb|Hb].
  - destruct (last_occurrence _ _ Ha) as (d1 & b1 & Ha1 & Hb1).
    destruct (last_occurrence _ _ Hb) as (d2 & b2 & Ha2 & Hb2).
    rewrite (lockfile_name_slash a d1 b1), (lockfile_name_slash b d2 b2) in Heq by done.
    apply not_elem_of_app_cons_inv_r in Heq as (-> & _ & Heq).
    + injection Heq as Heq. apply app_inv_tail in Heq as ->. by rewrite Ha1, Ha2.
    + rewrite not_elem_of_cons, not_elem_of_app. done.
    + rewrite not_elem_of_cons, not_elem_of_app. done.
  - exfalso. destruct (last_occurrence _ _ Ha) as (d1 & b1 & Ha1 & Hb1).
    rewrite (lockfile_name_slash a d1 b1), (lockfile_name_plain b) in Heq by done.
    rewrite !chars_app in Heq.
    assert (Hin : "/"%char ∈ d1 ++ "/"%char :: "."%char :: b1 ++ list_ascii_of_string ".lock").
    { apply elem_of_app. right. by left. }
    rewrite Heq in Hin. cbn [list_ascii_of_string app] in Hin.
    rewrite elem_of_cons, elem_of_app in Hin. destruct Hin as [?|[?|?]]; done.
  - exfalso. destruct (last_occurrence _ _ Hb) as (d2 & b2 & Ha2 & Hb2).
    rewrite (lockfile_name_slash b d2 b2), (lockfile_name_plain a) in Heq by done.
    rewrite !chars_app in Heq.
    assert (Hin : "/"%char ∈ d2 ++ "/"%char :: "."%char :: b2 ++ list_ascii_of_string ".lock").
    { apply elem_of_app. right. by left. }
    rewrite <- Heq in Hin. cbn [list_ascii_of_string app] in Hin.
    rewrite elem_of_cons, elem_of_app in Hin. destruct Hin as [?|[?|?]]; done.
  - rewrite !lockfile_name_plain, !chars_app in Heq by done.
    apply app_inv_head in Heq. by apply app_inv_tail in Heq.
Qed.

Lemma lockfile_name_is_injective_witness : "runs/run.chk" = "runs/run.chk".
Proof. apply (lockfile_name_is_injective "runs/run.chk" "runs/run.chk"). reflexivity. Defined.

(** ** Constraints and the null calculator *)

Section ConstraintFacts.
Context {num time_t : Type}.
Variables (zero : num) (nadd : num -> num -> num).

Local Abbreviation vec3c := (@Calculators.vec3 num).
Local Abbreviation constraintc := (@Calculators.constraint num time_t).

Lemma iadd_rows_same_length (forces f r : list vec3c) :
  Calculators.iadd_rows nadd forces f = Returned r -> length r = length forces.
Proof.
  unfold Calculators.iadd_rows.
  destruct (decide (length f = length forces)) as [Hlen|_].
  - intros [= <-]. rewrite length_zip_with. lia.
  - destruct f as [|v [|? ?]]; [discriminate| |discriminate].
    intros [= <-]. by rewrite length_map.
Qed.

(** The constraints are evaluated in order on the same positions; the
    energy is the running sum of theirs, and the force array keeps its
    shape. *)
Lemma apply_constraints_Returned (constraints : list constraintc) positions time :
  forall energy forces e r,
  Calculators.apply_constraints nadd constraints positions time energy forces
  = Returned (e, r) ->
  length r = length forces
  /\ exists contributions,
       Forall2 (fun c fe => c positions time = Returned fe) constraints contributions
       /\ e = foldl nadd energy (contributions.*2).
Proof.
  induction constraints as [|c cs IH]; intros energy forces e r; cbn [Calculators.apply_constraints].
  - intros [= <- <-]. split; [reflexivity|]. exists []. by split.
  - destruct (c positions time) as [[f e1]| |] eqn:Hc; cbn [mbind outcome_bind];
      [|discriminate|discriminate].
    destruct (Calculators.iadd_rows nadd forces f) as [forces'| |] eqn:Hadd;
      cbn [mbind outcome_bind]; [|discriminate|discriminate].
    intros Hrest. apply IH in Hrest as (Hlen & contributions & Hall & ->).
    apply iadd_rows_same_length in Hadd.
    split; [lia|]. exists ((f, e1) :: contributions). split; [by constructor|reflexivity].
Qed.

(** X10: when [NullCalculator.evaluate] returns, every constraint has been
    evaluated on the given positions, the energy is the sum of their
    energies from zero, in their order, and the forces have one row per
    atom.  Without a pipe the pair is returned and nothing is sent; with a
    connection it is sent once on that connection, which is then closed, and
    [None] is returned. *)
Theorem null_calculator_sums_the_constraints (constraints : list constraintc)
    (atomic_numbers : list Z) (positions : list vec3c) (high_atoms : option (list nat))
    (pipe : Calculators.pipe_arg) (time : option time_t) (s s' : Calculators.pipes)
    (r : option Calculators.result) :
  Calculators.NullCalculator_evaluate zero nadd constraints atomic_numbers positions
    high_atoms pipe time s = (Returned r, s') ->
  exists contributions energy forces,
    Forall2 (fun c fe => c positions time = Returned fe) constraints contributions
    /\ energy = foldl nadd zero (contributions.*2)
    /\ length forces = length positions
    /\ match pipe with
       | Calculators.NoPipe => (r = Some (energy, forces)) /\ s' = s
       | Calculators.Connection c =>
           r = None /\ (c ∉ Calculators.closed s)
           /\ Calculators.sent s' = Calculators.sent s ++ [(c, (energy, forces))]
           /\ Calculators.closed s' = Calculators.closed s ++ [c]
       | Calculators.NotAConnection => False
       end.
Proof.
  unfold Calculators.NullCalculator_evaluate, Calculators.then_send_or_return.
  destruct (Calculators.apply_constraints _ _ _ _ _ _) as [[energy forces]| |] eqn:Happly;
    [|discriminate|discriminate].
  apply apply_constraints_Returned in Happly as (Hlen & contributions & Hall & ->).
  rewrite length_map in Hlen.
  intros Hsend. eexists contributions, _, forces.
  split; [exact Hall|]. split; [reflexivity|]. split; [exact Hlen|].
  revert Hsend. unfold Calculators.send_or_return. destruct pipe as [|c|].
  - by intros [= <- <-].
  - destruct (decide (c ∈ Calculators.closed s)) as [|Hopen]; [discriminate|].
    by intros [= <- <-].
  - discriminate.
Qed.

End ConstraintFacts.

Lemma null_calculator_sums_the_constraints_witness :
  exists contributions energy forces,
    Forall2 (fun c fe => c ex_positions None = Returned fe) [ex_pull; ex_pull] contributions
    /\ energy = foldl Z.add 0%Z (contributions.*2)
    /\ length forces = length ex_positions
    /\ (Some (10%Z, [(2, 0, 0); (2, 0, 0); (2, 0, 0)]%Z) = Some (energy, forces)
        /\ ex_pipes = ex_pipes).
Proof.
  apply (null_calculator_sums_the_constraints 0%Z Z.add [ex_pull; ex_pull] ex_numbers
           ex_positions None Calculators.NoPipe None ex_pipes ex_pipes).
  reflexivity.
Defined.

(** ** Starting a trajectory *)

Lemma py_index_cases {A : Type} (l : list A) i :
  (exists x, py_index l i = Returned x)
  \/ py_index l i = Raised (IndexError "index out of bounds").
Proof. unfold py_index. destruct (l !! i); eauto. Qed.

(** The call in the loading loop never returns a frame: an index is out of
    range, or [Frame.__init__] rejects the keyword [time]. *)
Lemma load_frame_never_returns energies xs vs accs d temperatures times i :
  exists e, load_frame energies xs vs accs d temperatures times i = Raised e.
Proof.
  unfold load_frame.
  destruct (py_index_cases xs i) as [[x ->]| ->]; [|by eexists].
  destruct (py_index_cases vs i) as [[v ->]| ->]; [|by eexists].
  destruct (py_index_cases accs i) as [[a ->]| ->]; [|by eexists].
  destruct (py_index_cases energies i) as [[e ->]| ->]; [|by eexists].
  destruct (py_index_cases temperatures i) as [[T ->]| ->]; [|by eexists].
  destruct (py_index_cases times i) as [[t ->]| ->]; [|by eexists].
  by eexists.
Qed.

Lemma load_loop_never_adds load indices w :
  (forall i, exists e, load i = Raised e) ->
  match indices with
  | [] => runM (load_loop load indices) w = (Returned tt, w)
  | _ :: _ => exists e, runM (load_loop load indices) w = (Raised e, w)
  end.
Proof.
  intros Hload. destruct indices as [|i rest]; [reflexivity|].
  destruct (Hload i) as [e He]. exists e. by apply load_loop_first_raises.
Qed.

(** [load_from_checkpoint] never loads a frame and never writes the file:
    it leaves the world as it is (there is no checkpoint, or the [frames]
    argument is rejected), or it leaves the list of frames empty. *)
Lemma load_never_adds_frames which w :
  let out := runM (load_from_checkpoint which) w in
  file out.2 = file w
  /\ ((out = (Returned tt, w) /\ has_checkpoint w = false)
      \/ (has_checkpoint w = true /\ exists e, out = (Raised e, w))
      \/ (has_checkpoint w = true /\ out.1 <> Blocked /\ frames (traj out.2) = [])).
Proof.
  cbv zeta. unfold load_from_checkpoint. cbn [runM].
  destruct (has_checkpoint w) eqn:Hhas; cbn [negb]; [|split; [reflexivity|by left]].
  rewrite runM_bind. cbn [runM get_traj].
  rewrite runM_bind. cbn [runM lift].
  destruct (resolve_frames (traj w) which) as [[start stop]| |] eqn:Hres.
  2:{ split; [reflexivity|]. right. left. eauto. }
  2:{ exfalso. revert Hres. unfold resolve_frames. destruct which as [s| |]; try discriminate.
      repeat (destruct (bool_decide _); try discriminate). }
  assert (Hfile : exists h5, file w = Some h5).
  { unfold has_checkpoint in Hhas. destruct (checkpoint_filename (traj w)); [|discriminate].
    destruct (file w); [eauto|discriminate]. }
  destruct Hfile as [h5 Hfile].
  step_M. rewrite runM_bind. unfold current_file. rewrite runM_bind.
  cbn [runM get_file file]. rewrite Hfile. cbn [runM mret M_ret].
  step_M. step_M. rewrite runM_bind.
  destruct (bool_decide (length (all_energies h5) = 0)).
  { cbn. split; [done|]. right. right. done. }
  repeat (rewrite runM_bind; cbn [runM lift];
          match goal with
          | |- context [py_assert ?c ?m] => destruct c; cbn [py_assert]
          end;
          [|cbn; split; [done|]; right; right; done]).
  match goal with
  | |- context [runM (load_loop ?load ?indices) ?w0] =>
      pose proof (load_loop_never_adds load indices w0
                    (load_frame_never_returns _ _ _ _ _ _ _)) as Hloop;
      destruct indices
  end.
  - rewrite Hloop. cbn. split; [done|]. right. right. done.
  - destruct Hloop as [e ->]. cbn. split; [done|]. right. right. done.
Qed.

Section InitializeFacts.
Variable after_first_frame : Frame -> M unit.

(** X11: [initialize] returns exactly when the trajectory already holds a
    frame, and then it changes nothing.  Started without a frame it never
    creates one: the call ends in an exception (or in the scheduler not
    coming back), no frame is in memory and the checkpoint file is as it
    was. *)
Theorem initialize_never_creates_the_first_frame (frame : option Frame)
    (given_positions : option (list V3)) (w : world) :
  let out := runM (Trajectory_initialize after_first_frame frame given_positions) w in
  match frames (traj w) with
  | _ :: _ => out = (Returned tt, w)
  | [] =>
      match out.1 with Returned _ => False | _ => True end
      /\ frames (traj out.2) = []
      /\ file out.2 = file w
  end.
Proof.
  cbv zeta. unfold Trajectory_initialize. cbn [runM].
  destruct (frames (traj w)) as [|f fs] eqn:Hframes; [|reflexivity].
  destruct (has_checkpoint w) eqn:Hhas.
  - rewrite runM_bind.
    destruct (load_never_adds_frames (FramesSlice (Some (-1)%Z) None) w)
      as [Hfile [[_ Hno]|[[_ [e Hraise]]|(_ & Hblocked & Hnone)]]].
    + congruence.
    + rewrite Hraise. cbn. by rewrite Hframes.
    + destruct (runM (load_from_checkpoint _) w) as [[[]| |] w1] eqn:Hload;
        cbn [fst snd] in *; [|done|done].
      step_M. rewrite Hnone. cbn. done.
  - set (given := match frame with Some f => Some _ | None => _ end).
    destruct given as [x|]; [|cbn; by rewrite Hframes].
    rewrite runM_bind. cbn [runM lift]. step_M.
    rewrite runM_bind. cbn [runM lift].
    destruct (bath_scheduler (traj w) 0%Q) as [T| |]; [|cbn; by rewrite Hframes..].
    rewrite runM_bind. cbn [runM lift].
    assert (Hinit : forall zs,
              Frame_init x zs zs [("bath_temperature", T); ("time", Floating 0)]
              = Raised (TypeError "__init__() got an unexpected keyword argument 'time'"))
      by reflexivity.
    rewrite Hinit. cbn. by rewrite Hframes.
Qed.

End InitializeFacts.

Section RunFacts.
Variables (integ : integrator) (checks : list Check) (reporters : list Reporter).
Variables (valid_calculator valid_integrator : bool).

Lemma guarded_controller_run_never_returns fuel time w :
  match (runM (guarded_controller_run integ checks reporters fuel time) w).1 with
  | Returned _ => False
  | _ => True
  end.
Proof.
  unfold guarded_controller_run. cbn [runM].
  pose proof (run_never_returns integ checks reporters fuel 25%Q None time false w) as H.
  destruct (runM (Controller.run _ _ _ _ _ _ _ _) w) as [[[]| |] w1]; done.
Qed.

(** A load that returns without a frame list of length one being emptied:
    there was no checkpoint file. *)
Lemma load_Returned_keeps_frames which w w1 :
  runM (load_from_checkpoint which) w = (Returned tt, w1) ->
  frames (traj w1) <> [] ->
  w1 = w /\ has_checkpoint w = false.
Proof.
  intros Hload Hne.
  destruct (load_never_adds_frames which w) as [_ [[H1 H2]|[[_ [e H]]|(_ & _ & H)]]].
  - rewrite Hload in H1. by injection H1 as <-.
  - rewrite Hload in H. discriminate.
  - rewrite Hload in H. done.
Qed.

(** X12: [Trajectory.run] returns only for a trajectory that is already
    finished, holds exactly one frame and has no checkpoint file at its
    path; it then leaves the frames, the file and the lock as they were.  In
    particular no run that returns has computed a frame. *)
Theorem run_returns_only_when_already_finished (fuel : nat) (keep_all : bool)
    (time : option Q) (kwargs : list (string * string)) (w w' : world) :
  runM (Trajectory_run integ checks reporters valid_calculator valid_integrator
          fuel keep_all time kwargs) w = (Returned tt, w') ->
  finished (traj w) = true
  /\ length (frames (traj w)) = 1
  /\ file w = None
  /\ frames (traj w') = frames (traj w)
  /\ file w' = None
  /\ lock_held w' = lock_held w.
Proof.
  unfold Trajectory_run. step_M. rewrite runM_bind.
  set (named := match checkpoint_filename (traj w) with Some _ => _ | None => _ end).
  destruct (runM named w) as [[[]| |] w0] eqn:Hnamed; [|discriminate|discriminate].
  assert (Hw0 : is_Some (checkpoint_filename (traj w0)) /\ frames (traj w0) = frames (traj w)
                /\ finished (traj w0) = finished (traj w)
                /\ file w0 = file w /\ lock_held w0 = lock_held w).
  { subst named. destruct (checkpoint_filename (traj w)) as [name|] eqn:Hname.
    - injection Hnamed as <-. rewrite Hname. eauto.
    - destruct (list_find _ kwargs) as [[? [? name]]|]; [|discriminate].
      injection Hnamed as <-. cbn. eauto. }
  destruct Hw0 as ([name Hname] & Hfr & Hfin & Hfile & Hlock).
  rewrite runM_bind.
  destruct (runM (load_from_checkpoint _) w0) as [[[]| |] w1] eqn:Hload;
    [|discriminate|discriminate].
  step_M. step_lift Hone. apply py_assert_Returned, Nat.eqb_eq in Hone.
  apply load_Returned_keeps_frames in Hload as [-> Hno];
    [|intros Hnil; rewrite Hnil in Hone; discriminate].
  assert (Hnofile : file w0 = None).
  { unfold has_checkpoint in Hno. rewrite Hname in Hno. by destruct (file w0). }
  rewrite runM_bind.
  destruct (finished (traj w0)) eqn:Hfinished.
  2:{ rewrite runM_bind. cbn [runM lift].
      destruct (Controller_init _ _ kwargs) as [[]| |]; [|discriminate|discriminate].
      pose proof (guarded_controller_run_never_returns fuel time w0) as Hrun.
      destruct (runM (guarded_controller_run _ _ _ _ _) w0) as [[[]| |] w2];
        [done|discriminate|discriminate]. }
  cbn [runM mret M_ret].
  assert (Hend : forall w2, w2 = w0 ->
            finished (traj w) = true /\ length (frames (traj w)) = 1 /\ file w = None
            /\ frames (traj w2) = frames (traj w) /\ file w2 = None
            /\ lock_held w2 = lock_held w).
  { intros w2 ->. rewrite <- Hfr, <- Hfin, <- Hfile, <- Hlock. done. }
  destruct keep_all.
  - rewrite runM_bind. unfold load_from_checkpoint at 1. cbn [runM]. rewrite Hno. cbn [negb].
    step_M. step_lift Hfirst. step_lift Htime. cbn [runM lift].
    destruct (py_assert _ _) as [[]| |]; [|discriminate|discriminate].
    intros [= <-]. by apply Hend.
  - intros [= <-]. by apply Hend.
Qed.

End RunFacts.

Lemma run_returns_only_when_already_finished_witness :
  let w' := (runM (Trajectory_run ex_integrator [] [] true true 20 false None []) ex_finished).2 in
  finished (traj ex_finished) = true
  /\ length (frames (traj ex_finished)) = 1
  /\ file ex_finished = None
  /\ frames (traj w') = frames (traj ex_finished)
  /\ file w' = None
  /\ lock_held w' = lock_held ex_finished.
Proof.
  cbn zeta.
  apply (run_returns_only_when_already_finished ex_integrator [] [] true true 20 false None []
           ex_finished).
  vm_compute. reflexivity.
Defined.

(** ** Temperature and pressure *)

(** Reading a one-indexed array returns a row or fails with [IndexError]. *)
Lemma get_cases {A : Type} (arr : list A) a :
  (exists x, OneIndexed.get arr a = Returned x)
  \/ exists msg, OneIndexed.get arr a = Raised (IndexError msg).
Proof.
  destruct a as [|i]; cbn [OneIndexed.get]; [eauto|].
  destruct (arr !! i); eauto.
Qed.

Lemma get_beyond {A : Type} (arr : list A) a :
  length arr < a -> exists msg, OneIndexed.get arr a = Raised (IndexError msg).
Proof.
  intros Ha. destruct a as [|i]; [lia|]. cbn [OneIndexed.get].
  rewrite lookup_ge_None_2 by lia. eauto.
Qed.

Lemma take_atoms_cases {A : Type} (arr : list A) idx :
  (exists rows, OneIndexed.take_atoms arr idx = Returned rows /\ length rows = length idx)
  \/ exists msg, OneIndexed.take_atoms arr idx = Raised (IndexError msg).
Proof.
  unfold OneIndexed.take_atoms. induction idx as [|a idx IH]; cbn [omapM].
  - left. by exists [].
  - destruct (get_cases arr a) as [[x ->]|[msg ->]]; cbn [mbind outcome_bind]; [|eauto].
    destruct IH as [(rows & -> & Hlen)|[msg ->]]; cbn [mbind outcome_bind]; [|eauto].
    left. exists (x :: rows). split; [reflexivity|]. cbn. by rewrite Hlen.
Qed.

Lemma pressure_loop_beyond m self count : forall i tot,
  i <= length m + 1 ->
  length m + 1 < i + count ->
  exists msg, pressure_loop m self i count tot = Raised (IndexError msg).
Proof.
  induction count as [|count IH]; intros i tot Hi Hlen; [lia|].
  cbn [pressure_loop].
  destruct (decide (length m < i)) as [Hout|Hin].
  { destruct (get_beyond m i Hout) as [msg ->]. cbn [mbind outcome_bind]. eauto. }
  destruct (get_cases m i) as [[m_i ->]|[msg ->]]; cbn [mbind outcome_bind]; [|eauto].
  destruct (get_cases (velocities self) i) as [[v_i ->]|[msg ->]];
    cbn [mbind outcome_bind]; [|eauto].
  destruct (get_cases (positions self) i) as [[x_i ->]|[msg ->]];
    cbn [mbind outcome_bind]; [|eauto].
  destruct (get_cases (accelerations self) i) as [[a_i ->]|[msg ->]];
    cbn [mbind outcome_bind]; [|eauto].
  apply IH; lia.
Qed.

(** X13: [Frame.pressure] indexes the masses of the active atoms with the
    numbers of all atoms: whenever the trajectory lists fewer active atoms
    than the frame has positions, the call fails with an [IndexError],
    whatever the volume is. *)
Theorem pressure_fails_with_a_frozen_atom (volume : outcome Q) (t : Trajectory)
    (self : Frame) :
  length (active_atoms t) < length (positions self) ->
  exists msg, Frame_pressure volume t self = Raised (IndexError msg).
Proof.
  intros Hfrozen. unfold Frame_pressure, active_index.
  destruct (active_atoms t) as [|a0 atoms] eqn:Hactive; cbn [mbind outcome_bind]; [eauto|].
  destruct (take_atoms_cases (masses t) (a0 :: atoms)) as [(m & -> & Hlen)|[msg ->]];
    cbn [mbind outcome_bind]; [|eauto].
  destruct (pressure_loop_beyond m self (length (positions self)) 1 0%Q) as [msg ->];
    [lia|lia|].
  cbn [mbind outcome_bind]. eauto.
Qed.

Lemma pressure_fails_with_a_frozen_atom_witness :
  exists msg,
    Frame_pressure (Returned 1%Q) ex_com_trajectory ex_com_frame = Raised (IndexError msg).
Proof.
  apply (pressure_fails_with_a_frozen_atom (Returned 1%Q) ex_com_trajectory ex_com_frame).
  cbn. lia.
Defined.

Lemma q_sum_app (a b : list Q) : (q_sum (a ++ b) == q_sum a + q_sum b)%Q.
Proof.
  induction a as [|x a IH]; cbn [app].
  - change (q_sum []) with 0%Q. ring.
  - change (q_sum (x :: a ++ b)) with (x + q_sum (a ++ b))%Q.
    change (q_sum (x :: a)) with (x + q_sum a)%Q. rewrite IH. ring.
Qed.

Lemma q_sum_scaled (c : Q) (l : list Q) :
  (q_sum (map (fun x => c * x) l) == c * q_sum l)%Q.
Proof.
  induction l as [|x l IH]; cbn [map].
  - change (q_sum []) with 0%Q. ring.
  - change (q_sum ((c * x)%Q :: ?l')) with (c * x + q_sum l')%Q.
    change (q_sum (x :: l)) with (x + q_sum l)%Q. rewrite IH. ring.
Qed.

(** The entries of the outer product of [m] and [v] sum to the product of
    the two sums. *)
Lemma q_sum_outer (m v : list Q) :
  (q_sum (concat (map (fun m_i => map (fun v2 => m_i * v2) v) m)) == q_sum m * q_sum v)%Q.
Proof.
  induction m as [|m_i m IH]; cbn [map concat].
  - change (q_sum []) with 0%Q. ring.
  - rewrite q_sum_app, q_sum_scaled, IH.
    change (q_sum (m_i :: m)) with (m_i + q_sum m)%Q. ring.
Qed.

Lemma length_outer (m v : list Q) :
  length (concat (map (fun m_i => map (fun v2 => m_i * v2)%Q v) m)) = length m * length v.
Proof.
  induction m as [|m_i m IH]; [reflexivity|].
  cbn [map concat length]. rewrite length_app, length_map, IH. lia.
Qed.

(** X14: whenever [Frame.temperature] returns a number, at least one atom is
    active and the number is the mean mass of the active atoms times their
    mean squared speed, divided by [3 * kB]: the masses, reshaped to a
    column, are multiplied with the row of squared speeds, and the mean is
    taken over all pairs. *)
Theorem temperature_is_mean_mass_times_mean_square_speed (kB : Q) (t : Trajectory)
    (self : Frame) (T : Q) :
  Frame_temperature kB t self = Returned (Some T) ->
  exists m vs,
    OneIndexed.take_atoms (masses t) (active_atoms t) = Returned m
    /\ OneIndexed.take_atoms (velocities self) (active_atoms t) = Returned vs
    /\ active_atoms t <> []
    /\ let k := inject_Z (Z.of_nat (length (active_atoms t))) in
       (T == (q_sum m / k) * (q_sum (map (fun x => v3_dot x x) vs) / k) / (3 * kB))%Q.
Proof.
  unfold Frame_temperature, active_index.
  destruct (active_atoms t) as [|a0 atoms] eqn:Hactive; cbn [mbind outcome_bind];
    [discriminate|].
  rewrite <- Hactive.
  destruct (take_atoms_cases (velocities self) (active_atoms t))
    as [(vs & -> & Hvs)|[msg ->]]; cbn [mbind outcome_bind]; [|discriminate].
  destruct (take_atoms_cases (masses t) (active_atoms t))
    as [(m & -> & Hm)|[msg ->]]; cbn [mbind outcome_bind]; [|discriminate].
  unfold np_mean. rewrite length_outer, length_map.
  destruct (Nat.eqb_spec (length m * length vs) 0) as [|Hne].
  { destruct (q_is_zero _); discriminate. }
  unfold py_div. destruct (q_is_zero (3 * kB)) eqn:HkB; cbn [mbind outcome_bind]; [discriminate|].
  intros [= <-]. exists m, vs. split; [reflexivity|]. split; [reflexivity|].
  split.
  { intros Hnil. rewrite Hnil in Hm. cbn in Hm. rewrite Hm in Hne. lia. }
  cbv zeta. rewrite q_sum_outer. rewrite Hm, Hvs.
  assert (Hk : ~ (inject_Z (Z.of_nat (length (active_atoms t))) == 0)%Q).
  { rewrite Hm, Hvs in Hne. intros H0. unfold Qeq in H0. cbn in H0. lia. }
  unfold q_is_zero in HkB. apply Qeq_bool_neq in HkB.
  rewrite Nat2Z.inj_mul, inject_Z_mult.
  field. split; [exact Hk|]. intros H. apply HkB. rewrite H. ring.
Qed.

Lemma temperature_is_mean_mass_times_mean_square_speed_witness :
  exists m vs,
    OneIndexed.take_atoms (masses ex_unequal) (active_atoms ex_unequal) = Returned m
    /\ OneIndexed.take_atoms (velocities ex_unequal_frame) (active_atoms ex_unequal)
       = Returned vs
    /\ active_atoms ex_unequal <> []
    /\ let k := inject_Z (Z.of_nat (length (active_atoms ex_unequal))) in
       (16 # 12 == (q_sum m / k) * (q_sum (map (fun x => v3_dot x x) vs) / k) / (3 * 1))%Q.
Proof.
  apply (temperature_is_mean_mass_times_mean_square_speed 1%Q ex_unequal ex_unequal_frame
           (16 # 12)%Q).
  vm_compute. reflexivity.
Defined.

(** ** Potentials *)

Lemma expect_Returned {A : Type} (v : option A) msg a :
  expect v msg = Returned a -> v = Some a.
Proof. destruct v; [by intros [= ->]|discriminate]. Qed.

Lemma q_ltb_lt a b : q_ltb a b = true -> (a < b)%Q.
Proof.
  unfold q_ltb. intros H. apply negb_true_iff in H.
  apply Qnot_le_lt. intros Hle. apply Qle_bool_iff in Hle. congruence.
Qed.

Lemma SphericalHarmonicPotential_init_Returned r k convert p :
  SphericalHarmonicPotential_init r k convert = Returned p ->
  exists rv kv,
    py_numeric r = Some rv /\ py_numeric k = Some kv
    /\ (0 < rv)%Q /\ (0 < kv)%Q
    /\ radius p = rv /\ max_radius p = rv
    /\ force_constant p = (if convert then kv * (4184 # 10000000) else kv)%Q.
Proof.
  unfold SphericalHarmonicPotential_init. intros H.
  apply outcome_bind_Returned in H as (rv & Hr%expect_Returned & H).
  apply outcome_bind_Returned in H as ([] & Hrpos%py_assert_Returned%q_ltb_lt & H).
  apply outcome_bind_Returned in H as (kv & Hk%expect_Returned & H).
  apply outcome_bind_Returned in H as ([] & Hkpos%py_assert_Returned%q_ltb_lt & H).
  injection H as <-. exists rv, kv. done.
Qed.

(** X15: every potential that [build_potential] returns has a positive
    radius and a positive force constant, and [max_radius] equal to the
    radius.  The settings are a dictionary whose [type] is
    [spherical_harmonic] in any letter case and whose [radius] is the radius
    of the potential; the force constant is the given one, or 10 by default,
    times 0.0004184. *)
Theorem build_potential_gives_a_positive_sphere (settings : pyval)
    (p : SphericalHarmonicPotential) :
  build_potential settings = Returned p ->
  (0 < radius p)%Q /\ (0 < force_constant p)%Q /\ max_radius p = radius p
  /\ exists items type r,
       settings = PyDict items
       /\ dict_get "type" items = Some (PyStr type)
       /\ py_lower type = "spherical_harmonic"
       /\ dict_get "radius" items = Some r
       /\ py_numeric r = Some (radius p)
       /\ match dict_get "force_constant" items with
          | Some k => exists kv, py_numeric k = Some kv
                                 /\ force_constant p = (kv * (4184 # 10000000))%Q
          | None => force_constant p = (10 * (4184 # 10000000))%Q
          end.
Proof.
  unfold build_potential. intros H.
  apply outcome_bind_Returned in H as (items & Hitems%expect_Returned & H).
  apply outcome_bind_Returned in H as (ty & Hty%expect_Returned & H).
  apply outcome_bind_Returned in H as (type & Htype%expect_Returned & H).
  destruct settings; try discriminate. injection Hitems as ->.
  destruct ty; try discriminate. injection Htype as ->.
  destruct (bool_decide (py_lower type = "spherical_harmonic")) eqn:Hlower; [|discriminate].
  apply bool_decide_eq_true in Hlower.
  apply outcome_bind_Returned in H as (r & Hr%expect_Returned & H).
  apply outcome_bind_Returned in H as (rv & Hrv%expect_Returned & H).
  apply outcome_bind_Returned in H as ([] & _ & H).
  assert (Hinit : exists k, SphericalHarmonicPotential_init r k true = Returned p
            /\ match dict_get "force_constant" items with
               | Some k' => k = k'
               | None => k = PyInt 10
               end).
  { destruct (dict_get "force_constant" items) as [k|]; [|eauto].
    apply outcome_bind_Returned in H as (kv & _ & H).
    apply outcome_bind_Returned in H as ([] & _ & H). eauto. }
  destruct Hinit as (k & Hinit & Hk).
  apply SphericalHarmonicPotential_init_Returned in Hinit
    as (rv' & kv & Hr' & Hkv & Hrpos & Hkpos & Hradius & Hmax & Hforce).
  rewrite Hr' in Hrv. injection Hrv as ->.
  split; [by rewrite Hradius|].
  split.
  { rewrite Hforce. apply Qmult_lt_0_compat; [exact Hkpos|reflexivity]. }
  split; [by rewrite Hmax, Hradius|].
  exists items, type, r. repeat (split; [done|]).
  split; [by rewrite Hradius|].
  destruct (dict_get "force_constant" items) as [k'|]; subst k.
  - exists kv. done.
  - injection Hkv as <-. exact Hforce.
Qed.

Lemma build_potential_gives_a_positive_sphere_witness :
  build_potential ex_sphere
  = Returned {| radius := 15 # 2; force_constant := 10 * (4184 # 10000000);
                max_radius := 15 # 2 |}
  /\ (0 < 15 # 2)%Q.
Proof.
  split; [reflexivity|].
  apply (build_potential_gives_a_positive_sphere ex_sphere
           {| radius := 15 # 2; force_constant := 10 * (4184 # 10000000);
              max_radius := 15 # 2 |}).
  reflexivity.
Defined.

Section ForceFacts.
Variable sqrt : Q -> Q.

Lemma q_ltb_ge a b : q_ltb a b = false -> (b <= a)%Q.
Proof.
  unfold q_ltb. intros H. apply negb_false_iff in H. by apply Qle_bool_iff.
Qed.

Lemma q_is_zero_false q : ~ (q == 0)%Q -> q_is_zero q = false.
Proof.
  intros H. unfold q_is_zero. destruct (Qeq_bool q 0) eqn:Hq; [|reflexivity].
  apply Qeq_bool_iff in Hq. contradiction.
Qed.

(** X16: for a sphere of positive radius [R] and an atom at distance [r]
    from the origin, both square roots of the method being exact, the force
    of the potential on the atom is zero when [r < R], and otherwise the
    position scaled by [- k/2 * (r - R)^2 / r]: it points to the origin and
    has the size [k/2 * (r - R)^2]. *)
Theorem harmonic_force_is_central (self : SphericalHarmonicPotential) (positions : list V3)
    (i : nat) (x : V3) :
  positions !! i = Some x ->
  let r := norm sqrt x in
  let R := radius self in
  let d := v3_sub x (v3_scale R (v3_scale (/ r) x)) in
  (0 < R)%Q ->
  exact_at sqrt (v3_dot x x) ->
  exact_at sqrt (v3_dot d d) ->
  exists f,
    SphericalHarmonicPotential_force sqrt self positions !! i = Some (Some f)
    /\ if q_ltb r R then f = v3_zero
       else v3_eq f (v3_scale (- (force_constant self / 2) * ((r - R) * (r - R) / r)) x)%Q.
Proof.
  intros Hx r R d HR [Hr0 Hr2] [Hs0 Hs2].
  unfold SphericalHarmonicPotential_force.
  change (map ?f ?l) with (f <$> l). rewrite list_lookup_fmap, Hx. cbn [fmap option_fmap option_map].
  unfold force_row. fold r. fold R.
  destruct (q_ltb r R) eqn:Hin; [by eexists|].
  apply q_ltb_ge in Hin.
  assert (Hrpos : (0 < r)%Q) by lra.
  rewrite q_is_zero_false by lra.
  cbn [mbind option_bind]. fold d. eexists. split; [reflexivity|].
  fold (norm sqrt x) in Hr2. fold r in Hr2.
  fold (norm sqrt d) in Hs0, Hs2.
  assert (Hdd : (v3_dot d d == (r - R) * (r - R))%Q).
  { subst d. destruct x as [[x1 x2] x3]. cbn [v3_dot v3_sub v3_scale] in *.
    transitivity ((x1 * x1 + x2 * x2 + x3 * x3) * ((1 - R / r) * (1 - R / r)))%Q.
    - field. lra.
    - rewrite <- Hr2. field. lra. }
  assert (Hs : (norm sqrt d == r - R)%Q).
  { rewrite Hdd in Hs2. nra. }
  subst d. destruct x as [[x1 x2] x3]. cbn [v3_dot v3_sub v3_scale v3_eq] in *.
  rewrite Hs. repeat split; field; lra.
Qed.

End ForceFacts.


Lemma harmonic_force_is_central_witness :
  exists f,
    SphericalHarmonicPotential_force ex_sqrt ex_potential [(3, 4, 0)%Q] !! 0%nat
    = Some (Some f)
    /\ v3_eq f (v3_scale (- (2 / 2) * ((5 - 1) * (5 - 1) / 5)) (3, 4, 0))%Q.
Proof.
  apply (harmonic_force_is_central ex_sqrt ex_potential [(3, 4, 0)%Q] 0 (3, 4, 0)%Q).
  - reflexivity.
  - reflexivity.
  - split; [vm_compute; discriminate | vm_compute; reflexivity].
  - split; [vm_compute; discriminate | vm_compute; reflexivity].
Defined.

(** ** Calculators built from settings *)

Section BuildCalculatorFacts.
Context {Constraint : Type}.

Local Abbreviation calculator := (calculator Constraint).

(** What [build_calculator] does with a settings dictionary of type
    [oniom]. *)
Lemma build_calculator_oniom items type name (cs : list Constraint) :
  dict_get "type" items = Some (PyStr type) ->
  py_lower type = "oniom" ->
  build_calculator Constraint (PyDict items) name cs
  = (_ ← py_assert (bool_decide (is_Some (dict_get "high_calculator" items)))
           "Need `high_calculator` settings dictionary for ONIOM!";
     _ ← py_assert (bool_decide (is_Some (dict_get "low_calculator" items)))
           "Need `low_calculator` settings dictionary for ONIOM!";
     high ← match dict_get "high_calculator" items with
            | Some v => build_calculator Constraint v (name +:+ ".high") []
            | None => Raised (AssertionError
                        "Need `high_calculator` settings dictionary for ONIOM!")
            end;
     low ← match dict_get "low_calculator" items with
           | Some v => build_calculator Constraint v (name +:+ ".low") []
           | None => Raised (AssertionError
                       "Need `low_calculator` settings dictionary for ONIOM!")
           end;
     ONIOMCalculator_init Constraint high low cs).
Proof.
  intros Htype Hlower. cbn [build_calculator]. rewrite Htype.
  cbn [expect mbind outcome_bind py_str_value]. rewrite Hlower.
  rewrite bool_decide_eq_true_2 by reflexivity.
  match goal with
  | |- context [?f "high_calculator" ".high" _ items] =>
      assert (Hat : forall key suffix msg l,
                f key suffix msg l
                = match dict_get key l with
                  | Some v => build_calculator Constraint v (name +:+ suffix) []
                  | None => Raised (AssertionError msg)
                  end)
  end.
  { intros key suffix msg l. induction l as [|[k v] l IH]; [reflexivity|].
    cbn [dict_get]. destruct (decide (k = key)); [reflexivity|exact IH]. }
  rewrite !Hat. reflexivity.
Qed.

Lemma dict_get_smaller key items v :
  dict_get key items = Some v -> pyval_size v < pyval_size (PyDict items).
Proof.
  cbn [pyval_size].
  induction items as [|[k w] items IH]; cbn [dict_get]; [discriminate|].
  destruct (decide (k = key)) as [_|_].
  - intros [= ->]. lia.
  - intros H. specialize (IH H). lia.
Qed.

Lemma optional_int_positive key default msg msg' items z :
  (0 < default)%Z ->
  optional_int key default true msg msg' items = Returned z -> (0 < z)%Z.
Proof.
  intros Hd. unfold optional_int. destruct (dict_get key items) as [v|]; [|by intros [= <-]].
  intros H. apply outcome_bind_Returned in H as (z' & _ & H).
  apply outcome_bind_Returned in H as ([] & Hpos%py_assert_Returned & H).
  injection H as <-. lia.
Qed.

Lemma build_xtb_well_formed items name (cs : list Constraint) c :
  build_xtb Constraint items name cs = Returned c -> well_formed Constraint c.
Proof.
  unfold build_xtb. intros H.
  apply outcome_bind_Returned in H as (charge & _ & H).
  apply outcome_bind_Returned in H as (multiplicity & Hm%optional_int_positive & H); [|lia].
  apply outcome_bind_Returned in H as (gfn & Hgfn & H).
  apply outcome_bind_Returned in H as (parallel & Hp%optional_int_positive & H); [|lia].
  apply outcome_bind_Returned in H as (xcontrol & _ & H).
  apply outcome_bind_Returned in H as (topology & _ & H).
  unfold XTBCalculator_init in H.
  apply outcome_bind_Returned in H as ([] & _ & H).
  apply outcome_bind_Returned in H as ([] & Htop%py_assert_Returned & H).
  injection H as <-. cbn [well_formed xtb_multiplicity xtb_parallel xtb_gfn xtb_topology].
  split; [exact Hm|]. split; [exact Hp|]. split.
  - destruct (dict_get "gfn" items) as [v|]; [|by injection Hgfn as <-].
    apply outcome_bind_Returned in Hgfn as ([] & Hin%py_assert_Returned & Hgfn).
    by injection Hgfn as <-.
  - intros Hff. rewrite Hff in Htop. cbn in Htop. by apply bool_decide_eq_true in Htop.
Qed.

Lemma build_gaussian_well_formed items name (cs : list Constraint) c :
  build_gaussian Constraint items name cs = Returned c -> well_formed Constraint c.
Proof.
  unfold build_gaussian. intros H.
  apply outcome_bind_Returned in H as (charge & _ & H).
  apply outcome_bind_Returned in H as (multiplicity & Hm%optional_int_positive & H); [|lia].
  apply outcome_bind_Returned in H as (link0 & _ & H).
  apply outcome_bind_Returned in H as (rc & _ & H).
  apply outcome_bind_Returned in H as (route_card & _ & H).
  apply outcome_bind_Returned in H as ([] & Hp%py_assert_Returned & H).
  apply outcome_bind_Returned in H as ([] & Hforce%py_assert_Returned & H).
  apply outcome_bind_Returned in H as (footer & _ & H).
  apply outcome_bind_Returned in H as (chk & _ & H).
  unfold GaussianCalculator_init in H. rewrite Hforce in H. cbn [negb] in H.
  injection H as <-. done.
Qed.

Lemma set_constraints_well_formed (cs : list Constraint) c :
  well_formed Constraint c -> well_formed Constraint (set_constraints Constraint cs c).
Proof. by destruct c. Qed.

Lemma full_copy_well_formed c full :
  well_formed Constraint c -> full_copy Constraint c = Returned full ->
  well_formed Constraint full.
Proof.
  destruct c as [x|g|h l f cs]; cbn [full_copy]; [|by intros ? [= <-]..].
  destruct (py_eq_str (xtb_gfn Constraint x) "ff") eqn:Hff; [|by intros ? [= <-]].
  intros (Hm & Hp & Hgfn & Htop) H.
  apply outcome_bind_Returned in H as (t & _ & H). injection H as <-.
  cbn. eauto.
Qed.

(** X17: every calculator that [build_calculator] returns is well formed at
    every level of nesting: an xtb calculator has a positive multiplicity and
    number of threads, a [gfn] equal to 0, 1, 2 or "ff", and a topology path
    whenever [gfn] is "ff"; a Gaussian calculator has a positive multiplicity
    and a route card that contains "#p" and "force"; an ONIOM calculator has
    three such calculators. *)
Theorem build_calculator_returns_well_formed_calculators (settings : pyval)
    (checkpoint_filename : string) (constraints : list Constraint) (c : calculator) :
  build_calculator Constraint settings checkpoint_filename constraints = Returned c ->
  well_formed Constraint c.
Proof.
  remember (pyval_size settings) as n eqn:Hn.
  revert settings checkpoint_filename constraints c Hn.
  induction n as [n IH] using lt_wf_ind. intros settings name cs c -> Hbuild.
  destruct settings as [| | | | |items|]; try discriminate.
  pose proof Hbuild as Hcases. cbn [build_calculator] in Hcases.
  apply outcome_bind_Returned in Hcases as (ty & Hty%expect_Returned & Hcases).
  apply outcome_bind_Returned in Hcases as (type & Htype%expect_Returned & Hcases).
  destruct ty; try discriminate. injection Htype as ->.
  cbv zeta in Hcases.
  destruct (bool_decide (py_lower type = "oniom")) eqn:Honiom.
  - clear Hcases. apply bool_decide_eq_true in Honiom.
    rewrite (build_calculator_oniom items type name cs Hty Honiom) in Hbuild.
    apply outcome_bind_Returned in Hbuild as ([] & _ & Hbuild).
    apply outcome_bind_Returned in Hbuild as ([] & _ & Hbuild).
    apply outcome_bind_Returned in Hbuild as (high & Hhigh & Hbuild).
    apply outcome_bind_Returned in Hbuild as (low & Hlow & Hbuild).
    destruct (dict_get "high_calculator" items) as [hs|] eqn:Hhs; [|discriminate].
    destruct (dict_get "low_calculator" items) as [ls|] eqn:Hls; [|discriminate].
    assert (Hwh : well_formed Constraint high).
    { eapply (IH (pyval_size hs)); [by eapply dict_get_smaller|reflexivity|exact Hhigh]. }
    assert (Hwl : well_formed Constraint low).
    { eapply (IH (pyval_size ls)); [by eapply dict_get_smaller|reflexivity|exact Hlow]. }
    unfold ONIOMCalculator_init in Hbuild.
    apply outcome_bind_Returned in Hbuild as (full & Hfull & Hbuild).
    injection Hbuild as <-. cbn [well_formed].
    split; [exact Hwh|]. split; [exact Hwl|].
    apply set_constraints_well_formed. by eapply full_copy_well_formed.
  - destruct (bool_decide (py_lower type = "gaussian")).
    { by eapply build_gaussian_well_formed. }
    destruct (bool_decide (py_lower type = "xtb")); [|discriminate].
    by eapply build_xtb_well_formed.
Qed.

Lemma build_xtb_is_XTB items name (cs : list Constraint) c :
  build_xtb Constraint items name cs = Returned c ->
  exists x, c = XTB Constraint x /\ xtb_constraints Constraint x = cs
    /\ (dict_get "topology" items = None ->
        xtb_topology Constraint x
        = if py_eq_str (xtb_gfn Constraint x) "ff" then Some (name +:+ ".top") else None).
Proof.
  unfold build_xtb. intros H.
  apply outcome_bind_Returned in H as (charge & _ & H).
  apply outcome_bind_Returned in H as (multiplicity & _ & H).
  apply outcome_bind_Returned in H as (gfn & _ & H).
  apply outcome_bind_Returned in H as (parallel & _ & H).
  apply outcome_bind_Returned in H as (xcontrol & _ & H).
  apply outcome_bind_Returned in H as (topology & Htop & H).
  unfold XTBCalculator_init in H.
  apply outcome_bind_Returned in H as ([] & _ & H).
  apply outcome_bind_Returned in H as ([] & _ & H).
  injection H as <-. eexists. split; [reflexivity|]. split; [reflexivity|].
  intros Hnone. rewrite Hnone in Htop. by injection Htop as <-.
Qed.

Lemma build_gaussian_is_Gaussian items name (cs : list Constraint) c :
  build_gaussian Constraint items name cs = Returned c -> exists g, c = Gaussian Constraint g.
Proof.
  unfold build_gaussian. intros H.
  repeat (apply outcome_bind_Returned in H as (? & _ & H)).
  unfold GaussianCalculator_init in H. destruct (negb _); [discriminate|].
  injection H as <-. eauto.
Qed.

(** An xtb calculator comes from settings of type [xtb]. *)
Lemma build_calculator_XTB items name (cs : list Constraint) x :
  build_calculator Constraint (PyDict items) name cs = Returned (XTB Constraint x) ->
  build_xtb Constraint items name cs = Returned (XTB Constraint x).
Proof.
  intros Hbuild. pose proof Hbuild as Hcases. cbn [build_calculator] in Hcases.
  apply outcome_bind_Returned in Hcases as (ty & Hty%expect_Returned & Hcases).
  apply outcome_bind_Returned in Hcases as (type & Htype%expect_Returned & Hcases).
  destruct ty; try discriminate. injection Htype as ->.
  cbv zeta in Hcases.
  destruct (bool_decide (py_lower type = "oniom")) eqn:Honiom.
  - clear Hcases. apply bool_decide_eq_true in Honiom.
    rewrite (build_calculator_oniom items type name cs Hty Honiom) in Hbuild.
    repeat (apply outcome_bind_Returned in Hbuild as (? & _ & Hbuild)).
    discriminate.
  - destruct (bool_decide (py_lower type = "gaussian")).
    { apply build_gaussian_is_Gaussian in Hcases as [g Hg]. discriminate. }
    destruct (bool_decide (py_lower type = "xtb")); [exact Hcases|discriminate].
Qed.

End BuildCalculatorFacts.

(** *** Replacing in strings *)

Lemma starts_with_length pat s : starts_with pat s = true -> length pat <= length s.
Proof.
  revert s. induction pat as [|p pat IH]; intros [|c s]; cbn; try lia; try discriminate.
  intros [_ H]%andb_true_iff. specialize (IH s H). lia.
Qed.

(** With a replacement longer than the pattern, replacing makes the string
    longer exactly when the pattern occurs. *)
Lemma replace_all_length old new s : forall skip,
  old <> [] -> length old < length new ->
  length s - skip <= length (replace_all old new skip s)
  /\ (occurs_in old (drop skip s) = true ->
      length s - skip < length (replace_all old new skip s)).
Proof.
  induction s as [|c s IH]; intros skip Hold Hlen.
  - cbn [replace_all length]. split; [lia|].
    rewrite drop_nil. destruct old; [done|]. cbn. discriminate.
  - destruct skip as [|skip].
    + cbn [replace_all drop]. destruct (starts_with old (c :: s)) eqn:Hstart.
      * apply starts_with_length in Hstart. cbn [length] in Hstart.
        destruct (IH (pred (length old)) Hold Hlen) as [Hge _].
        rewrite length_app. cbn [length]. rewrite Nat.sub_0_r.
        assert (1 <= length old) by (destruct old; [done|cbn; lia]).
        split; [lia|]. intros _. lia.
      * destruct (IH 0 Hold Hlen) as [Hge Hgt]. cbn [length drop] in *.
        split; [lia|]. cbn [occurs_in]. rewrite Hstart. cbn [orb].
        intros H. specialize (Hgt H). lia.
    + cbn [replace_all drop length]. apply IH; done.
Qed.

Lemma replace_all_absent old new s :
  occurs_in old s = false -> replace_all old new 0 s = s.
Proof.
  induction s as [|c s IH]; [reflexivity|].
  cbn [occurs_in replace_all]. intros [Hstart Hrest]%orb_false_iff.
  rewrite Hstart. by rewrite IH.
Qed.

Lemma occurs_in_start pat s : starts_with pat s = true -> occurs_in pat s = true.
Proof. intros H. destruct s; cbn [occurs_in]; by rewrite H. Qed.

Lemma starts_with_app pat s : starts_with pat (pat ++ s) = true.
Proof.
  induction pat as [|p pat IH]; [reflexivity|].
  cbn. rewrite bool_decide_eq_true_2 by reflexivity. exact IH.
Qed.

Lemma occurs_in_app pat a b : occurs_in pat (a ++ pat ++ b) = true.
Proof.
  induction a as [|c a IH]; cbn [app].
  - apply occurs_in_start, starts_with_app.
  - cbn [occurs_in]. rewrite IH. apply orb_true_r.
Qed.

(** Replacing [".low"] by [".full"] leaves a path as it is exactly when
    [".low"] does not occur in it. *)
Lemma py_replace_low_full t :
  py_replace ".low" ".full" t = t <-> re_search ".low" t = false.
Proof.
  unfold py_replace, re_search. split.
  - intros Heq. destruct (occurs_in _ _) eqn:Hocc; [|reflexivity]. exfalso.
    apply (f_equal list_ascii_of_string) in Heq.
    rewrite list_ascii_of_string_of_list_ascii in Heq.
    apply (f_equal length) in Heq.
    destruct (replace_all_length (list_ascii_of_string ".low") (list_ascii_of_string ".full")
                (list_ascii_of_string t) 0) as [_ Hgt]; [done|cbn; lia|].
    specialize (Hgt Hocc). lia.
  - intros Hocc. rewrite replace_all_absent by exact Hocc.
    apply string_of_list_ascii_of_string.
Qed.

Section ONIOMSettingsFacts.
Context {Constraint : Type}.

(** X18: settings of type [oniom] give an ONIOM calculator whose high and
    low calculators are built from the two nested settings under the
    checkpoint names [name.high] and [name.low], without constraints.  When
    the low calculator is GFN-FF, the calculator of the full system is its
    copy with the constraints of the ONIOM calculator and the topology path
    with every ".low" replaced by ".full": the two paths differ exactly when
    the path of the low calculator contains ".low", which holds for
    the default path [name.low.top]. *)
Theorem oniom_full_topology_is_renamed (items : list (string * pyval)) (type name : string)
    (cs : list Constraint) (c : calculator Constraint) :
  dict_get "type" items = Some (PyStr type) ->
  py_lower type = "oniom" ->
  build_calculator Constraint (PyDict items) name cs = Returned c ->
  exists hs ls high low full,
    dict_get "high_calculator" items = Some hs
    /\ dict_get "low_calculator" items = Some ls
    /\ build_calculator Constraint hs (name +:+ ".high") [] = Returned high
    /\ build_calculator Constraint ls (name +:+ ".low") [] = Returned low
    /\ c = ONIOM Constraint high low full cs
    /\ forall x, low = XTB Constraint x -> py_eq_str (xtb_gfn Constraint x) "ff" = true ->
         exists t y,
           xtb_topology Constraint x = Some t
           /\ full = XTB Constraint y
           /\ xtb_constraints Constraint y = cs
           /\ xtb_topology Constraint y = Some (py_replace ".low" ".full" t)
           /\ (xtb_topology Constraint y = xtb_topology Constraint x
               <-> re_search ".low" t = false)
           /\ forall ls_items, ls = PyDict ls_items -> dict_get "topology" ls_items = None ->
                t = (name +:+ ".low") +:+ ".top"
                /\ xtb_topology Constraint y <> xtb_topology Constraint x.
Proof.
  intros Hty Honiom Hbuild.
  rewrite (build_calculator_oniom items type name cs Hty Honiom) in Hbuild.
  apply outcome_bind_Returned in Hbuild as ([] & _ & Hbuild).
  apply outcome_bind_Returned in Hbuild as ([] & _ & Hbuild).
  apply outcome_bind_Returned in Hbuild as (high & Hhigh & Hbuild).
  apply outcome_bind_Returned in Hbuild as (low & Hlow & Hbuild).
  destruct (dict_get "high_calculator" items) as [hs|] eqn:Hhs; [|discriminate].
  destruct (dict_get "low_calculator" items) as [ls|] eqn:Hls; [|discriminate].
  unfold ONIOMCalculator_init in Hbuild.
  apply outcome_bind_Returned in Hbuild as (full & Hfull & Hbuild).
  injection Hbuild as <-.
  exists hs, ls, high, low, (set_constraints Constraint cs full).
  repeat (split; [done|]).
  intros x -> Hff. cbn [full_copy] in Hfull. rewrite Hff in Hfull.
  apply outcome_bind_Returned in Hfull as (t' & Ht' & Hfull). injection Hfull as <-.
  destruct (xtb_topology Constraint x) as [t|] eqn:Htop; [|discriminate].
  injection Ht' as <-.
  eexists t, _. split; [reflexivity|]. split; [reflexivity|].
  cbn [set_constraints xtb_constraints xtb_topology]. split; [reflexivity|].
  split; [reflexivity|].
  assert (Hiff : Some (py_replace ".low" ".full" t) = Some t <-> re_search ".low" t = false).
  { rewrite <- py_replace_low_full. split; [by intros [= ->]|by intros ->]. }
  split; [exact Hiff|].
  intros ls_items -> Hnone.
  apply build_calculator_XTB, build_xtb_is_XTB in Hlow as (x' & [= <-] & _ & Hdefault).
  rewrite (Hdefault Hnone), Hff in Htop. injection Htop as <-.
  split; [reflexivity|]. rewrite Hiff.
  unfold re_search. rewrite !chars_app.
  rewrite <- app_assoc, occurs_in_app. discriminate.
Qed.

End ONIOMSettingsFacts.

Lemma build_calculator_returns_well_formed_calculators_witness :
  well_formed unit ex_oniom_calculator.
Proof.
  apply (build_calculator_returns_well_formed_calculators ex_oniom_settings "run.chk" [tt]).
  vm_compute. reflexivity.
Defined.

Lemma oniom_full_topology_is_renamed_witness :
  exists high full y,
    build_calculator unit ex_oniom_settings "run.chk" [tt]
    = Returned (ONIOM unit high (XTB unit (ex_low_xtb [] "run.chk.low.top")) full [tt])
    /\ full = XTB unit y
    /\ xtb_topology unit y = Some "run.chk.full.top".
Proof.
  destruct (oniom_full_topology_is_renamed
              [("type", PyStr "ONIOM");
               ("high_calculator",
                PyDict [("type", PyStr "gaussian");
                        ("route_card", PyStr "#p hf/3-21g force");
                        ("gaussian_chk", PyBool true)]);
               ("low_calculator", PyDict [("type", PyStr "xtb"); ("gfn", PyStr "ff")])]
              "ONIOM" "run.chk" [tt] ex_oniom_calculator)
    as (hs & ls & high & low & full & _ & _ & _ & Hlow & Hc & Hfull);
    [reflexivity | reflexivity | vm_compute; reflexivity |].
  injection Hc as <- <- <-.
  destruct (Hfull (ex_low_xtb [] "run.chk.low.top") eq_refl eq_refl)
    as (t & y & Ht & Hy & _ & Htop & _).
  injection Ht as <-.
  eexists _, _, y. split; [vm_compute; reflexivity|]. split; [exact Hy|exact Htop].
Defined.

(** ** Saving twice *)

(** The last frame is selected, and is the last one selected, when it is
    later than the last saved time and on the grid. *)
Lemma frames_to_add_last s period fs : forall l f t,
  frames_to_add s period fs = Returned l ->
  last fs = Some f ->
  time f = Some t ->
  match s with Some s => q_leb t s = false | None => True end ->
  on_grid period t ->
  last l = Some f.
Proof.
  induction fs as [|g fs IH]; intros l f t Hadd Hlast Ht Hlate Hgrid; [discriminate|].
  cbn [frames_to_add] in Hadd.
  destruct (Frame_time g) as [tg| |] eqn:Htg; cbn [mbind outcome_bind] in Hadd;
    [|discriminate|discriminate].
  apply Frame_time_Returned in Htg.
  destruct fs as [|g' fs'].
  - injection Hlast as ->. rewrite Ht in Htg. injection Htg as <-.
    assert (Hskip : match s with Some s0 => q_leb t s0 | None => false end = false).
    { destruct s; [exact Hlate|reflexivity]. }
    rewrite Hskip in Hadd.
    destruct (py_mod t period) as [r| |] eqn:Hmod; cbn [mbind outcome_bind] in Hadd;
      [|discriminate|discriminate].
    cbn [frames_to_add mbind outcome_bind] in Hadd.
    apply (py_mod_zero_iff t period r Hmod) in Hgrid. rewrite Hgrid in Hadd.
    by injection Hadd as <-.
  - assert (Hlast' : last (g' :: fs') = Some f) by exact Hlast.
    destruct (match s with Some s0 => q_leb tg s0 | None => false end).
    + eapply IH; eauto.
    + destruct (py_mod tg period) as [r| |]; cbn [mbind outcome_bind] in Hadd;
        [|discriminate|discriminate].
      destruct (frames_to_add s period (g' :: fs')) as [rest| |] eqn:Hrest;
        cbn [mbind outcome_bind] in Hadd; [|discriminate|discriminate].
      pose proof (IH rest f t eq_refl Hlast' Ht Hlate Hgrid) as Hr.
      injection Hadd as <-. destruct (q_is_zero r); [|exact Hr].
      destruct rest; [discriminate|exact Hr].
Qed.

Lemma quot_pos_iff n d : (0 < d)%Z -> (0 < Z.quot n d <-> d <= n)%Z.
Proof. intros Hd. Z.to_euclidean_division_equations. nia. Qed.

(** [int(q)] is positive exactly from 1 upwards. *)
Lemma py_int_positive q : (0 < py_int q)%Z <-> (1 <= q)%Q.
Proof. unfold py_int, Qle. cbn. rewrite quot_pos_iff by lia. lia. Qed.

Lemma last_drop_lt {A : Type} (k : nat) (l : list A) :
  k < length l -> last (drop k l) = last l.
Proof.
  intros Hk. rewrite <- (take_drop k l) at 2. rewrite last_app.
  destruct (last (drop k l)) eqn:Hlast; [reflexivity|].
  apply last_None in Hlast. apply (f_equal length) in Hlast.
  rewrite length_drop in Hlast. cbn in Hlast. lia.
Qed.

Lemma py_last_Returned {A : Type} (l : list A) x : py_last l = Returned x <-> last l = Some x.
Proof.
  unfold py_last. destruct (last l); split; intros H; try discriminate; by injection H as ->.
Qed.

Lemma length_resize {A : Type} n (fill : A) arr : length (resize n fill arr) = n.
Proof. unfold resize. rewrite length_app, length_take, length_replicate. lia. Qed.

(** Writing a tail that is not empty makes its last entry the last entry of
    the dataset. *)
Lemma assign_tail_last {A : Type} k (vals arr w : list A) :
  assign_tail k vals arr = Returned w ->
  length vals = k -> k <= length arr -> vals <> [] ->
  last w = last vals.
Proof.
  unfold assign_tail. intros H Hlen Hk Hne.
  rewrite Nat.min_l in H by exact Hk.
  destruct (decide (length vals = k)) as [_|]; [|done].
  injection H as <-. rewrite last_app.
  destruct (last vals) eqn:Hlast; [reflexivity|].
  by apply last_None in Hlast.
Qed.

Lemma last_times fs times f t :
  omapM Frame_time fs = Returned times -> last fs = Some f -> time f = Some t ->
  last times = Some t.
Proof.
  intros Htimes Hlast Ht. apply omapM_Frame_time in Htimes.
  apply (f_equal last) in Htimes.
  change (map ?g ?l) with (g <$> l) in Htimes. rewrite !fmap_last, Hlast in Htimes.
  cbn in Htimes. rewrite Ht in Htimes.
  destruct (last times); [by injection Htimes as -> | discriminate].
Qed.

(** A save on an existing checkpoint for which no new frame is due stores the
    two flags and returns. *)
Lemma save_no_new_frames keep_all w name h5 last t s :
  checkpoint_filename (traj w) = Some name ->
  file w = Some h5 ->
  py_last (frames (traj w)) = Returned last ->
  time last = Some t ->
  py_last (all_times h5) = Returned s ->
  count_new_frames t s (timestep (traj w)) (save_interval (traj w)) = Returned 0%Z ->
  runM (save keep_all) w
  = (Returned tt,
     {| traj := traj w; file := Some (store_flags (traj w) h5); lock_held := false |}).
Proof.
  intros Hname Hfile Hlast Ht Hs Hcount. unfold save.
  step_M. rewrite Hname. step_M. rewrite runM_bind. cbn [runM lift]. rewrite Hlast.
  rewrite runM_bind. cbn [runM lift]. unfold Frame_time. rewrite Ht. cbn [getattr].
  step_M. rewrite Hfile. step_M.
  rewrite runM_bind. cbn [runM lift]. rewrite Hs.
  rewrite runM_bind. cbn [runM lift]. rewrite Hcount.
  reflexivity.
Qed.

(** The save period of a positive timestep and save interval is positive. *)
Lemma float_period_positive timestep save_interval :
  (0 < timestep)%Q -> (0 < save_interval)%Z ->
  (0 < float_mul timestep (float_of_int save_interval))%Q.
Proof.
  intros Hts Hsi. unfold float_mul, float_of_int.
  apply round64_positive. apply Qmult_lt_0_compat; [exact Hts|].
  apply round64_positive. change 0%Q with (inject_Z 0). by rewrite <- Zlt_Qlt.
Qed.

Lemma count_new_frames_same t timestep save_interval :
  (0 < timestep)%Q -> (0 < save_interval)%Z ->
  count_new_frames t t timestep save_interval = Returned 0%Z.
Proof.
  intros Hts Hsi. unfold count_new_frames.
  pose proof (float_period_positive timestep save_interval Hts Hsi) as Hperiod.
  set (period := float_mul timestep (float_of_int save_interval)) in *.
  assert (Hne : ~ (period == 0)%Q) by lra.
  rewrite q_is_zero_false by exact Hne. f_equal.
  unfold float_sub, float_div.
  rewrite (round64_0 (t - t)) by ring.
  rewrite (round64_0 (0 / period)) by (field; exact Hne).
  reflexivity.
Qed.

(** A positive number of new frames is counted only when the last frame is
    later than the last saved time. *)
Lemma count_new_frames_positive t s timestep save_interval n :
  (0 < timestep)%Q -> (0 < save_interval)%Z ->
  count_new_frames t s timestep save_interval = Returned n -> (0 < n)%Z ->
  (s < t)%Q.
Proof.
  intros Hts Hsi Hcount Hpos. unfold count_new_frames in Hcount.
  pose proof (float_period_positive timestep save_interval Hts Hsi) as Hperiod.
  set (period := float_mul timestep (float_of_int save_interval)) in *.
  destruct (q_is_zero period); [by destruct (q_is_zero _)|].
  injection Hcount as <-. apply py_int_positive in Hpos.
  destruct (Qlt_le_dec s t) as [|Hle]; [done|]. exfalso.
  assert (Hdiff : (float_sub t s <= 0)%Q).
  { unfold float_sub. destruct (Qeq_dec (t - s) 0) as [H0|Hne].
    - rewrite (round64_0 _ H0). lra.
    - apply Qlt_le_weak, round64_negative. lra. }
  assert (Hquot : (float_sub t s / period <= 0)%Q).
  { unfold Qdiv. rewrite <- (Qmult_0_l (/ period)).
    apply Qmult_le_compat_r; [exact Hdiff|]. apply Qlt_le_weak, Qinv_lt_0_compat, Hperiod. }
  assert (Hq : (float_div (float_sub t s) period <= 0)%Q).
  { unfold float_div. destruct (Qeq_dec (float_sub t s / period) 0) as [H0|Hne].
    - rewrite (round64_0 _ H0). lra.
    - apply Qlt_le_weak, round64_negative. lra. }
  lra.
Qed.

(** After a save that has returned, no frame is due: the last saved time is
    that of the last frame in memory, or nothing was due before. *)
Lemma save_leaves_nothing_due keep_all w w1 name newest t :
  checkpoint_filename (traj w) = Some name ->
  (0 < timestep (traj w))%Q -> (0 < save_interval (traj w))%Z ->
  py_last (frames (traj w)) = Returned newest ->
  time newest = Some t ->
  on_grid (save_period (traj w)) t ->
  runM (save keep_all) w = (Returned tt, w1) ->
  exists h5' s',
    file w1 = Some h5' /\ lock_held w1 = false
    /\ attr_finished h5' = finished (traj w) /\ attr_forwards h5' = forwards (traj w)
    /\ py_last (all_times h5') = Returned s'
    /\ count_new_frames t s' (timestep (traj w)) (save_interval (traj w)) = Returned 0%Z
    /\ (traj w1 = traj w
        \/ traj w1 = with_frames
                       (py_slice (Some (- buffer (traj w))%Z) None (frames (traj w)))
                       (traj w)).
Proof.
  intros Hname Hts Hsi Hlast Ht Hgrid Hrun.
  apply py_last_Returned in Hlast.
  destruct (file w) as [h5|] eqn:Hfile.
  - destruct (save_append_Returned keep_all w w1 name h5 Hname Hfile Hrun)
      as (last' & t_run & t_saved & n_new & Hlast' & Htime & Hsaved & Hcount
          & [[-> ->]|[Hpos Hnew]]).
    + apply py_last_Returned in Hlast'. rewrite Hlast in Hlast'. injection Hlast' as <-.
      apply Frame_time_Returned in Htime. rewrite Ht in Htime. injection Htime as <-.
      exists (store_flags (traj w) h5), t_saved. cbn. eauto 10.
    + apply py_last_Returned in Hlast'. rewrite Hlast in Hlast'. injection Hlast' as <-.
      apply Frame_time_Returned in Htime. rewrite Ht in Htime. injection Htime as <-.
      cbv zeta in Hnew.
      destruct Hnew as (to_add & times & wt & we & wx & wv & wa & wb & Hadd & Hlen & Htimes
                        & Hwt & _ & _ & _ & _ & _ & ->).
      (* the last frame is later than the last saved time *)
      assert (Hlate : q_leb t t_saved = false).
      { pose proof (count_new_frames_positive _ _ _ _ _ Hts Hsi Hcount Hpos) as Hlt.
        unfold q_leb. destruct (Qle_bool t t_saved) eqn:Hle; [|reflexivity].
        apply Qle_bool_iff in Hle. lra. }
      (* it is the last frame of the slice, and of the frames selected *)
      assert (Hslice : last (py_slice (Some (- (n_new * save_interval (traj w)) - 1)%Z) None
                               (frames (traj w))) = Some newest).
      { replace (- (n_new * save_interval (traj w)) - 1)%Z
          with (- (n_new * save_interval (traj w) + 1))%Z by lia.
        rewrite py_slice_tail by nia. rewrite last_drop_lt; [exact Hlast|].
        destruct (frames (traj w)); [discriminate|]. cbn [length]. nia. }
      pose proof (frames_to_add_last _ _ _ _ _ _ Hadd Hslice Ht Hlate Hgrid) as Hselected.
      pose proof (last_times _ _ _ _ Htimes Hselected Ht) as Hlt.
      assert (Hlent : length times = length to_add).
      { apply omapM_Frame_time in Htimes.
        by rewrite <- (length_map Some times), <- Htimes, length_map. }
      apply assign_tail_last in Hwt;
        [|lia|rewrite length_resize; lia|intros ->; discriminate].
      eexists _, t. cbn [file lock_held traj attr_finished attr_forwards all_times].
      split; [reflexivity|]. split; [reflexivity|]. split; [reflexivity|].
      split; [reflexivity|].
      split; [apply py_last_Returned; cbn [all_times]; by rewrite Hwt|].
      split; [by apply count_new_frames_same|].
      destruct keep_all; [by left|by right].
  - destruct (save_create_Returned keep_all w w1 name Hname Hfile Hrun)
      as (to_add & times & Hadd & _ & Htimes & _ & ->).
    pose proof (frames_to_add_last _ _ _ _ _ _ Hadd Hlast Ht I Hgrid) as Hselected.
    pose proof (last_times _ _ _ _ Htimes Hselected Ht) as Hlt.
    eexists _, t. cbn [file lock_held traj attr_finished attr_forwards all_times].
    split; [reflexivity|]. split; [reflexivity|]. split; [reflexivity|].
    split; [reflexivity|].
    split; [apply py_last_Returned; cbn [all_times]; exact Hlt|].
    split; [by apply count_new_frames_same|].
    destruct keep_all; [by left|by right].
Qed.

(** X19: for a positive timestep, save interval and buffer, and a newest
    frame whose time is an integer multiple of the float
    [timestep * save_interval]: once a save has returned, a second save
    returns too and leaves the trajectory, the checkpoint file and the lock
    exactly as the first one left them. *)
Theorem save_again_changes_nothing (keep_all keep_all' : bool) (w w1 : world)
    (name : string) (newest : Frame) (t : Q) :
  checkpoint_filename (traj w) = Some name ->
  (0 < timestep (traj w))%Q ->
  (0 < save_interval (traj w))%Z ->
  (0 < buffer (traj w))%Z ->
  py_last (frames (traj w)) = Returned newest ->
  time newest = Some t ->
  on_grid (save_period (traj w)) t ->
  runM (save keep_all) w = (Returned tt, w1) ->
  runM (save keep_all') w1 = (Returned tt, w1).
Proof.
  intros Hname Hts Hsi Hbuf Hlast Ht Hgrid Hrun.
  destruct (save_leaves_nothing_due keep_all w w1 name newest t Hname Hts Hsi Hlast Ht Hgrid Hrun)
    as (h5' & s' & Hfile & Hlock & Hfin & Hfwd & Hs' & Hcount & Htraj).
  assert (Hsame : checkpoint_filename (traj w1) = Some name
            /\ timestep (traj w1) = timestep (traj w)
            /\ save_interval (traj w1) = save_interval (traj w)
            /\ finished (traj w1) = finished (traj w)
            /\ forwards (traj w1) = forwards (traj w)
            /\ py_last (frames (traj w1)) = Returned newest).
  { destruct Htraj as [->| ->]; [done|].
    cbn [with_frames checkpoint_filename timestep save_interval finished forwards frames].
    repeat (split; [done|]).
    rewrite py_slice_tail by exact Hbuf. rewrite py_last_drop; [exact Hlast|].
    apply py_last_Returned in Hlast. destruct (frames (traj w)); [discriminate|].
    cbn [length]. lia. }
  destruct Hsame as (Hname1 & Hts1 & Hsi1 & Hfin1 & Hfwd1 & Hlast1).
  rewrite (save_no_new_frames keep_all' w1 name h5' newest t s' Hname1 Hfile Hlast1 Ht Hs')
    by (by rewrite Hts1, Hsi1).
  f_equal. destruct w1 as [tr fl lk]. cbn [traj file lock_held] in *. subst fl lk.
  f_equal. f_equal. unfold store_flags. rewrite Hfin1, Hfwd1, <- Hfin, <- Hfwd.
  by destruct h5'.
Qed.

Lemma save_again_changes_nothing_witness :
  let w1 := (runM (save false) ex_small_buffer).2 in
  runM (save true) w1 = (Returned tt, w1).
Proof.
  cbn zeta.
  apply (save_again_changes_nothing false true ex_small_buffer
           (runM (save false) ex_small_buffer).2 "run.chk" (ex_frame 3%Q) 3%Q).
  - reflexivity.
  - reflexivity.
  - reflexivity.
  - reflexivity.
  - reflexivity.
  - reflexivity.
  - exists 3%Z. reflexivity.
  - vm_compute. reflexivity.
Defined.
